(** * Extraction diagnostics and worker recycling

    A shallow embedding of [server/utils/debug-logger.ts] (the [DebugLogger]
    class and its exported singleton [debugLogger]) and of the process
    recycling utilities ([MemoryMonitor], [ProcessRecyclingManager]), with
    the properties of the specification stated and settled against them.

    Conventions of the embedding.
    - JavaScript numbers that hold instants, durations, byte counts, ranks
      and counters are integers ([Z]); quantities obtained by a division
      (megabytes, averages) are exact rationals ([Q]); a number that can be
      [NaN] has a type with a [NaN] constructor.
    - An optional property is an [option]; a payload typed [any] is a
      partial record: each known property is absent or holds a value of
      its declared type, every other property is kept in an association
      list of dynamic values.
    - [Date.now()] and [process.memoryUsage()] read an oracle, the n-th call
      returning the n-th value; [global.gc] only influences what the oracle
      yields and is not modelled apart.
    - The console is a trace of structured entries, one constructor per
      template literal of the source.
    - A file holds the value that was serialised into it; [JSON.parse] of a
      file gives that value back, or throws when the file holds text that
      is not JSON.
    - The sessions directory is flat: the file operations are modelled for
      names that are a single path component ([validName]), and every
      statement about a write carries that as a hypothesis.
    - Arrays are values. The source stores the array of a payload itself,
      without a copy; what holds only as long as no array is shared between
      two sessions is not stated here. *)

From Stdlib Require Import Ascii ZArith QArith Lia.
From stdpp Require Import base option list strings pretty gmap.

Local Open Scope Z_scope.

(** ** JavaScript values *)

(** A counter read from a property that may be missing: [x++] on [undefined]
    or on [NaN] yields [NaN]. *)
Inductive JsCount :=
| CUndefined
| CNaN
| CNum (n : Z).

Definition increment (c : JsCount) : JsCount :=
  match c with
  | CNum n => CNum (n + 1)
  | CUndefined | CNaN => CNaN
  end.

(** The result of a floating division. *)
Inductive JsNumber :=
| NaN
| Infinity (negative : bool)
| Finite (q : Q).

(** [a / b] for integers [a] and [b]. *)
Definition divide (a b : Z) : JsNumber :=
  if b =? 0 then
    if a =? 0 then NaN else Infinity (a <? 0)
  else Finite (inject_Z a / inject_Z b)%Q.

(** The stage-specific properties that the interfaces declare besides
    those of the canvas-extraction stage: flags, numbers, texts, lists of
    field names and the resize steps. *)
Inductive JsVal :=
| VBool (b : bool)
| VNum (q : Q)
| VStr (s : string)
| VStrings (items : list string)
| VSteps (steps : list (string * Z)).

(** What the code can throw: a [TypeError] of the engine with its message,
    the [SyntaxError] of [JSON.parse] (its message depends on the text and
    on the engine and is left out), and an error of [fs] with its code. *)
Inductive JsError :=
| TypeError (message : string)
| SyntaxError
| SystemError (code : string).

(** [s.endsWith(suffix)] *)
Definition endsWith (s suffix : string) : bool :=
  let n := String.length s in
  let k := String.length suffix in
  if (k <=? n)%nat then String.eqb (String.substring (n - k) k s) suffix else false.

(** Truthiness of an optional string: [undefined] and the empty string are falsy. *)
Definition truthy_string (s : option string) : bool :=
  match s with
  | Some t => negb (String.eqb t EmptyString)
  | None => false
  end.

(** ** Data model of the debug logger *)

Module MemoryUsage.
(** What [process.memoryUsage()] returns, in bytes. *)
Record t := mk {
  heapUsed : Z;
  heapTotal : Z;
  external : Z;
  rss : Z;
}.
End MemoryUsage.

(** [bytes / 1024 / 1024]; exact, the divisors being powers of two. *)
Definition toMB (bytes : Z) : Q := (inject_Z bytes / 1024 / 1024)%Q.

(** [Math.round(bytes / 1024 / 1024 * 100) / 100], read in exact
    arithmetic: the nearest hundredth of a megabyte, halves rounded up. *)
Definition roundMB (bytes : Z) : Q :=
  Qmake ((bytes * 200 + 1048576) / 2097152) 100.

Module MemorySnapshot.
(** The [memory] property of a checkpoint, in megabytes. *)
Record t := mk {
  heapUsed : Q;
  heapTotal : Q;
  external : Q;
  rss : Q;
}.
End MemorySnapshot.

Module TimingCheckpoint.
Record t := mk {
  name : string;
  timestamp : Z;
  elapsed : Z;
  memory : option MemorySnapshot.t;
}.
End TimingCheckpoint.

Module Dimensions.
Record t := mk { width : Z; height : Z }.
End Dimensions.

Module DomState.
Record t := mk {
  canvasFound : bool;
  canvasDimensions : option Dimensions.t;
  shadowRootFound : bool;
  smartframeEmbedFound : bool;
  selectors : list string;
}.
End DomState.

Module ExtractionDetails.
Record t := mk {
  format : option string;
  size : option Z;
  dimensions : option Dimensions.t;
  checksumStable : option bool;
}.
End ExtractionDetails.

Module MethodAttempt.
Record t := mk {
  methodName : string;
  methodNumber : Z;
  startTime : Z;
  endTime : option Z;
  duration : option Z;
  success : bool;
  error : option string;
  domState : option DomState.t;
  extractionDetails : option ExtractionDetails.t;
}.
End MethodAttempt.

(** The keys of [ImageDebugSession["stages"]]. *)
Inductive StageName :=
| queueAdded | browserLaunch | navigation | cookieBanner | initialWait
| metadataExtraction | metadataNormalization | shadowRootSetup
| cssExpansion | viewportResize | canvasExtraction | imageStorage.

Definition stageKey (n : StageName) : string :=
  match n with
  | queueAdded => "queueAdded"
  | browserLaunch => "browserLaunch"
  | navigation => "navigation"
  | cookieBanner => "cookieBanner"
  | initialWait => "initialWait"
  | metadataExtraction => "metadataExtraction"
  | metadataNormalization => "metadataNormalization"
  | shadowRootSetup => "shadowRootSetup"
  | cssExpansion => "cssExpansion"
  | viewportResize => "viewportResize"
  | canvasExtraction => "canvasExtraction"
  | imageStorage => "imageStorage"
  end.

Definition stageIndex (n : StageName) : nat :=
  match n with
  | queueAdded => 0 | browserLaunch => 1 | navigation => 2
  | cookieBanner => 3 | initialWait => 4 | metadataExtraction => 5
  | metadataNormalization => 6 | shadowRootSetup => 7 | cssExpansion => 8
  | viewportResize => 9 | canvasExtraction => 10 | imageStorage => 11
  end%nat.

Definition stageOfIndex (i : nat) : option StageName :=
  match i with
  | 0 => Some queueAdded | 1 => Some browserLaunch | 2 => Some navigation
  | 3 => Some cookieBanner | 4 => Some initialWait
  | 5 => Some metadataExtraction | 6 => Some metadataNormalization
  | 7 => Some shadowRootSetup | 8 => Some cssExpansion
  | 9 => Some viewportResize | 10 => Some canvasExtraction
  | 11 => Some imageStorage
  | _ => None
  end%nat.

#[global] Instance StageName_eq_dec : EqDecision StageName.
Proof. solve_decision. Defined.

#[global] Instance StageName_countable : Countable StageName.
Proof.
  apply (inj_countable stageIndex stageOfIndex).
  intros []; reflexivity.
Defined.

Module Stage.
(** A stored stage: a checkpoint spread together with a detail payload.
    [mode], [totalAttempts], [successfulMethod] and [methods] are the
    properties of the canvas-extraction stage; [extra] keeps the
    properties of the other stages. *)
Record t := mk {
  name : string;
  timestamp : Z;
  elapsed : Z;
  memory : option MemorySnapshot.t;
  mode : option string;
  totalAttempts : JsCount;
  successfulMethod : option string;
  methods : option (list MethodAttempt.t);
  extra : list (string * JsVal);
}.
End Stage.

Module Detail.
(** The [details?: any] argument of [recordCheckpoint]: the properties
    that the spread lays over the checkpoint. *)
Record t := mk {
  name : option string;
  timestamp : option Z;
  elapsed : option Z;
  memory : option MemorySnapshot.t;
  mode : option string;
  totalAttempts : option Z;
  successfulMethod : option string;
  methods : option (list MethodAttempt.t);
  extra : list (string * JsVal);
}.
Definition empty : t := mk None None None None None None None None [].
End Detail.

Module HeapRss.
Record t := mk { heapUsed : Q; rss : Q }.
End HeapRss.

(** The [recycleReason] text built by [ProcessRecyclingManager.shouldRecycle]. *)
Inductive RecycleReason :=
| TaskLimit (tasksCompleted maxTasksPerCycle : Z)
| MemoryThreshold (heapUsedMB : Q) (memoryThresholdMB : Z)
| NoReason.

Module ProcessState.
(** [ImageDebugSession["processState"]], with the properties that the
    recycling manager merges into it. *)
Record t := mk {
  browserRestarts : Z;
  memoryAtStart : option HeapRss.t;
  memoryAtEnd : option HeapRss.t;
  taskNumber : option Z;
  queuePosition : option Z;
  memoryMB : option Q;
  recycleReason : option RecycleReason;
  willRecycle : option bool;
  browserRestart : option bool;
  previousTasksCompleted : option Z;
}.
Definition initial : t :=
  mk 0 None None None None None None None None None.
End ProcessState.

Module PartialProcessState.
Record t := mk {
  browserRestarts : option Z;
  memoryAtStart : option HeapRss.t;
  memoryAtEnd : option HeapRss.t;
  taskNumber : option Z;
  queuePosition : option Z;
  memoryMB : option Q;
  recycleReason : option RecycleReason;
  willRecycle : option bool;
  browserRestart : option bool;
  previousTasksCompleted : option Z;
}.
Definition empty : t :=
  mk None None None None None None None None None None.
End PartialProcessState.

Module Outcome.
Record t := mk {
  success : bool;
  error : option string;
  errorStack : option string;
  skipped : option bool;
  skipReason : option string;
  retryAttempt : option Z;
}.
Definition initial : t := mk false None None None None None.
End Outcome.

Module Diagnostics.
Record t := mk {
  screenshotPath : option string;
  htmlSnapshotPath : option string;
  consoleLogs : option (list string);
  networkErrors : option (list string);
}.
Definition empty : t := mk None None None None.
End Diagnostics.

Module Session.
(** [ImageDebugSession] *)
Record t := mk {
  imageId : string;
  jobId : string;
  url : string;
  startTime : Z;
  endTime : option Z;
  totalDuration : option Z;
  stages : gmap StageName Stage.t;
  processState : ProcessState.t;
  outcome : Outcome.t;
  diagnostics : option Diagnostics.t;
}.
End Session.

Module SummaryLine.
(** One line of [summary.jsonl]. *)
Record t := mk {
  timestamp : Z;
  imageId : string;
  jobId : string;
  duration : option Z;
  success : bool;
  skipped : option bool;
  error : option string;
  successfulMethod : option string;
  totalMethodAttempts : JsCount;
  metadataSuccess : option JsVal;
  metadataTimedOut : option JsVal;
  browserRestarts : Z;
  memoryUsed : option Q;
}.
End SummaryLine.

(** ** The world around the code *)

(** Console output. *)
Inductive Message :=
| MsgStarted (imageId : string)
| MsgNoSession (imageId : string)
| MsgCheckpoint (imageId : string) (stage : StageName) (elapsed : Z) (heapMB : Q)
| MsgMethodStarting (imageId : string) (methodNumber : Z) (methodName : string)
| MsgMethodResult (imageId : string) (methodNumber : Z) (methodName : string)
    (success : bool) (duration : Z) (domState : option DomState.t)
    (error : option string)
| MsgSessionComplete (imageId : string) (success : bool)
    (skipped : option bool) (totalDuration : Z)
| MsgScreenshotSaved (imageId path : string)
| MsgHtmlSaved (imageId path : string)
| MsgSessionSaved (path : string)
| MsgInitialHeap (bytes : Z)
| MsgReportHeader (label : string) (elapsed : Z)
| MsgReportHeap (heapUsed heapTotal : Z)
| MsgReportRss (rss : Z)
| MsgReportExternal (external : Z)
| MsgReportGrowth (growth : Z)
| MsgSignificantGrowth (growth : Z)
| MsgThresholdExceeded (heapUsedMB : Q) (maxMemoryMB : Z)
| MsgTaskLimit (tasksCompleted maxTasksPerCycle : Z)
| MsgRecyclingNeeded (reason : RecycleReason)
| MsgMemoryStats (heapUsedMB heapTotalMB rssMB : Q)
| MsgTasksCompleted (tasksCompleted : Z)
| MsgCycleReset.

Inductive ConsoleEntry :=
| Log (m : Message)
| Warn (m : Message).

Definition isWarning (e : ConsoleEntry) : bool :=
  match e with
  | Warn _ => true
  | Log _ => false
  end.

(** What the sessions directory holds under a name: a session record
    written by [endImageSession]; a file whose text [JSON.parse] rejects,
    such as a record cut short while it was written; or the directory of
    the diagnostic artefacts of a task. *)
Inductive Entry :=
| SessionFile (s : Session.t)
| MalformedFile (raw : string)
| TaskDirectory (artefacts : list (string * string)).

(** The sessions directory: its entries in the order [readdirSync] lists
    them, and the lines of [summary.jsonl] when that file exists. The
    summary log is kept apart because only [appendToSummary] writes it
    and its name does not end in [.json]; what else can stand under its
    name is a directory, which is then among the entries. *)
Record Disk := mkDisk {
  entries : list (string * Entry);
  summaryLog : option (list SummaryLine.t);
}.

(** The fields of a [DebugLogger] instance. *)
Record LoggerFields := mkLogger {
  sessionsDir : string;
  currentSession : gmap string Session.t;
  globalStartTime : Z;
}.

Record World := mkWorld {
  clock : nat -> Z;
  clockReads : nat;
  heap : nat -> MemoryUsage.t;
  heapReads : nat;
  console : list ConsoleEntry;
  disk : Disk;
  debugLogger : LoggerFields;
}.

Inductive Completion (A : Type) :=
| Returns (a : A) (w : World)
| Throws (e : JsError) (w : World).
Arguments Returns {A} a w.
Arguments Throws {A} e w.

Definition Eff (A : Type) : Type := World -> Completion A.

Definition ret {A} (a : A) : Eff A := fun w => Returns a w.

Definition bind {A B} (m : Eff A) (k : A -> Eff B) : Eff B :=
  fun w =>
    match m w with
    | Returns a w' => k a w'
    | Throws e w' => Throws e w'
    end.

Definition throw {A} (e : JsError) : Eff A := fun w => Throws e w.

Notation "'let*' x ':=' m 'in' k" := (bind m (fun x => k))
  (at level 10, x name, m at level 100, k at level 200).
Notation "m ;; k" := (bind m (fun _ => k))
  (at level 100, k at level 200, right associativity).

(** [if (b) { m }] *)
Definition when (b : bool) (m : Eff unit) : Eff unit :=
  if b then m else ret tt.

Definition worldOf {A} (c : Completion A) : World :=
  match c with
  | Returns _ w => w
  | Throws _ w => w
  end.

Definition valueOf {A} (c : Completion A) : option A :=
  match c with
  | Returns a _ => Some a
  | Throws _ _ => None
  end.

Definition returned {A} (c : Completion A) : bool :=
  match c with
  | Returns _ _ => true
  | Throws _ _ => false
  end.

Definition Date_now : Eff Z := fun w =>
  Returns (clock w (clockReads w))
    (mkWorld (clock w) (S (clockReads w)) (heap w) (heapReads w)
       (console w) (disk w) (debugLogger w)).

Definition process_memoryUsage : Eff MemoryUsage.t := fun w =>
  Returns (heap w (heapReads w))
    (mkWorld (clock w) (clockReads w) (heap w) (S (heapReads w))
       (console w) (disk w) (debugLogger w)).

Definition emit (e : ConsoleEntry) : Eff unit := fun w =>
  Returns tt
    (mkWorld (clock w) (clockReads w) (heap w) (heapReads w)
       (console w ++ [e]) (disk w) (debugLogger w)).

Definition console_log (m : Message) : Eff unit := emit (Log m).
Definition console_warn (m : Message) : Eff unit := emit (Warn m).

Definition getDisk : Eff Disk := fun w => Returns (disk w) w.

Definition putDisk (d : Disk) : Eff unit := fun w =>
  Returns tt
    (mkWorld (clock w) (clockReads w) (heap w) (heapReads w)
       (console w) d (debugLogger w)).

Definition getLogger : Eff LoggerFields := fun w => Returns (debugLogger w) w.

Definition putSessions (m : gmap string Session.t) : Eff unit := fun w =>
  Returns tt
    (mkWorld (clock w) (clockReads w) (heap w) (heapReads w)
       (console w) (disk w)
       (mkLogger (sessionsDir (debugLogger w)) m
          (globalStartTime (debugLogger w)))).

(** [path.join(a, b)] for a directory and a name that is one path
    component. *)
Definition join (a b : string) : string := a +:+ "/" +:+ b.

Fixpoint occurs (c : Ascii.ascii) (s : string) : bool :=
  match s with
  | EmptyString => false
  | String c' s' => Ascii.eqb c c' || occurs c s'
  end.

(** A name that [join] turns into a direct child of the directory, on a
    POSIX file system: not empty, not [.] or [..], without a path separator
    or a NUL character, and at most 255 bytes long. *)
Definition validName (name : string) : bool :=
  negb (String.eqb name EmptyString)
  && negb (String.eqb name ".")
  && negb (String.eqb name "..")
  && negb (occurs "/"%char name)
  && negb (occurs Ascii.zero name)
  && (String.length name <=? 255)%nat.

Fixpoint assoc {A} (k : string) (l : list (string * A)) : option A :=
  match l with
  | [] => None
  | (k', v) :: l' => if String.eqb k k' then Some v else assoc k l'
  end.

(** Replaces the value under [k], or adds it at the end. *)
Fixpoint assocSet {A} (k : string) (v : A) (l : list (string * A))
  : list (string * A) :=
  match l with
  | [] => [(k, v)]
  | (k', v') :: l' =>
      if String.eqb k k' then (k, v) :: l' else (k', v') :: assocSet k v l'
  end.

(** The name of the summary log inside the sessions directory. *)
Definition summaryName : string := "summary.jsonl".

Definition isDirectory (e : Entry) : bool :=
  match e with
  | TaskDirectory _ => true
  | _ => false
  end.

(** A directory stands where the summary log belongs: [saveDiagnostics]
    for a task called [summary.jsonl] creates one when there is no log
    yet. *)
Definition summaryIsDirectory (d : Disk) : bool :=
  existsb (fun e => String.eqb (fst e) summaryName && isDirectory (snd e))
    (entries d).

(** The summary log is a file in the place of [name]. *)
Definition isSummaryLog (d : Disk) (name : string) : bool :=
  String.eqb name summaryName
  && match summaryLog d with Some _ => true | None => false end.

(** [existsSync(join(sessionsDir, name))] *)
Definition existsSync (name : string) : Eff bool :=
  let* d := getDisk in
  ret (match assoc name (entries d) with
       | Some _ => true
       | None => isSummaryLog d name
       end).

(** [mkdirSync(join(sessionsDir, name), { recursive: true })] *)
Definition mkdirSync (name : string) : Eff unit :=
  let* d := getDisk in
  match assoc name (entries d) with
  | None =>
      if isSummaryLog d name then throw (SystemError "EEXIST")
      else putDisk (mkDisk (assocSet name (TaskDirectory []) (entries d))
                      (summaryLog d))
  | Some (TaskDirectory _) => ret tt
  | Some _ => throw (SystemError "EEXIST")
  end.

(** [writeFileSync(join(sessionsDir, name), JSON.stringify(session, null, 2))]
    for the name of a session file, which ends in [.json]. *)
Definition writeSessionFile (name : string) (s : Session.t) : Eff unit :=
  let* d := getDisk in
  match assoc name (entries d) with
  | Some (TaskDirectory _) => throw (SystemError "EISDIR")
  | _ => putDisk (mkDisk (assocSet name (SessionFile s) (entries d))
                    (summaryLog d))
  end.

(** [writeFileSync(join(join(sessionsDir, dir), name), data)] *)
Definition writeArtefact (dir name data : string) : Eff unit :=
  let* d := getDisk in
  match assoc dir (entries d) with
  | Some (TaskDirectory fs) =>
      putDisk (mkDisk (assocSet dir (TaskDirectory (assocSet name data fs))
                         (entries d))
                 (summaryLog d))
  | Some _ => throw (SystemError "ENOTDIR")
  | None =>
      if isSummaryLog d dir then throw (SystemError "ENOTDIR")
      else throw (SystemError "ENOENT")
  end.

(** [appendFileSync(summaryFile, JSON.stringify(line) + "\n")] *)
Definition appendSummary (line : SummaryLine.t) : Eff unit :=
  let* d := getDisk in
  if summaryIsDirectory d then throw (SystemError "EISDIR")
  else putDisk (mkDisk (entries d) (Some (default [] (summaryLog d) ++ [line]))).

Module MethodStats.
(** The value type of [methodStats] in [getMethodStatistics]. *)
Record t := mk {
  attempts : Z;
  successes : Z;
  failures : Z;
  avgDuration : JsNumber;
  totalDuration : Z;
}.
Definition zero : t := mk 0 0 0 (Finite 0) 0.
End MethodStats.

Module Polluted.
(** Which properties the scan of [getMethodStatistics] has added to
    [Object.prototype]. *)
Record t := mk {
  attempts : bool;
  successes : bool;
  failures : bool;
  totalDuration : bool;
}.
Definition none : t := mk false false false false.
End Polluted.

(** The local [methodStats] of [getMethodStatistics] while the directory is
    scanned: its own entries, and what the scan has written through it to
    the prototype it inherits from. *)
Record Table := mkTable {
  methodStats : gmap string MethodStats.t;
  polluted : Polluted.t;
}.

(** What [getMethodStatistics] returns. *)
Inductive Statistics :=
| NoData (message : string)
| Report (totalSessions : nat) (methodStatistics : gmap string MethodStats.t).

(** ** [class DebugLogger] *)

Module DebugLogger.

Definition logToConsole (m : Message) : Eff unit := console_log m.

(** The constructor: the sessions directory is created if it is missing;
    the [Disk] of the world is what that directory holds. *)
Definition constructor (cwd : string) : Eff unit :=
let* now := Date_now in
fun w =>
  Returns tt
    (mkWorld (clock w) (clockReads w) (heap w) (heapReads w) (console w)
       (disk w)
       (mkLogger (join (join cwd "logs") "debug-sessions") ∅ now)).

(** [this.currentSession.get(imageId)] *)
Definition get (imageId : string) : Eff (option Session.t) :=
  let* l := getLogger in ret (currentSession l !! imageId).

(** [this.currentSession.set(imageId, session)] *)
Definition set (imageId : string) (s : Session.t) : Eff unit :=
  let* l := getLogger in putSessions (<[imageId := s]> (currentSession l)).

(** A write through the reference that [get] returned: the object held
    by the map under [imageId] changes in place. *)
Definition mutate (imageId : string) (f : Session.t -> Session.t) : Eff unit :=
  let* l := getLogger in putSessions (alter f imageId (currentSession l)).

(** [this.currentSession.delete(imageId)] *)
Definition delete (imageId : string) : Eff unit :=
  let* l := getLogger in
  putSessions (base.delete imageId (currentSession l)).

Definition withStages (f : gmap StageName Stage.t -> gmap StageName Stage.t)
    (s : Session.t) : Session.t :=
  Session.mk (Session.imageId s) (Session.jobId s) (Session.url s)
    (Session.startTime s) (Session.endTime s) (Session.totalDuration s)
    (f (Session.stages s)) (Session.processState s) (Session.outcome s)
    (Session.diagnostics s).

Definition withProcessState (p : ProcessState.t) (s : Session.t) : Session.t :=
  Session.mk (Session.imageId s) (Session.jobId s) (Session.url s)
    (Session.startTime s) (Session.endTime s) (Session.totalDuration s)
    (Session.stages s) p (Session.outcome s) (Session.diagnostics s).

Definition withEnd (endTime : Z) (s : Session.t) : Session.t :=
  Session.mk (Session.imageId s) (Session.jobId s) (Session.url s)
    (Session.startTime s) (Some endTime)
    (Some (endTime - Session.startTime s))
    (Session.stages s) (Session.processState s) (Session.outcome s)
    (Session.diagnostics s).

Definition withOutcome (o : Outcome.t) (s : Session.t) : Session.t :=
  Session.mk (Session.imageId s) (Session.jobId s) (Session.url s)
    (Session.startTime s) (Session.endTime s) (Session.totalDuration s)
    (Session.stages s) (Session.processState s) o (Session.diagnostics s).

Definition withDiagnostics (d : Diagnostics.t) (s : Session.t) : Session.t :=
  Session.mk (Session.imageId s) (Session.jobId s) (Session.url s)
    (Session.startTime s) (Session.endTime s) (Session.totalDuration s)
    (Session.stages s) (Session.processState s) (Session.outcome s) (Some d).

(** The session object that [startImageSession] builds. *)
Definition freshSession (imageId jobId url : string) (now : Z) : Session.t :=
  Session.mk imageId jobId url now None None ∅
    ProcessState.initial Outcome.initial None.

Definition startImageSession (imageId jobId url : string) : Eff unit :=
  let* now := Date_now in
  set imageId (freshSession imageId jobId url now) ;;
  logToConsole (MsgStarted imageId).

Definition snapshot (mem : MemoryUsage.t) : MemorySnapshot.t :=
  MemorySnapshot.mk
    (roundMB (MemoryUsage.heapUsed mem))
    (roundMB (MemoryUsage.heapTotal mem))
    (roundMB (MemoryUsage.external mem))
    (roundMB (MemoryUsage.rss mem)).

(** [{ ...checkpoint, ...details }]. The spread copies the properties of
    the payload, not the arrays they hold: the stage gets the very
    [methods] array of the payload, which is a value here. *)
Definition spread (c : TimingCheckpoint.t) (details : option Detail.t)
  : Stage.t :=
  let d := default Detail.empty details in
  Stage.mk
    (default (TimingCheckpoint.name c) (Detail.name d))
    (default (TimingCheckpoint.timestamp c) (Detail.timestamp d))
    (default (TimingCheckpoint.elapsed c) (Detail.elapsed d))
    (match Detail.memory d with
     | Some m => Some m
     | None => TimingCheckpoint.memory c
     end)
    (Detail.mode d)
    (match Detail.totalAttempts d with
     | Some n => CNum n
     | None => CUndefined
     end)
    (Detail.successfulMethod d)
    (Detail.methods d)
    (Detail.extra d).

Definition recordCheckpoint (imageId : string) (stageName : StageName)
    (details : option Detail.t) : Eff unit :=
  let* found := get imageId in
  match found with
  | None => console_warn (MsgNoSession imageId)
  | Some session =>
      let* mem := process_memoryUsage in
      let* timestamp := Date_now in
      let* now := Date_now in
      let checkpoint :=
        TimingCheckpoint.mk (stageKey stageName) timestamp
          (now - Session.startTime session) (Some (snapshot mem)) in
      mutate imageId
        (withStages (insert stageName (spread checkpoint details))) ;;
      logToConsole
        (MsgCheckpoint imageId stageName
           (TimingCheckpoint.elapsed checkpoint)
           (roundMB (MemoryUsage.heapUsed mem)))
  end.

(** The stage that [recordMethodAttempt] creates when there is none. *)
Definition freshCanvasExtraction (startTime sessionStart : Z) : Stage.t :=
  Stage.mk "canvasExtraction" startTime (startTime - sessionStart) None
    (Some "unknown") (CNum 0) None (Some []) [].

Definition newAttempt (methodName : string) (methodNumber startTime : Z)
  : MethodAttempt.t :=
  MethodAttempt.mk methodName methodNumber startTime None None false
    None None None.

(** [stage.methods.push(attempt); stage.totalAttempts++] *)
Definition pushAttempt (attempt : MethodAttempt.t) (ms : list MethodAttempt.t)
    (st : Stage.t) : Stage.t :=
  Stage.mk (Stage.name st) (Stage.timestamp st) (Stage.elapsed st)
    (Stage.memory st) (Stage.mode st) (increment (Stage.totalAttempts st))
    (Stage.successfulMethod st) (Some (ms ++ [attempt])) (Stage.extra st).

Definition recordMethodAttempt (imageId methodName : string)
    (methodNumber startTime : Z) : Eff unit :=
  let* found := get imageId in
  match found with
  | None => ret tt
  | Some session =>
      let stage :=
        default (freshCanvasExtraction startTime (Session.startTime session))
          (Session.stages session !! canvasExtraction) in
      match Stage.methods stage with
      | None =>
          throw (TypeError "Cannot read properties of undefined (reading 'push')")
      | Some ms =>
          mutate imageId
            (withStages
               (insert canvasExtraction
                  (pushAttempt (newAttempt methodName methodNumber startTime)
                     ms stage))) ;;
          logToConsole (MsgMethodStarting imageId methodNumber methodName)
      end
  end.

Definition hasNumber (methodNumber : Z) (m : MethodAttempt.t) : bool :=
  MethodAttempt.methodNumber m =? methodNumber.

(** The writes of [recordMethodResult] to the attempt it found. *)
Definition complete (now : Z) (success : bool) (error : option string)
    (domState : option DomState.t)
    (extractionDetails : option ExtractionDetails.t)
    (m : MethodAttempt.t) : MethodAttempt.t :=
  MethodAttempt.mk (MethodAttempt.methodName m)
    (MethodAttempt.methodNumber m) (MethodAttempt.startTime m)
    (Some now) (Some (now - MethodAttempt.startTime m))
    success error domState extractionDetails.

(** Applies [f] to the first element that satisfies [p]: the element a
    reference obtained from [Array.prototype.find] points to. *)
Fixpoint updateFirst {A} (p : A -> bool) (f : A -> A) (l : list A) : list A :=
  match l with
  | [] => []
  | x :: l' => if p x then f x :: l' else x :: updateFirst p f l'
  end.

Definition withResult (ms : list MethodAttempt.t)
    (successfulMethod : option string) (st : Stage.t) : Stage.t :=
  Stage.mk (Stage.name st) (Stage.timestamp st) (Stage.elapsed st)
    (Stage.memory st) (Stage.mode st) (Stage.totalAttempts st)
    successfulMethod (Some ms) (Stage.extra st).

Definition recordMethodResult (imageId : string) (methodNumber : Z)
    (success : bool) (error : option string) (domState : option DomState.t)
    (extractionDetails : option ExtractionDetails.t) : Eff unit :=
  let* found := get imageId in
  match found with
  | None => ret tt
  | Some session =>
      match Session.stages session !! canvasExtraction with
      | None => ret tt
      | Some stage =>
          match Stage.methods stage with
          | None =>
              throw (TypeError "Cannot read properties of undefined (reading 'find')")
          | Some ms =>
              match List.find (hasNumber methodNumber) ms with
              | None => ret tt
              | Some method =>
                  let* now := Date_now in
                  let ms' :=
                    updateFirst (hasNumber methodNumber)
                      (complete now success error domState extractionDetails)
                      ms in
                  let successful :=
                    if success then Some (MethodAttempt.methodName method)
                    else Stage.successfulMethod stage in
                  mutate imageId
                    (withStages
                       (insert canvasExtraction
                          (withResult ms' successful stage))) ;;
                  logToConsole
                    (MsgMethodResult imageId methodNumber
                       (MethodAttempt.methodName method) success
                       (now - MethodAttempt.startTime method) domState error)
              end
          end
      end
  end.

(** [{ ...session.processState, ...state }] *)
Definition merge (p : ProcessState.t) (u : PartialProcessState.t)
  : ProcessState.t :=
  let over {A} (new old : option A) : option A :=
    match new with Some v => Some v | None => old end in
  ProcessState.mk
    (default (ProcessState.browserRestarts p)
       (PartialProcessState.browserRestarts u))
    (over (PartialProcessState.memoryAtStart u) (ProcessState.memoryAtStart p))
    (over (PartialProcessState.memoryAtEnd u) (ProcessState.memoryAtEnd p))
    (over (PartialProcessState.taskNumber u) (ProcessState.taskNumber p))
    (over (PartialProcessState.queuePosition u) (ProcessState.queuePosition p))
    (over (PartialProcessState.memoryMB u) (ProcessState.memoryMB p))
    (over (PartialProcessState.recycleReason u) (ProcessState.recycleReason p))
    (over (PartialProcessState.willRecycle u) (ProcessState.willRecycle p))
    (over (PartialProcessState.browserRestart u) (ProcessState.browserRestart p))
    (over (PartialProcessState.previousTasksCompleted u)
       (ProcessState.previousTasksCompleted p)).

Definition recordProcessState (imageId : string)
    (state : PartialProcessState.t) : Eff unit :=
  let* found := get imageId in
  match found with
  | None => ret tt
  | Some session =>
      mutate imageId
        (withProcessState (merge (Session.processState session) state))
  end.

Definition recordOutcome (imageId : string) (success : bool)
    (error errorStack : option string) (skipped : option bool)
    (skipReason : option string) : Eff unit :=
  let* found := get imageId in
  match found with
  | None => ret tt
  | Some session =>
      let* now := Date_now in
      mutate imageId
        (fun s =>
           withOutcome
             (Outcome.mk success error errorStack skipped skipReason None)
             (withEnd now s)) ;;
      logToConsole
        (MsgSessionComplete imageId success skipped
           (now - Session.startTime session))
  end.

Definition setScreenshotPath (path : string) (s : Session.t) : Session.t :=
  let d := default Diagnostics.empty (Session.diagnostics s) in
  withDiagnostics
    (Diagnostics.mk (Some path) (Diagnostics.htmlSnapshotPath d)
       (Diagnostics.consoleLogs d) (Diagnostics.networkErrors d)) s.

Definition setHtmlSnapshotPath (path : string) (s : Session.t) : Session.t :=
  let d := default Diagnostics.empty (Session.diagnostics s) in
  withDiagnostics
    (Diagnostics.mk (Diagnostics.screenshotPath d) (Some path)
       (Diagnostics.consoleLogs d) (Diagnostics.networkErrors d)) s.

Definition setConsoleLogs (logs : list string) (s : Session.t) : Session.t :=
  let d := default Diagnostics.empty (Session.diagnostics s) in
  withDiagnostics
    (Diagnostics.mk (Diagnostics.screenshotPath d)
       (Diagnostics.htmlSnapshotPath d) (Some logs)
       (Diagnostics.networkErrors d)) s.

Definition setNetworkErrors (errors : list string) (s : Session.t) : Session.t :=
  let d := default Diagnostics.empty (Session.diagnostics s) in
  withDiagnostics
    (Diagnostics.mk (Diagnostics.screenshotPath d)
       (Diagnostics.htmlSnapshotPath d) (Diagnostics.consoleLogs d)
       (Some errors)) s.

(** The [async] method is run to completion; a rejection of its promise
    is a [Throws]. The screenshot buffer is kept as its text. *)
Definition saveDiagnostics (imageId : string)
    (screenshotBuffer htmlSnapshot : option string)
    (consoleLogs networkErrors : option (list string)) : Eff unit :=
  let* found := get imageId in
  match found with
  | None => ret tt
  | Some session =>
      let* l := getLogger in
      let diagnosticsDir := join (sessionsDir l) imageId in
      let* present := existsSync imageId in
      when (negb present) (mkdirSync imageId) ;;
      when (match Session.diagnostics session with None => true | Some _ => false end)
        (mutate imageId (withDiagnostics Diagnostics.empty)) ;;
      match screenshotBuffer with
      | Some buffer =>
          let screenshotPath := join diagnosticsDir "failure-screenshot.png" in
          writeArtefact imageId "failure-screenshot.png" buffer ;;
          mutate imageId (setScreenshotPath screenshotPath) ;;
          logToConsole (MsgScreenshotSaved imageId screenshotPath)
      | None => ret tt
      end ;;
      when (truthy_string htmlSnapshot)
        (let htmlPath := join diagnosticsDir "failure-dom.html" in
         writeArtefact imageId "failure-dom.html" (default EmptyString htmlSnapshot) ;;
         mutate imageId (setHtmlSnapshotPath htmlPath) ;;
         logToConsole (MsgHtmlSaved imageId htmlPath)) ;;
      match consoleLogs with
      | Some logs => mutate imageId (setConsoleLogs logs)
      | None => ret tt
      end ;;
      match networkErrors with
      | Some errors => mutate imageId (setNetworkErrors errors)
      | None => ret tt
      end
  end.

(** Reads a property of a stage that is kept among the [extra] ones. *)
Definition property (key : string) (st : option Stage.t) : option JsVal :=
  match st with
  | Some st => assoc key (Stage.extra st)
  | None => None
  end.

Definition summaryLine (now : Z) (session : Session.t) : SummaryLine.t :=
  let canvas := Session.stages session !! canvasExtraction in
  let metadata := Session.stages session !! metadataExtraction in
  SummaryLine.mk now (Session.imageId session) (Session.jobId session)
    (Session.totalDuration session)
    (Outcome.success (Session.outcome session))
    (Outcome.skipped (Session.outcome session))
    (Outcome.error (Session.outcome session))
    (match canvas with Some st => Stage.successfulMethod st | None => None end)
    (match canvas with Some st => Stage.totalAttempts st | None => CUndefined end)
    (property "success" metadata)
    (property "timedOut" metadata)
    (ProcessState.browserRestarts (Session.processState session))
    (match ProcessState.memoryAtEnd (Session.processState session) with
     | Some m => Some (HeapRss.heapUsed m)
     | None => None
     end).

Definition appendToSummary (session : Session.t) : Eff unit :=
  let* now := Date_now in
  appendSummary (summaryLine now session).

(** [!session.endTime]: an absent end time and the instant 0 are falsy. *)
Definition lacksEndTime (s : Session.t) : bool :=
  match Session.endTime s with
  | Some t => t =? 0
  | None => true
  end.

Definition sessionFileName (imageId : string) (now : Z) : string :=
  imageId +:+ "_" +:+ pretty now +:+ ".json".

Definition endImageSession (imageId : string) : Eff unit :=
  let* found := get imageId in
  match found with
  | None => ret tt
  | Some session =>
      let* session :=
        (if lacksEndTime session then
           let* now := Date_now in
           mutate imageId (withEnd now) ;;
           ret (withEnd now session)
         else ret session) in
      let* l := getLogger in
      let* now := Date_now in
      let sessionFile := sessionFileName imageId now in
      writeSessionFile sessionFile session ;;
      logToConsole (MsgSessionSaved (join (sessionsDir l) sessionFile)) ;;
      appendToSummary session ;;
      delete imageId
  end.

(** The counters of one method after one more of its attempts: the three
    increments and the addition of a truthy duration. *)
Definition bump (st : MethodStats.t) (m : MethodAttempt.t) : MethodStats.t :=
MethodStats.mk
  (MethodStats.attempts st + 1)
  (if MethodAttempt.success m then MethodStats.successes st + 1
   else MethodStats.successes st)
  (if MethodAttempt.success m then MethodStats.failures st
   else MethodStats.failures st + 1)
  (MethodStats.avgDuration st)
  (match MethodAttempt.duration m with
   | Some d =>
       if d =? 0 then MethodStats.totalDuration st
       else MethodStats.totalDuration st + d
   | None => MethodStats.totalDuration st
   end).

(** The names that the table [methodStats], an object created by [{}],
    inherits from [Object.prototype] with a function as their value. *)
Definition inheritedFunctions : list string :=
  ["constructor"; "__defineGetter__"; "__defineSetter__"; "hasOwnProperty";
   "__lookupGetter__"; "__lookupSetter__"; "isPrototypeOf";
   "propertyIsEnumerable"; "toString"; "valueOf"; "toLocaleString"].

Definition inheritsFunction (name : string) : bool :=
  existsb (String.eqb name) inheritedFunctions.

(** [methodStats["__proto__"]] is [Object.prototype] itself. The counters
    written through it become enumerable properties of the prototype, each
    of them [NaN] whatever is added to it: [undefined] incremented. *)
Definition pollute (p : Polluted.t) (m : MethodAttempt.t) : Polluted.t :=
Polluted.mk true
  (Polluted.successes p || MethodAttempt.success m)
  (Polluted.failures p || negb (MethodAttempt.success m))
  (Polluted.totalDuration p
   || match MethodAttempt.duration m with
      | Some d => negb (d =? 0)
      | None => false
      end).

(** The body of the loop over the methods of one persisted session. The
    test [!methodStats[name]] finds an inherited function or the prototype
    truthy, so no entry is made for such a name and the statements that
    follow write to the inherited object; it finds an inherited [NaN]
    falsy, as it finds a missing property. *)
Definition tally (table : Table) (m : MethodAttempt.t) : Table :=
let name := MethodAttempt.methodName m in
if inheritsFunction name then table
else if String.eqb name "__proto__" then
  mkTable (methodStats table) (pollute (polluted table) m)
else
  mkTable
    (<[name := bump (default MethodStats.zero (methodStats table !! name)) m]>
       (methodStats table))
    (polluted table).

Definition tallySession (table : Table) (session : Session.t) : Table :=
  match Session.stages session !! canvasExtraction with
  | Some stage =>
      match Stage.methods stage with
      | Some ms => foldl tally table ms
      | None => table
      end
  | None => table
  end.

(** The loop over [readdirSync(this.sessionsDir)]. *)
Fixpoint scan (files : list (string * Entry)) (table : Table)
  : JsError + Table :=
  match files with
  | [] => inr table
  | (sessionFile, e) :: rest =>
      if endsWith sessionFile ".json" then
        match e with
        | SessionFile session => scan rest (tallySession table session)
        | MalformedFile _ => inl SyntaxError
        | TaskDirectory _ => inl (SystemError "EISDIR")
        end
      else scan rest table
  end.

Definition average (st : MethodStats.t) : MethodStats.t :=
  MethodStats.mk (MethodStats.attempts st) (MethodStats.successes st)
    (MethodStats.failures st)
    (divide (MethodStats.totalDuration st) (MethodStats.attempts st))
    (MethodStats.totalDuration st).

(** The names that [for (const methodName in methodStats)] visits after
    the entries of the table: the enumerable properties of the prototype
    that no entry shadows. *)
Definition inheritedKeys (table : Table) : list string :=
  List.filter
    (fun key =>
       match methodStats table !! key with Some _ => false | None => true end)
    ((if Polluted.attempts (polluted table) then ["attempts"] else [])
     ++ (if Polluted.successes (polluted table) then ["successes"] else [])
     ++ (if Polluted.failures (polluted table) then ["failures"] else [])
     ++ (if Polluted.totalDuration (polluted table)
         then ["totalDuration"] else [])).

(** The scan starts from the prototype as the engine provides it. Under an
    inherited key the last loop reads the number [NaN] and assigns to a
    property of it, which throws in the strict code of a module. *)
Definition getMethodStatistics : Eff Statistics :=
  let* d := getDisk in
  if summaryIsDirectory d then throw (SystemError "EISDIR")
  else
    match summaryLog d with
    | None => ret (NoData "No summary data available yet")
    | Some lines =>
        match scan (entries d) (mkTable ∅ Polluted.none) with
        | inl e => throw e
        | inr table =>
            match inheritedKeys table with
            | [] => ret (Report (length lines) (average <$> methodStats table))
            | _ :: _ =>
                throw (TypeError
                         "Cannot create property 'avgDuration' on number 'NaN'")
            end
        end
    end.

End DebugLogger.

(** ** [class MemoryMonitor] *)

(** [heapUsed > maxMemoryMB] *)
Definition exceeds (heapUsedMB : Q) (maxMemoryMB : Z) : bool :=
  negb (Qle_bool heapUsedMB (inject_Z maxMemoryMB)).

Module MemoryMonitor.

Record t := mk {
  initialMemory : Z;
  startTime : Z;
}.

Definition new : t := mk 0 0.

Definition start (self : t) : Eff t :=
  let* memUsage := process_memoryUsage in
  let* now := Date_now in
  console_log (MsgInitialHeap (MemoryUsage.heapUsed memUsage)) ;;
  ret (mk (MemoryUsage.heapUsed memUsage) now).

Definition report (self : t) (label : option string) : Eff unit :=
  let label := default "Current" label in
  let* memUsage := process_memoryUsage in
  let* now := Date_now in
  let elapsed := now - startTime self in
  let memGrowth := MemoryUsage.heapUsed memUsage - initialMemory self in
  console_log (MsgReportHeader label elapsed) ;;
  console_log (MsgReportHeap (MemoryUsage.heapUsed memUsage)
                 (MemoryUsage.heapTotal memUsage)) ;;
  console_log (MsgReportRss (MemoryUsage.rss memUsage)) ;;
  console_log (MsgReportExternal (MemoryUsage.external memUsage)) ;;
  console_log (MsgReportGrowth memGrowth) ;;
  if 200 * 1024 * 1024 <? memGrowth
  then console_warn (MsgSignificantGrowth memGrowth)
  else ret tt.

Definition shouldRecycle (self : t) (maxMemoryMB : option Z) : Eff bool :=
  let maxMemoryMB := default 300 maxMemoryMB in
  let* memUsage := process_memoryUsage in
  let heapUsed := toMB (MemoryUsage.heapUsed memUsage) in
  if exceeds heapUsed maxMemoryMB then
    console_warn (MsgThresholdExceeded heapUsed maxMemoryMB) ;;
    ret true
  else ret false.

End MemoryMonitor.

(** ** [class ProcessRecyclingManager] *)

Module ProcessRecyclingManager.

Record t := mk {
  tasksCompleted : Z;
  maxTasksPerCycle : Z;
  memoryMonitor : MemoryMonitor.t;
  memoryThresholdMB : Z;
}.

Definition constructor (maxTasksPerCycle : option Z) : Eff t :=
  let* monitor := MemoryMonitor.start MemoryMonitor.new in
  ret (mk 0 (default 1 maxTasksPerCycle) monitor 300).

Definition recordTaskComplete (self : t) : t :=
  mk (tasksCompleted self + 1) (maxTasksPerCycle self) (memoryMonitor self)
    (memoryThresholdMB self).

Definition recycleReason (self : t) (taskCountExceeded memoryExceeded : bool)
    (heapUsed : Q) : RecycleReason :=
  if taskCountExceeded
  then TaskLimit (tasksCompleted self) (maxTasksPerCycle self)
  else if memoryExceeded
       then MemoryThreshold heapUsed (memoryThresholdMB self)
       else NoReason.

Definition shouldRecycle (self : t) (imageId : option string) : Eff bool :=
  let taskCountExceeded := maxTasksPerCycle self <=? tasksCompleted self in
  let* memUsage := process_memoryUsage in
  let heapUsed := toMB (MemoryUsage.heapUsed memUsage) in
  let heapTotal := toMB (MemoryUsage.heapTotal memUsage) in
  let rss := toMB (MemoryUsage.rss memUsage) in
  let* memoryExceeded :=
    MemoryMonitor.shouldRecycle (memoryMonitor self)
      (Some (memoryThresholdMB self)) in
  let recycleDecision := taskCountExceeded || memoryExceeded in
  let reason := recycleReason self taskCountExceeded memoryExceeded heapUsed in
  when taskCountExceeded
    (console_log (MsgTaskLimit (tasksCompleted self) (maxTasksPerCycle self))) ;;
  when recycleDecision
    (console_log (MsgRecyclingNeeded reason) ;;
     console_log (MsgMemoryStats heapUsed heapTotal rss) ;;
     when (truthy_string imageId)
       (DebugLogger.recordProcessState (default EmptyString imageId)
          (PartialProcessState.mk None None None
             (Some (tasksCompleted self)) None (Some heapUsed)
             (Some reason) (Some true) None None))) ;;
  ret recycleDecision.

Definition reportStatus (self : t) : Eff unit :=
  console_log (MsgTasksCompleted (tasksCompleted self)) ;;
  MemoryMonitor.report (memoryMonitor self)
    (Some ("After " +:+ pretty (tasksCompleted self) +:+ " tasks")).

Definition reset (self : t) (imageId : option string) : Eff t :=
  let prevTasks := tasksCompleted self in
  let* monitor := MemoryMonitor.start (memoryMonitor self) in
  let self' := mk 0 (maxTasksPerCycle self) monitor (memoryThresholdMB self) in
  console_log MsgCycleReset ;;
  when (truthy_string imageId)
    (let* memUsage := process_memoryUsage in
     DebugLogger.recordProcessState (default EmptyString imageId)
       (PartialProcessState.mk None None None (Some 0) None
          (Some (toMB (MemoryUsage.heapUsed memUsage))) None None
          (Some true) (Some prevTasks))) ;;
  ret self'.

Definition getTasksCompleted (self : t) : Z := tasksCompleted self.

End ProcessRecyclingManager.

(** ** Drivers used to state the properties *)

(** One completed task followed by the question whether to recycle,
    [n] times over; the answers are collected in call order. *)
Fixpoint cycle (n : nat) (self : ProcessRecyclingManager.t) : Eff (list bool) :=
  match n with
  | O => ret []
  | S n' =>
      let self' := ProcessRecyclingManager.recordTaskComplete self in
      let* answer := ProcessRecyclingManager.shouldRecycle self' None in
      let* answers := cycle n' self' in
      ret (answer :: answers)
  end.

(** A manager is constructed and then driven through [n] tasks. *)
Definition lifetime (maxTasksPerCycle : option Z) (n : nat) : Eff (list bool) :=
  let* self := ProcessRecyclingManager.constructor maxTasksPerCycle in
  cycle n self.

(** The verdict of [shouldRecycle] for a manager and a heap measurement. *)
Definition decision (self : ProcessRecyclingManager.t) (sample : MemoryUsage.t)
  : bool :=
  (ProcessRecyclingManager.maxTasksPerCycle self
     <=? ProcessRecyclingManager.tasksCompleted self)
  || exceeds (toMB (MemoryUsage.heapUsed sample))
       (ProcessRecyclingManager.memoryThresholdMB self).

(** The measurement that the call of [MemoryMonitor.shouldRecycle] inside
    [ProcessRecyclingManager.shouldRecycle] takes: the manager samples once
    for its log lines, the monitor samples again for the verdict. *)
Definition freshSample (w : World) : MemoryUsage.t := heap w (S (heapReads w)).

(** Every measurement the oracle of [w] can yield is at most [limit] MB. *)
Definition memoryBelow (limit : Z) (w : World) : Prop :=
  forall i, (toMB (MemoryUsage.heapUsed (heap w i)) <= inject_Z limit)%Q.

(** A world where nothing has happened yet and the heap is empty. *)
Definition quietWorld : World :=
  mkWorld (fun n => Z.of_nat n) 0 (fun _ => MemoryUsage.mk 0 0 0 0) 0 []
    (mkDisk [] None) (mkLogger "logs/debug-sessions" ∅ 0).

(** The session that is live under a task identifier. *)
Definition liveSession (w : World) (imageId : string) : option Session.t :=
  currentSession (debugLogger w) !! imageId.

Definition canvasStage (s : Session.t) : option Stage.t :=
  Session.stages s !! canvasExtraction.

(** The canvas-extraction stage of the session live under [imageId] once a
    call has completed. *)
Definition canvasAfter {A} (c : Completion A) (imageId : string)
  : option Stage.t :=
  match liveSession (worldOf c) imageId with
  | Some s => canvasStage s
  | None => None
  end.

(** The ranks stored in a methods list, in list order. *)
Definition ranksOf (ms : list MethodAttempt.t) : list Z :=
  map MethodAttempt.methodNumber ms.

Definition namesOf (ms : list MethodAttempt.t) : list string :=
  map MethodAttempt.methodName ms.

(** One call of [recordMethodAttempt]: method name, rank, start time. *)
Definition BeginCall : Type := string * Z * Z.

Definition attemptOf (c : BeginCall) : MethodAttempt.t :=
  let '(methodName, methodNumber, startTime) := c in
  DebugLogger.newAttempt methodName methodNumber startTime.

Fixpoint beginAttempts (imageId : string) (calls : list BeginCall) : Eff unit :=
  match calls with
  | [] => ret tt
  | (methodName, methodNumber, startTime) :: rest =>
      DebugLogger.recordMethodAttempt imageId methodName methodNumber startTime ;;
      beginAttempts imageId rest
  end.

(** Gives the attempts of a fallback chain the ranks [from], [from + 1], ... *)
Fixpoint numbered (from : Z) (attempts : list (string * Z)) : list BeginCall :=
  match attempts with
  | [] => []
  | (methodName, startTime) :: rest =>
      (methodName, from, startTime) :: numbered (from + 1) rest
  end.

Fixpoint ranksFrom (from : Z) (n : nat) : list Z :=
  match n with
  | O => []
  | S n' => from :: ranksFrom (from + 1) n'
  end.

(** The arguments of one call of [recordMethodResult]. *)
Record ResultCall := mkResult {
  rank : Z;
  succeeded : bool;
  failure : option string;
  dom : option DomState.t;
  extraction : option ExtractionDetails.t;
}.

Fixpoint recordResults (imageId : string) (results : list ResultCall)
  : Eff unit :=
  match results with
  | [] => ret tt
  | r :: rest =>
      DebugLogger.recordMethodResult imageId (rank r) (succeeded r) (failure r)
        (dom r) (extraction r) ;;
      recordResults imageId rest
  end.

(** The name begun under the rank of the successful result that was
    recorded last, for a chain ranked 1, 2, ... *)
Definition lastSuccessful (names : list string) (results : list ResultCall)
  : option string :=
  match last (filter (fun r => succeeded r = true) results) with
  | Some r => names !! Z.to_nat (rank r - 1)
  | None => None
  end.

(** The name of the attempt of lowest rank among those marked successful. *)
Definition lowestRankedSuccessful (ms : list MethodAttempt.t) : option string :=
  MethodAttempt.methodName <$>
    foldl
      (fun best m =>
         if MethodAttempt.success m then
           match best with
           | Some b =>
               if MethodAttempt.methodNumber m <? MethodAttempt.methodNumber b
               then Some m else Some b
           | None => Some m
           end
         else best)
      None ms.

(** The stage after the calls of [beginAttempts] have pushed onto [ms]. *)
Definition afterBegin (st : Stage.t) (ms : list MethodAttempt.t)
    (calls : list BeginCall) : Stage.t :=
  Stage.mk (Stage.name st) (Stage.timestamp st) (Stage.elapsed st)
    (Stage.memory st) (Stage.mode st)
    (Nat.iter (length calls) increment (Stage.totalAttempts st))
    (Stage.successfulMethod st) (Some (ms ++ map attemptOf calls))
    (Stage.extra st).

(** The name stored with the first occurrence of a rank. *)
Fixpoint nameAt (r : Z) (ranks : list Z) (names : list string) : option string :=
  match ranks, names with
  | k :: ks, n :: ns => if k =? r then Some n else nameAt r ks ns
  | _, _ => None
  end.

(** The quiet world after [startImageSession] for one task. *)
Definition sessionWorld : World :=
  worldOf
    (DebugLogger.startImageSession "img-1" "job-1" "https://example.test/1"
       quietWorld).

Definition succeeds (r : Z) : ResultCall := mkResult r true None None None.

Definition fails (r : Z) (message : string) : ResultCall :=
  mkResult r false (Some message) None None.

(** The method attempts a session holds: none while there is no
    canvas-extraction stage; [None] when the stage exists without a methods
    list, as a checkpoint leaves it. *)
Definition recordedAttempts (s : Session.t) : option (list MethodAttempt.t) :=
  match canvasStage s with
  | Some st => Stage.methods st
  | None => Some []
  end.

Definition callRank (c : BeginCall) : Z := snd (fst c).

(** A detail payload that carries the extraction mode only. *)
Definition modeOnly (mode : string) : Detail.t :=
  Detail.mk None None None None (Some mode) None None None [].

(** The session world after a checkpoint of the canvas-extraction stage
    whose detail carries no methods list. *)
Definition checkpointedWorld : World :=
  worldOf
    (DebugLogger.recordCheckpoint "img-1" canvasExtraction
       (Some (modeOnly "viewport")) sessionWorld).

(** The checkpoint object that [recordCheckpoint] builds in world [w] for a
    session: it reads the heap once and the clock twice. *)
Definition checkpointIn (w : World) (stageName : StageName) (s : Session.t)
  : TimingCheckpoint.t :=
  TimingCheckpoint.mk (stageKey stageName)
    (clock w (clockReads w))
    (clock w (S (clockReads w)) - Session.startTime s)
    (Some (DebugLogger.snapshot (heap w (heapReads w)))).

(** The session world after two attempts were begun and the first one
    succeeded. *)
Definition attemptedWorld : World :=
  worldOf
    ((beginAttempts "img-1"
        [("viewport-render", 1, 10); ("tile-stitch", 2, 20)] ;;
      recordResults "img-1" [succeeds 1]) sessionWorld).

(** What a caller can do with a manager between two resets. *)
Inductive ManagerCall :=
| CompleteTask
| AskRecycle (imageId : option string)
| ReportStatus
| ReadTasks.

Fixpoint runCalls (calls : list ManagerCall) (self : ProcessRecyclingManager.t)
  : Eff ProcessRecyclingManager.t :=
  match calls with
  | [] => ret self
  | CompleteTask :: rest =>
      runCalls rest (ProcessRecyclingManager.recordTaskComplete self)
  | AskRecycle imageId :: rest =>
      ProcessRecyclingManager.shouldRecycle self imageId ;;
      runCalls rest self
  | ReportStatus :: rest =>
      ProcessRecyclingManager.reportStatus self ;;
      runCalls rest self
  | ReadTasks :: rest =>
      let _ := ProcessRecyclingManager.getTasksCompleted self in
      runCalls rest self
  end.

(** How many times [recordTaskComplete] occurs in a sequence of calls. *)
Fixpoint completions (calls : list ManagerCall) : Z :=
  match calls with
  | [] => 0
  | CompleteTask :: rest => 1 + completions rest
  | _ :: rest => completions rest
  end.

(** The method attempts of a persisted session that the scan visits. *)
Definition persistedAttempts (s : Session.t) : list MethodAttempt.t :=
  match Session.stages s !! canvasExtraction with
  | Some st => default [] (Stage.methods st)
  | None => []
  end.

(** A directory entry that the scan reads without throwing: its name does
    not end in [.json], or it is a session record. *)
Definition readable (e : string * Entry) : Prop :=
  endsWith (fst e) ".json" = true -> exists s, snd e = SessionFile s.

(** All method attempts held by the records of the directory, in the order
    the scan visits them. *)
Fixpoint scanned (files : list (string * Entry)) : list MethodAttempt.t :=
  match files with
  | [] => []
  | (name, SessionFile s) :: rest =>
      if endsWith name ".json" then persistedAttempts s ++ scanned rest
      else scanned rest
  | _ :: rest => scanned rest
  end.

Definition named (name : string) (m : MethodAttempt.t) : bool :=
  String.eqb (MethodAttempt.methodName m) name.

Definition count {A} (p : A -> bool) (l : list A) : Z :=
  Z.of_nat (length (List.filter p l)).

(** The sum of the durations that are set and not zero. *)
Fixpoint sumDurations (ms : list MethodAttempt.t) : Z :=
  match ms with
  | [] => 0
  | m :: rest => default 0 (MethodAttempt.duration m) + sumDurations rest
  end.

(** The statistics of the attempts [hits] of one method. *)
Definition statsOf (hits : list MethodAttempt.t) : MethodStats.t :=
  MethodStats.mk (count (fun _ => true) hits)
    (count MethodAttempt.success hits)
    (count (fun m => negb (MethodAttempt.success m)) hits)
    (divide (sumDurations hits) (count (fun _ => true) hits))
    (sumDurations hits).

(** What the statistics table holds under a method name, given all the
    attempts scanned. *)
Definition expectedStats (all : list MethodAttempt.t) (name : string)
  : option MethodStats.t :=
  match List.filter (named name) all with
  | [] => None
  | hits => Some (statsOf hits)
  end.

(** What the statistics table holds under a name: nothing under a name
    that the table inherits as a function, and the statistics of the
    attempts of that name otherwise. *)
Definition tabulated (all : list MethodAttempt.t) (name : string)
  : option MethodStats.t :=
  if DebugLogger.inheritsFunction name then None else expectedStats all name.

(** No attempt is named after the prototype accessor. *)
Definition plainlyNamed (all : list MethodAttempt.t) : Prop :=
  Forall (fun m => MethodAttempt.methodName m <> "__proto__") all.

Definition persisted (imageId : string) (ms : list MethodAttempt.t)
  : Session.t :=
  Session.mk imageId "job-1" "https://example.test/1" 0 (Some 1000) (Some 1000)
    {[ canvasExtraction :=
         Stage.mk "canvasExtraction" 10 10 None (Some "unknown")
           (CNum (Z.of_nat (length ms))) None (Some ms) [] ]}
    ProcessState.initial Outcome.initial None.

Definition finished (methodName : string) (success : bool) (duration : Z)
  : MethodAttempt.t :=
  MethodAttempt.mk methodName 1 10 (Some (10 + duration)) (Some duration)
    success None None None.

Definition summaryOf (s : Session.t) : SummaryLine.t :=
  DebugLogger.summaryLine 2000 s.

(** Three persisted sessions: "viewport-render" succeeds with durations
    100 ms and 200 ms and fails with duration 50 ms. *)
Definition threeSessions : Disk :=
  let s1 := persisted "img-1" [finished "viewport-render" true 100] in
  let s2 := persisted "img-2" [finished "viewport-render" true 200] in
  let s3 := persisted "img-3" [finished "viewport-render" false 50] in
  mkDisk
    [("img-1_1001.json", SessionFile s1);
     ("img-2_1002.json", SessionFile s2);
     ("img-3_1003.json", SessionFile s3)]
    (Some [summaryOf s1; summaryOf s2; summaryOf s3]).

(** The same directory with the second record cut short. *)
Definition oneTruncated : Disk :=
  let s1 := persisted "img-1" [finished "viewport-render" true 100] in
  let s3 := persisted "img-3" [finished "viewport-render" false 50] in
  mkDisk
    [("img-1_1001.json", SessionFile s1);
     ("img-2_1002.json", MalformedFile "{ 'imageId': 'img-2', 'sta");
     ("img-3_1003.json", SessionFile s3)]
    (Some [summaryOf s1; summaryOf s3]).

(** One persisted session with a failed attempt of "viewport-render" and a
    successful attempt of a method named "constructor". *)
Definition inheritedName : Disk :=
  let s1 :=
    persisted "img-1"
      [finished "viewport-render" false 50; finished "constructor" true 100] in
  mkDisk [("img-1_1001.json", SessionFile s1)] (Some [summaryOf s1]).

Definition onDisk (d : Disk) : World :=
  mkWorld (fun n => Z.of_nat n) 0 (fun _ => MemoryUsage.mk 0 0 0 0) 0 [] d
    (mkLogger "logs/debug-sessions" ∅ 0).

(** ** What an operation leaves alone *)

(** [m] relates every world it is run in to the world it leaves behind,
    whether it returns or throws. *)
Definition keeps {A} (R : relation World) (m : Eff A) : Prop :=
  forall w, R w (worldOf (m w)).

(** The sessions of all tasks but [imageId] are the same. *)
Definition othersKept (imageId : string) : relation World :=
  fun w w' =>
    forall other, other <> imageId -> liveSession w' other = liveSession w other.

(** The sessions directory is the same. *)
Definition diskKept : relation World :=
  fun w w' => disk w' = disk w.

(** The session as [endImageSession] persists it in world [w]: an end time
    that is missing, or zero, is filled in from the clock. *)
Definition endedSession (w : World) (s : Session.t) : Session.t :=
  if DebugLogger.lacksEndTime s
  then DebugLogger.withEnd (clock w (clockReads w)) s
  else s.

(** How many clock reads of [endImageSession] precede the one that names
    the session file. *)
Definition readsBeforeFileName (w : World) (s : Session.t) : nat :=
  if DebugLogger.lacksEndTime s then S (clockReads w) else clockReads w.

(** The name of the file that [endImageSession] writes in world [w]. *)
Definition endFileName (w : World) (imageId : string) (s : Session.t) : string :=
  DebugLogger.sessionFileName imageId (clock w (readsBeforeFileName w s)).

(** The summary line that [endImageSession] appends in world [w]. *)
Definition endSummaryLine (w : World) (s : Session.t) : SummaryLine.t :=
  DebugLogger.summaryLine (clock w (S (readsBeforeFileName w s)))
    (endedSession w s).

(** A sequence of [recordCheckpoint] calls for one task. *)
Fixpoint checkpoints (imageId : string)
    (calls : list (StageName * option Detail.t)) : Eff unit :=
  match calls with
  | [] => ret tt
  | (stageName, details) :: rest =>
      DebugLogger.recordCheckpoint imageId stageName details ;;
      checkpoints imageId rest
  end.

(** One call about a method attempt: its beginning or its result. *)
Inductive AttemptCall :=
| Begin (methodName : string) (methodNumber startTime : Z)
| Finish (r : ResultCall).

Fixpoint attemptCalls (imageId : string) (calls : list AttemptCall) : Eff unit :=
  match calls with
  | [] => ret tt
  | Begin methodName methodNumber startTime :: rest =>
      DebugLogger.recordMethodAttempt imageId methodName methodNumber startTime ;;
      attemptCalls imageId rest
  | Finish r :: rest =>
      DebugLogger.recordMethodResult imageId (rank r) (succeeded r) (failure r)
        (dom r) (extraction r) ;;
      attemptCalls imageId rest
  end.

Fixpoint begun (calls : list AttemptCall) : nat :=
  match calls with
  | [] => 0
  | Begin _ _ _ :: rest => S (begun rest)
  | Finish _ :: rest => begun rest
  end.

(** The attempt counter of the canvas-extraction stage, if there is one,
    is the length of its methods list. *)
Definition counted (s : Session.t) : Prop :=
  match canvasStage s with
  | None => True
  | Some st =>
      exists ms,
        Stage.methods st = Some ms
        /\ Stage.totalAttempts st = CNum (Z.of_nat (length ms))
  end.


(** A world whose heap holds 400 million bytes at every measurement. *)
Definition loadedWorld : World :=
  mkWorld (fun n => Z.of_nat n) 0
    (fun _ => MemoryUsage.mk 400000000 500000000 0 600000000) 0 []
    (mkDisk [] None) (mkLogger "logs/debug-sessions" ∅ 0).

(** The diagnostics of a session after [saveDiagnostics] with the given
    arguments, [dir] being the directory of the task's artefacts: a field
    is replaced when its argument is provided (and, for the HTML snapshot,
    not empty) and kept otherwise. *)
Definition savedDiagnostics (dir : string)
    (screenshotBuffer htmlSnapshot : option string)
    (consoleLogs networkErrors : option (list string))
    (d : Diagnostics.t) : Diagnostics.t :=
  Diagnostics.mk
    (match screenshotBuffer with
     | Some _ => Some (join dir "failure-screenshot.png")
     | None => Diagnostics.screenshotPath d
     end)
    (if truthy_string htmlSnapshot
     then Some (join dir "failure-dom.html")
     else Diagnostics.htmlSnapshotPath d)
    (match consoleLogs with
     | Some logs => Some logs
     | None => Diagnostics.consoleLogs d
     end)
    (match networkErrors with
     | Some errors => Some errors
     | None => Diagnostics.networkErrors d
     end).

(** The artefact files of a task after [saveDiagnostics]. *)
Definition savedArtefacts (screenshotBuffer htmlSnapshot : option string)
    (files : list (string * string)) : list (string * string) :=
  let files :=
    match screenshotBuffer with
    | Some buffer => assocSet "failure-screenshot.png" buffer files
    | None => files
    end in
  if truthy_string htmlSnapshot
  then assocSet "failure-dom.html" (default EmptyString htmlSnapshot) files
  else files.

(** The artefact files a task has in the directory; [None] when a file
    stands in the place of the task's directory. *)
Definition artefactsOf (d : Disk) (imageId : string)
  : option (list (string * string)) :=
  match assoc imageId (entries d) with
  | None => if isSummaryLog d imageId then None else Some []
  | Some (TaskDirectory files) => Some files
  | Some _ => None
  end.

(** [m] run in [w] returns, with a result and a world that satisfy [Q]. *)
Definition total {A} (m : Eff A) (w : World) (Q : A -> World -> Prop) : Prop :=
  exists a w', m w = Returns a w' /\ Q a w'.

(** What [saveDiagnostics] works on: the live session of the task, the
    files of the task's directory, and the sessions directory's path. *)
Definition diagnosing (imageId : string) (s : Session.t)
    (files : list (string * string)) (dir : string) (w : World) : Prop :=
  liveSession w imageId = Some s
  /\ assoc imageId (entries (disk w)) = Some (TaskDirectory files)
  /\ sessionsDir (debugLogger w) = dir.

(** The world with the directory reduced to the entries whose name ends in
    [.json]. *)
Definition jsonOnly (w : World) : World :=
  mkWorld (clock w) (clockReads w) (heap w) (heapReads w) (console w)
    (mkDisk
       (List.filter (fun e => endsWith (fst e) ".json") (entries (disk w)))
       (summaryLog (disk w)))
    (debugLogger w).

(** * Properties *)

(** ** Recycling decision *)

Lemma exceeds_iff (x : Q) (limit : Z) :
  exceeds x limit = true <-> (inject_Z limit < x)%Q.
Proof.
  unfold exceeds. rewrite negb_true_iff.
  destruct (Qle_bool x (inject_Z limit)) eqn:E.
  - apply Qle_bool_iff in E. split; [discriminate |].
    intros H. exfalso. exact (Qlt_not_le _ _ H E).
  - split; [intros _ | reflexivity].
    apply Qnot_le_lt. intros H. apply Qle_bool_iff in H. congruence.
Qed.

Lemma recordProcessState_oracle imageId state w :
  exists w',
    DebugLogger.recordProcessState imageId state w = Returns tt w'
    /\ heap w' = heap w /\ heapReads w' = heapReads w
    /\ clock w' = clock w /\ clockReads w' = clockReads w
    /\ console w' = console w /\ disk w' = disk w.
Proof.
  unfold DebugLogger.recordProcessState, DebugLogger.get, bind, getLogger, ret.
  destruct (currentSession (debugLogger w) !! imageId);
    eexists; split; try reflexivity; simpl; auto 10.
Qed.

(** Runs a [recordProcessState] that the goal is about to evaluate. *)
Ltac run_recordProcessState w1 :=
  match goal with
  | |- context [DebugLogger.recordProcessState ?i ?s ?v] =>
      destruct (recordProcessState_oracle i s v)
        as (w1 & -> & ?Hheap & ?Hreads & ?Hclock & _)
  end.

Lemma shouldRecycle_spec self imageId w :
  exists w',
    ProcessRecyclingManager.shouldRecycle self imageId w
      = Returns (decision self (freshSample w)) w'
    /\ heap w' = heap w /\ heapReads w' = S (S (heapReads w))
    /\ clock w' = clock w.
Proof.
  unfold ProcessRecyclingManager.shouldRecycle, MemoryMonitor.shouldRecycle,
    decision, freshSample.
  unfold bind at 1. cbn [process_memoryUsage].
  unfold bind at 1. unfold bind at 1. cbn [process_memoryUsage heapReads heap].
  set (tc := (_ <=? _)).
  set (ex := exceeds _ _).
  destruct ex, tc; destruct (truthy_string imageId);
    unfold bind, console_log, console_warn, emit, when, ret;
    cbn -[DebugLogger.recordProcessState];
    try (eexists; split; [reflexivity | cbn; auto]);
    run_recordProcessState w1;
    cbn in *; exists w1; auto.
Qed.

Lemma constructor_spec maxTasksPerCycle w :
  exists self w',
    ProcessRecyclingManager.constructor maxTasksPerCycle w = Returns self w'
    /\ ProcessRecyclingManager.tasksCompleted self = 0
    /\ ProcessRecyclingManager.maxTasksPerCycle self = default 1 maxTasksPerCycle
    /\ ProcessRecyclingManager.memoryThresholdMB self = 300
    /\ heap w' = heap w.
Proof.
  do 2 eexists. split; [reflexivity |]. cbn. auto.
Qed.

Lemma exceeds_below limit w i :
  memoryBelow limit w ->
  exceeds (toMB (MemoryUsage.heapUsed (heap w i))) limit = false.
Proof.
  intros H. unfold exceeds. apply negb_false_iff, Qle_bool_iff, H.
Qed.

Lemma cycle_spec n : forall self w,
  memoryBelow (ProcessRecyclingManager.memoryThresholdMB self) w ->
  exists w',
    cycle n self w
      = Returns
          (map (fun k => ProcessRecyclingManager.maxTasksPerCycle self
                         <=? ProcessRecyclingManager.tasksCompleted self
                             + Z.of_nat k)
             (seq 1 n)) w'.
Proof.
  induction n as [| n IH]; intros self w Hmem.
  - eexists. reflexivity.
  - cbn [cycle]. unfold bind at 1.
    destruct (shouldRecycle_spec
                (ProcessRecyclingManager.recordTaskComplete self) None w)
      as (w1 & -> & Hh & _).
    unfold bind at 1.
    destruct (IH (ProcessRecyclingManager.recordTaskComplete self) w1)
      as (w2 & ->).
    { intros i. cbn. rewrite Hh. apply Hmem. }
    eexists. unfold ret. f_equal.
    cbn [seq map]. f_equal.
    + unfold decision, freshSample. cbn.
      rewrite (exceeds_below _ _ _ Hmem). apply orb_false_r.
    + rewrite <- (seq_shift n 1), map_map. apply map_ext. intros k. cbn.
      f_equal. lia.
Qed.

(** C1. [shouldRecycle] returns, and it returns true exactly when the task
    counter has reached [maxTasksPerCycle] or the heap-used that the call
    measures afresh exceeds the memory threshold, in megabytes; each call
    takes two new measurements, the second of which decides. A manager
    constructed with [maxTasksPerCycle = 3] (threshold 300 MB) and memory
    staying below the threshold answers false after the first and second
    completed task and true after the third; a manager constructed with
    the default ([maxTasksPerCycle = 1]) answers true after the first
    completed task, whatever the memory. *)
Theorem C1_shouldRecycle_task_limit_or_memory :
  (forall self imageId w,
     exists b w',
       ProcessRecyclingManager.shouldRecycle self imageId w = Returns b w'
       /\ heapReads w' = S (S (heapReads w))
       /\ (b = true <->
           ProcessRecyclingManager.maxTasksPerCycle self
             <= ProcessRecyclingManager.tasksCompleted self
           \/ (inject_Z (ProcessRecyclingManager.memoryThresholdMB self)
               < toMB (MemoryUsage.heapUsed (freshSample w)))%Q))
  /\ (forall w, memoryBelow 300 w ->
        valueOf (lifetime (Some 3) 3 w) = Some [false; false; true])
  /\ (forall w, valueOf (lifetime None 1 w) = Some [true]).
Proof.
  split; [| split].
  - intros self imageId w.
    destruct (shouldRecycle_spec self imageId w) as (w' & E & _ & Hr & _).
    exists (decision self (freshSample w)), w'. split; [exact E |].
    split; [exact Hr |].
    unfold decision. rewrite orb_true_iff, Z.leb_le, exceeds_iff. reflexivity.
  - intros w Hmem. unfold lifetime, bind.
    destruct (constructor_spec (Some 3) w) as (self & w1 & -> & Ht & Hm & Hth & Hh).
    destruct (cycle_spec 3 self w1) as (w2 & ->).
    { rewrite Hth. intros i. rewrite Hh. apply Hmem. }
    cbn. rewrite Ht, Hm. reflexivity.
  - intros w. unfold lifetime, bind.
    destruct (constructor_spec None w) as (self & w1 & -> & Ht & Hm & _).
    cbn [cycle]. unfold bind.
    destruct (shouldRecycle_spec
                (ProcessRecyclingManager.recordTaskComplete self) None w1)
      as (w2 & -> & _).
    cbn. unfold decision. cbn. rewrite Ht, Hm. reflexivity.
Qed.

Lemma C1_witness :
  memoryBelow 300 quietWorld
  /\ valueOf (lifetime (Some 3) 3 quietWorld) = Some [false; false; true].
Proof.
  assert (H : memoryBelow 300 quietWorld).
  { intros i. cbn. unfold Qle. cbn. lia. }
  split; [exact H |].
  exact (proj1 (proj2 C1_shouldRecycle_task_limit_or_memory) quietWorld H).
Defined.

(** ** Method attempts *)

Lemma withStages_insert_insert k x y s :
  DebugLogger.withStages (insert k y)
    (DebugLogger.withStages (insert k x) s)
  = DebugLogger.withStages (insert k y) s.
Proof.
  unfold DebugLogger.withStages. cbn. f_equal. apply insert_insert_eq.
Qed.

Section Attempts.

Variable imageId : string.

Lemma recordMethodAttempt_pushes methodName methodNumber startTime
    w s ms :
  liveSession w imageId = Some s ->
  Stage.methods
    (default (DebugLogger.freshCanvasExtraction startTime (Session.startTime s))
       (canvasStage s)) = Some ms ->
  exists w',
    DebugLogger.recordMethodAttempt imageId methodName methodNumber startTime w
      = Returns tt w'
    /\ liveSession w' imageId
       = Some (DebugLogger.withStages
                 (insert canvasExtraction
                    (DebugLogger.pushAttempt
                       (DebugLogger.newAttempt methodName methodNumber startTime)
                       ms
                       (default
                          (DebugLogger.freshCanvasExtraction startTime
                             (Session.startTime s))
                          (canvasStage s))))
                 s)
    /\ (forall other, other <> imageId ->
          liveSession w' other = liveSession w other)
    /\ clock w' = clock w /\ heap w' = heap w.
Proof.
  unfold liveSession, canvasStage. intros Hs Hms.
  unfold DebugLogger.recordMethodAttempt, DebugLogger.get, bind, getLogger, ret.
  rewrite Hs, Hms. cbn.
  eexists. split; [reflexivity |]. cbn.
  split; [| split; [| auto]].
  - rewrite lookup_alter_eq, Hs. reflexivity.
  - intros other Hne. apply lookup_alter_ne. congruence.
Qed.

Lemma afterBegin_nil st ms :
  Stage.methods st = Some ms -> afterBegin st ms [] = st.
Proof.
  destruct st; cbn. intros ->. unfold afterBegin. cbn.
  rewrite app_nil_r. reflexivity.
Qed.

Lemma afterBegin_cons st ms c rest :
  afterBegin (DebugLogger.pushAttempt (attemptOf c) ms st)
    (ms ++ [attemptOf c]) rest
  = afterBegin st ms (c :: rest).
Proof.
  unfold afterBegin, DebugLogger.pushAttempt. cbn [Stage.name Stage.timestamp
    Stage.elapsed Stage.memory Stage.mode Stage.totalAttempts
    Stage.successfulMethod Stage.extra length map].
  rewrite <- app_assoc, Nat.iter_succ_r. reflexivity.
Qed.

Lemma withStages_insert_id s st :
  canvasStage s = Some st ->
  DebugLogger.withStages (insert canvasExtraction st) s = s.
Proof.
  unfold canvasStage, DebugLogger.withStages. destruct s; cbn. intros H.
  f_equal. apply insert_id, H.
Qed.

Lemma canvasStage_withStages_insert st s :
  canvasStage (DebugLogger.withStages (insert canvasExtraction st) s) = Some st.
Proof. unfold canvasStage. cbn. apply lookup_insert_eq. Qed.

Lemma beginAttempts_present calls : forall w s st ms,
  liveSession w imageId = Some s ->
  canvasStage s = Some st ->
  Stage.methods st = Some ms ->
  exists w',
    beginAttempts imageId calls w = Returns tt w'
    /\ liveSession w' imageId
       = Some (DebugLogger.withStages
                 (insert canvasExtraction (afterBegin st ms calls)) s)
    /\ (forall other, other <> imageId ->
          liveSession w' other = liveSession w other)
    /\ clock w' = clock w /\ heap w' = heap w.
Proof.
  induction calls as [| [[methodName methodNumber] startTime] rest IH];
    intros w s st ms Hs Hst Hms.
  - exists w. rewrite (afterBegin_nil _ _ Hms), (withStages_insert_id _ _ Hst).
    auto.
  - cbn [beginAttempts]. unfold bind.
    destruct (recordMethodAttempt_pushes methodName methodNumber
                startTime w s ms Hs)
      as (w1 & -> & Hs1 & Hframe1 & Hc1 & Hh1).
    { rewrite Hst. exact Hms. }
    rewrite Hst in Hs1. cbn [default] in Hs1.
    destruct (IH w1 _ _ (ms ++ [DebugLogger.newAttempt methodName methodNumber
                                  startTime])
                Hs1 (canvasStage_withStages_insert _ _) eq_refl)
      as (w2 & -> & Hs2 & Hframe2 & Hc2 & Hh2).
    exists w2. split; [reflexivity |].
    rewrite withStages_insert_insert in Hs2.
    rewrite Hs2.
    change (DebugLogger.newAttempt methodName methodNumber startTime)
      with (attemptOf (methodName, methodNumber, startTime)).
    rewrite afterBegin_cons.
    split; [reflexivity |].
    split; [| split; congruence].
    intros other Hne. rewrite Hframe2, Hframe1; auto.
Qed.

Lemma beginAttempts_fresh methodName methodNumber startTime rest
    w s :
  liveSession w imageId = Some s ->
  canvasStage s = None ->
  exists w',
    beginAttempts imageId ((methodName, methodNumber, startTime) :: rest) w
      = Returns tt w'
    /\ liveSession w' imageId
       = Some (DebugLogger.withStages
                 (insert canvasExtraction
                    (afterBegin
                       (DebugLogger.freshCanvasExtraction startTime
                          (Session.startTime s))
                       [] ((methodName, methodNumber, startTime) :: rest)))
                 s)
    /\ (forall other, other <> imageId ->
          liveSession w' other = liveSession w other)
    /\ clock w' = clock w /\ heap w' = heap w.
Proof.
  intros Hs Hnone. cbn [beginAttempts]. unfold bind.
  destruct (recordMethodAttempt_pushes methodName methodNumber
              startTime w s [] Hs)
    as (w1 & -> & Hs1 & Hframe1 & Hc1 & Hh1).
  { rewrite Hnone. reflexivity. }
  rewrite Hnone in Hs1. cbn [default] in Hs1.
  destruct (beginAttempts_present rest w1 _ _
              ([] ++ [DebugLogger.newAttempt methodName methodNumber startTime])
              Hs1 (canvasStage_withStages_insert _ _) eq_refl)
    as (w2 & -> & Hs2 & Hframe2 & Hc2 & Hh2).
  exists w2. split; [reflexivity |].
  rewrite withStages_insert_insert in Hs2. rewrite Hs2.
  change (DebugLogger.newAttempt methodName methodNumber startTime)
    with (attemptOf (methodName, methodNumber, startTime)).
  rewrite afterBegin_cons.
  split; [reflexivity |].
  split; [| split; congruence].
  intros other Hne. rewrite Hframe2, Hframe1; auto.
Qed.

Lemma map_updateFirst {A B} (g : A -> B) (p : A -> bool) (f : A -> A) l :
  (forall x, g (f x) = g x) -> map g (DebugLogger.updateFirst p f l) = map g l.
Proof.
  intros Hg. induction l as [| x l IH]; cbn; [reflexivity |].
  destruct (p x); cbn; congruence.
Qed.

Lemma length_updateFirst {A} (p : A -> bool) (f : A -> A) l :
  length (DebugLogger.updateFirst p f l) = length l.
Proof.
  induction l as [| x l IH]; cbn; [reflexivity |].
  destruct (p x); cbn; congruence.
Qed.

Lemma find_ranked r ms :
  In r (ranksOf ms) -> exists m, find (DebugLogger.hasNumber r) ms = Some m.
Proof.
  induction ms as [| x ms IH]; cbn; [tauto |].
  intros [<- | H].
  - unfold DebugLogger.hasNumber at 1. rewrite Z.eqb_refl. eauto.
  - destruct (DebugLogger.hasNumber r x); eauto.
Qed.

Lemma find_unranked r ms :
  ~ In r (ranksOf ms) -> find (DebugLogger.hasNumber r) ms = None.
Proof.
  induction ms as [| x ms IH]; cbn; [reflexivity |].
  intros H. unfold DebugLogger.hasNumber at 1.
  destruct (Z.eqb_spec (MethodAttempt.methodNumber x) r); [tauto |].
  apply IH. tauto.
Qed.

Lemma find_nameAt r ms m :
  find (DebugLogger.hasNumber r) ms = Some m ->
  nameAt r (ranksOf ms) (namesOf ms) = Some (MethodAttempt.methodName m).
Proof.
  induction ms as [| x ms IH]; cbn; [discriminate |].
  unfold DebugLogger.hasNumber at 1.
  destruct (MethodAttempt.methodNumber x =? r); [congruence | exact IH].
Qed.

Lemma recordMethodResult_found r w s st ms m :
  liveSession w imageId = Some s ->
  canvasStage s = Some st ->
  Stage.methods st = Some ms ->
  find (DebugLogger.hasNumber (rank r)) ms = Some m ->
  exists w',
    DebugLogger.recordMethodResult imageId (rank r) (succeeded r) (failure r)
      (dom r) (extraction r) w = Returns tt w'
    /\ liveSession w' imageId
       = Some (DebugLogger.withStages
                 (insert canvasExtraction
                    (DebugLogger.withResult
                       (DebugLogger.updateFirst (DebugLogger.hasNumber (rank r))
                          (DebugLogger.complete (clock w (clockReads w))
                             (succeeded r) (failure r) (dom r) (extraction r))
                          ms)
                       (if succeeded r then Some (MethodAttempt.methodName m)
                        else Stage.successfulMethod st)
                       st))
                 s)
    /\ (forall other, other <> imageId ->
          liveSession w' other = liveSession w other)
    /\ clock w' = clock w /\ heap w' = heap w.
Proof.
  unfold liveSession, canvasStage. intros Hs Hst Hms Hfind.
  unfold DebugLogger.recordMethodResult, DebugLogger.get, bind, getLogger, ret.
  rewrite Hs, Hst, Hms, Hfind. cbn.
  eexists. split; [reflexivity |]. cbn.
  split; [| split; [| auto]].
  - rewrite lookup_alter_eq, Hs. reflexivity.
  - intros other Hne. apply lookup_alter_ne. congruence.
Qed.

Lemma recordResults_spec results : forall w s st ms,
  liveSession w imageId = Some s ->
  canvasStage s = Some st ->
  Stage.methods st = Some ms ->
  Forall (fun r => In (rank r) (ranksOf ms)) results ->
  exists w' s' st' ms',
    recordResults imageId results w = Returns tt w'
    /\ liveSession w' imageId = Some s'
    /\ canvasStage s' = Some st'
    /\ Stage.methods st' = Some ms'
    /\ length ms' = length ms
    /\ ranksOf ms' = ranksOf ms
    /\ namesOf ms' = namesOf ms
    /\ Stage.successfulMethod st'
       = foldl (fun acc r =>
                  if succeeded r
                  then nameAt (rank r) (ranksOf ms) (namesOf ms)
                  else acc)
           (Stage.successfulMethod st) results
    /\ (forall other, other <> imageId ->
          liveSession w' other = liveSession w other).
Proof.
  induction results as [| r rest IH]; intros w s st ms Hs Hst Hms Hall.
  - exists w, s, st, ms. cbn. auto 10.
  - apply Forall_cons in Hall as [Hr Hrest].
    destruct (find_ranked _ _ Hr) as [m Hfind].
    cbn [recordResults]. unfold bind.
    destruct (recordMethodResult_found r w s st ms m Hs Hst Hms Hfind)
      as (w1 & -> & Hs1 & Hframe1 & _).
    set (ms1 := DebugLogger.updateFirst _ _ ms) in Hs1.
    assert (Hranks : ranksOf ms1 = ranksOf ms)
      by (apply map_updateFirst; reflexivity).
    assert (Hnames : namesOf ms1 = namesOf ms)
      by (apply map_updateFirst; reflexivity).
    destruct (IH w1 _ _ ms1 Hs1 (canvasStage_withStages_insert _ _) eq_refl)
      as (w2 & s2 & st2 & ms2 & -> & Hs2 & Hst2 & Hms2 & Hlen & Hrk & Hnm
          & Hsucc & Hframe2).
    { rewrite Hranks. exact Hrest. }
    exists w2, s2, st2, ms2. split; [reflexivity |].
    repeat split; try assumption; try congruence.
    + rewrite Hlen. apply length_updateFirst.
    + rewrite Hsucc, Hranks, Hnames. cbn [foldl DebugLogger.withResult
        Stage.successfulMethod].
      rewrite (find_nameAt _ _ _ Hfind). reflexivity.
    + intros other Hne. rewrite Hframe2, Hframe1; auto.
Qed.

End Attempts.

Lemma ranksOf_numbered attempts : forall from,
  ranksOf (map attemptOf (numbered from attempts))
  = ranksFrom from (length attempts).
Proof.
  induction attempts as [| [methodName startTime] rest IH]; intros from; cbn;
    [reflexivity |].
  f_equal. apply IH.
Qed.

Lemma namesOf_numbered attempts : forall from,
  namesOf (map attemptOf (numbered from attempts)) = map fst attempts.
Proof.
  induction attempts as [| [methodName startTime] rest IH]; intros from; cbn;
    [reflexivity |].
  f_equal. apply IH.
Qed.

Lemma length_numbered attempts : forall from,
  length (numbered from attempts) = length attempts.
Proof.
  induction attempts as [| [methodName startTime] rest IH]; intros from; cbn;
    [reflexivity |].
  f_equal. apply IH.
Qed.

Lemma In_ranksFrom r n : forall from,
  In r (ranksFrom from n) <-> from <= r < from + Z.of_nat n.
Proof.
  induction n as [| n IH]; intros from; cbn [ranksFrom In].
  - lia.
  - rewrite IH. lia.
Qed.

Lemma nameAt_ranksFrom r names : forall from,
  from <= r < from + Z.of_nat (length names) ->
  nameAt r (ranksFrom from (length names)) names = names !! Z.to_nat (r - from).
Proof.
  induction names as [| n names IH]; intros from Hr; cbn [length] in *;
    [lia |].
  cbn [ranksFrom nameAt].
  destruct (Z.eqb_spec from r) as [-> | Hne].
  - rewrite Z.sub_diag. reflexivity.
  - rewrite IH by lia.
    replace (Z.to_nat (r - from)) with (S (Z.to_nat (r - (from + 1)))) by lia.
    reflexivity.
Qed.

Lemma foldl_last_success (f : ResultCall -> option string) results :
  forall acc,
    foldl (fun acc r => if succeeded r then f r else acc) acc results
    = match last (filter (fun r => succeeded r = true) results) with
      | Some r => f r
      | None => acc
      end.
Proof.
  induction results as [| r rest IH]; intros acc; cbn [foldl];
    [reflexivity |].
  rewrite IH, filter_cons.
  destruct (succeeded r) eqn:E; case_decide; try congruence.
  rewrite last_cons. destruct (last _); reflexivity.
Qed.

Lemma foldl_ext_Forall {A B} (P : B -> Prop) (f g : A -> B -> A) l :
  Forall P l -> (forall a x, P x -> f a x = g a x) ->
  forall a, foldl f a l = foldl g a l.
Proof.
  intros Hall Hfg. induction Hall as [| x l Hx _ IH]; intros a; cbn;
    [reflexivity |].
  rewrite (Hfg _ _ Hx). apply IH.
Qed.

(** C2 (amended). On a live session with no canvas-extraction stage yet,
    [beginAttempt] for the ranks 1..N (N at least 1) followed by
    [recordAttemptResult] for each of those ranks, in any order, completes
    and leaves a canvas-extraction stage whose methods list has length N
    and whose [successfulMethod] is the name begun under the rank of the
    successful result recorded last, and is unset when no result was
    successful. *)
Theorem C2_successfulMethod_is_last_recorded_success
    imageId w s (attempts : list (string * Z)) (results : list ResultCall) :
  liveSession w imageId = Some s ->
  canvasStage s = None ->
  attempts <> [] ->
  Permutation (map rank results) (ranksFrom 1 (length attempts)) ->
  exists w' s' st ms,
    (beginAttempts imageId (numbered 1 attempts) ;;
     recordResults imageId results) w = Returns tt w'
    /\ liveSession w' imageId = Some s'
    /\ canvasStage s' = Some st
    /\ Stage.methods st = Some ms
    /\ length ms = length attempts
    /\ Stage.successfulMethod st = lastSuccessful (map fst attempts) results.
Proof.
  intros Hs Hnone Hne Hperm.
  destruct attempts as [| [methodName startTime] rest]; [congruence |].
  set (attempts := (methodName, startTime) :: rest) in *.
  unfold bind.
  destruct (beginAttempts_fresh imageId methodName 1 startTime
              (numbered (1 + 1) rest) w s Hs Hnone)
    as (w1 & E1 & Hs1 & _).
  change (beginAttempts imageId (numbered 1 attempts) w = Returns tt w1) in E1.
  rewrite E1.
  change ((methodName, 1, startTime) :: numbered (1 + 1) rest)
    with (numbered 1 attempts) in Hs1.
  set (ms0 := [] ++ map attemptOf (numbered 1 attempts)) in *.
  assert (Hranks : ranksOf ms0 = ranksFrom 1 (length attempts))
    by apply ranksOf_numbered.
  assert (Hnames : namesOf ms0 = map fst attempts)
    by apply namesOf_numbered.
  assert (Hall : Forall (fun r => In (rank r) (ranksOf ms0)) results).
  { apply List.Forall_forall. intros r Hr. rewrite Hranks.
    apply (Permutation_in _ Hperm), in_map, Hr. }
  destruct (recordResults_spec imageId results w1 _ _ ms0 Hs1
              (canvasStage_withStages_insert _ _) eq_refl Hall)
    as (w2 & s2 & st2 & ms2 & -> & Hs2 & Hst2 & Hms2 & Hlen & _ & _ & Hsucc & _).
  exists w2, s2, st2, ms2. repeat split; try assumption.
  - rewrite Hlen. unfold ms0. cbn [app].
    rewrite length_map. apply length_numbered.
  - rewrite Hsucc. cbn [afterBegin DebugLogger.freshCanvasExtraction
      Stage.successfulMethod].
    unfold lastSuccessful. rewrite <- foldl_last_success.
    apply (foldl_ext_Forall _ _ _ _ Hall).
    intros acc r Hr. destruct (succeeded r); [| reflexivity].
    rewrite Hranks, Hnames. rewrite Hranks in Hr.
    apply In_ranksFrom in Hr.
    rewrite <- (length_map fst attempts) in Hr |- *.
    apply nameAt_ranksFrom. exact Hr.
Qed.

Lemma C2_witness :
  exists w' s' st ms,
    (beginAttempts "img-1"
       (numbered 1 [("viewport-render", 10); ("canvas-toDataURL", 20)]) ;;
     recordResults "img-1" [fails 2 "tainted canvas"; succeeds 1]) sessionWorld
      = Returns tt w'
    /\ liveSession w' "img-1" = Some s'
    /\ canvasStage s' = Some st
    /\ Stage.methods st = Some ms
    /\ length ms = 2%nat
    /\ Stage.successfulMethod st = Some "viewport-render".
Proof.
  apply (C2_successfulMethod_is_last_recorded_success "img-1" sessionWorld
           (DebugLogger.freshSession "img-1" "job-1" "https://example.test/1" 0)
           [("viewport-render", 10); ("canvas-toDataURL", 20)]
           [fails 2 "tainted canvas"; succeeds 1]).
  - reflexivity.
  - reflexivity.
  - discriminate.
  - apply perm_swap.
Defined.

(** C2, as stated, fails: ranks 1 and 2 are begun and both results are
    successful, recorded in rank order; the stage then names the attempt
    of rank 2, while the successful attempt of lowest rank is that of
    rank 1. *)
Lemma C2_counterexample :
  let c :=
    (beginAttempts "img-1" (numbered 1 [("first", 10); ("second", 20)]) ;;
     recordResults "img-1" [succeeds 1; succeeds 2]) sessionWorld in
  exists st ms,
    returned c = true
    /\ canvasAfter c "img-1" = Some st
    /\ Stage.methods st = Some ms
    /\ ranksOf ms = [1; 2]
    /\ map MethodAttempt.success ms = [true; true]
    /\ lowestRankedSuccessful ms = Some "first"
    /\ Stage.successfulMethod st = Some "second"
    /\ Stage.successfulMethod st <> lowestRankedSuccessful ms.
Proof.
  cbv zeta. eexists. eexists.
  split; [vm_compute; reflexivity |].
  split; [vm_compute; reflexivity |].
  split; [reflexivity |].
  repeat split; try reflexivity.
  discriminate.
Qed.

(** ** Sessions: start and missing sessions *)

(** C3 (amended). [start] for a task identifier that already has a live
    session does not keep that session: it puts a fresh session in its
    place (no stages, zeroed process state, non-success outcome, no end
    time, start time read from the clock at the call), logs the start, and
    leaves the sessions of other tasks and the disk unchanged. *)
Theorem C3_start_replaces_live_session imageId jobId url w (old : Session.t) :
  liveSession w imageId = Some old ->
  exists w',
    DebugLogger.startImageSession imageId jobId url w = Returns tt w'
    /\ liveSession w' imageId
       = Some (DebugLogger.freshSession imageId jobId url
                 (clock w (clockReads w)))
    /\ (forall other, other <> imageId ->
          liveSession w' other = liveSession w other)
    /\ console w' = console w ++ [Log (MsgStarted imageId)]
    /\ disk w' = disk w.
Proof.
  intros _. eexists. split; [reflexivity |]. unfold liveSession. cbn.
  split; [apply lookup_insert_eq |].
  split; [| auto].
  intros other Hne. apply lookup_insert_ne. congruence.
Qed.

Lemma C3_witness :
  exists w',
    DebugLogger.startImageSession "img-1" "job-2" "https://example.test/2"
      sessionWorld = Returns tt w'
    /\ liveSession w' "img-1"
       = Some (DebugLogger.freshSession "img-1" "job-2"
                 "https://example.test/2" 1)
    /\ (forall other, other <> "img-1" ->
          liveSession w' other = liveSession sessionWorld other)
    /\ console w' = console sessionWorld ++ [Log (MsgStarted "img-1")]
    /\ disk w' = disk sessionWorld.
Proof.
  apply (C3_start_replaces_live_session "img-1" "job-2"
           "https://example.test/2" sessionWorld
           (DebugLogger.freshSession "img-1" "job-1"
              "https://example.test/1" 0)).
  reflexivity.
Defined.

(** C3, as stated, fails: a session that has reached the navigation stage
    and has a recorded outcome is started again under the same task
    identifier; its stage, its outcome and its start time are gone. *)
Lemma C3_counterexample :
  let w :=
    worldOf
      ((DebugLogger.recordCheckpoint "img-1" navigation None ;;
        DebugLogger.recordOutcome "img-1" true None None None None)
         sessionWorld) in
  let c :=
    DebugLogger.startImageSession "img-1" "job-1" "https://example.test/1" w in
  exists before after,
    liveSession w "img-1" = Some before
    /\ liveSession (worldOf c) "img-1" = Some after
    /\ is_Some (Session.stages before !! navigation)
    /\ Session.stages after !! navigation = None
    /\ Outcome.success (Session.outcome before) = true
    /\ Outcome.success (Session.outcome after) = false
    /\ Session.startTime before = 0
    /\ Session.startTime after = 4
    /\ after <> before.
Proof.
  cbv zeta. eexists. eexists.
  split; [vm_compute; reflexivity |].
  split; [vm_compute; reflexivity |].
  split; [vm_compute; eauto |].
  split; [vm_compute; reflexivity |].
  repeat split; try reflexivity.
  intros H. apply (f_equal Session.startTime) in H. discriminate H.
Qed.

(** C5 (amended). An operation of the session tracker that names a task
    without a live session returns without throwing and leaves the live
    sessions, the disk and the clock as they were. [checkpoint] writes one
    warning to the console; [beginAttempt], [recordAttemptResult],
    [mergeProcessState], [finish], [end] and [saveDiagnostics] write
    nothing at all: the world after the call is the world before it. *)
Theorem C5_missing_session_is_noop imageId w :
  liveSession w imageId = None ->
  (forall stageName details,
     exists w',
       DebugLogger.recordCheckpoint imageId stageName details w = Returns tt w'
       /\ console w' = console w ++ [Warn (MsgNoSession imageId)]
       /\ debugLogger w' = debugLogger w
       /\ disk w' = disk w
       /\ clockReads w' = clockReads w
       /\ heapReads w' = heapReads w)
  /\ (forall methodName methodNumber startTime,
        DebugLogger.recordMethodAttempt imageId methodName methodNumber
          startTime w = Returns tt w)
  /\ (forall methodNumber success error domState extractionDetails,
        DebugLogger.recordMethodResult imageId methodNumber success error
          domState extractionDetails w = Returns tt w)
  /\ (forall state,
        DebugLogger.recordProcessState imageId state w = Returns tt w)
  /\ (forall success error errorStack skipped skipReason,
        DebugLogger.recordOutcome imageId success error errorStack skipped
          skipReason w = Returns tt w)
  /\ DebugLogger.endImageSession imageId w = Returns tt w
  /\ (forall screenshotBuffer htmlSnapshot consoleLogs networkErrors,
        DebugLogger.saveDiagnostics imageId screenshotBuffer htmlSnapshot
          consoleLogs networkErrors w = Returns tt w).
Proof.
  unfold liveSession. intros Hnone.
  repeat split; intros;
    unfold DebugLogger.recordCheckpoint, DebugLogger.recordMethodAttempt,
      DebugLogger.recordMethodResult, DebugLogger.recordProcessState,
      DebugLogger.recordOutcome, DebugLogger.endImageSession,
      DebugLogger.saveDiagnostics, DebugLogger.get, bind, getLogger, ret;
    rewrite Hnone; try reflexivity.
  eexists. split; [reflexivity |]. cbn. auto.
Qed.

Lemma C5_witness :
  liveSession quietWorld "ghost" = None
  /\ DebugLogger.endImageSession "ghost" quietWorld = Returns tt quietWorld.
Proof.
  assert (H : liveSession quietWorld "ghost" = None) by reflexivity.
  split; [exact H |].
  exact (proj1 (proj2 (proj2 (proj2 (proj2 (proj2
           (C5_missing_session_is_noop "ghost" quietWorld H))))))).
Defined.

(** C5, as stated, fails: [beginAttempt] and [end] for a task without a
    live session return, but the console holds no warning afterwards. *)
Lemma C5_counterexample :
  liveSession quietWorld "ghost" = None
  /\ (let c := DebugLogger.recordMethodAttempt "ghost" "viewport-render" 1 0
                 quietWorld in
      returned c = true /\ filter (fun e => isWarning e = true)
                             (console (worldOf c)) = [])
  /\ (let c := DebugLogger.endImageSession "ghost" quietWorld in
      returned c = true /\ filter (fun e => isWarning e = true)
                             (console (worldOf c)) = []).
Proof.
  repeat split; reflexivity.
Qed.

(** ** Results for ranks that were never begun *)

Lemma recordMethodResult_unbegun imageId methodNumber success error domState
    extractionDetails w s ms :
  liveSession w imageId = Some s ->
  recordedAttempts s = Some ms ->
  ~ In methodNumber (ranksOf ms) ->
  DebugLogger.recordMethodResult imageId methodNumber success error domState
    extractionDetails w = Returns tt w.
Proof.
  unfold liveSession, recordedAttempts, canvasStage. intros Hs Hms Hnot.
  unfold DebugLogger.recordMethodResult, DebugLogger.get, bind, getLogger, ret.
  rewrite Hs.
  destruct (Session.stages s !! canvasExtraction) as [st |]; [| reflexivity].
  rewrite Hms, (find_unranked _ _ Hnot). reflexivity.
Qed.

(** C8. The failing input: the canvas-extraction stage of a live session was
    written by [checkpoint] with a detail that carries no methods list, and
    no attempt was ever begun. [recordAttemptResult] for rank 1 does not
    return: it throws a [TypeError], reading [find] of the missing list. *)
Theorem C8_recordAttemptResult_throws_on_checkpointed_stage :
  exists s st,
    liveSession checkpointedWorld "img-1" = Some s
    /\ canvasStage s = Some st
    /\ Stage.methods st = None
    /\ DebugLogger.recordMethodResult "img-1" 1 true None None None
         checkpointedWorld
       = Throws
           (TypeError "Cannot read properties of undefined (reading 'find')")
           checkpointedWorld.
Proof.
  eexists. eexists.
  split; [vm_compute; reflexivity |].
  split; [vm_compute; reflexivity |].
  split; reflexivity.
Qed.

(** ** Ranks *)

Lemma ranksOf_pushed ms0 (calls : list BeginCall) :
  ranksOf (ms0 ++ map attemptOf calls) = ranksOf ms0 ++ map callRank calls.
Proof.
  unfold ranksOf. rewrite map_app, map_map. f_equal.
  apply map_ext. intros [[n r] t]. reflexivity.
Qed.

(** C9 (amended). On a live session whose canvas-extraction stage is absent
    or holds a methods list, a sequence of [beginAttempt] calls completes
    and appends one attempt per call, in call order, each with the rank
    its caller passed: the ranks stored are the ranks stored before
    followed by the ranks passed. They are therefore pairwise distinct
    exactly when the ranks stored before and the ranks passed are. *)
Theorem C9_stored_ranks_are_the_ranks_passed imageId w s ms0
    (calls : list BeginCall) :
  liveSession w imageId = Some s ->
  recordedAttempts s = Some ms0 ->
  exists w' s' ms,
    beginAttempts imageId calls w = Returns tt w'
    /\ liveSession w' imageId = Some s'
    /\ recordedAttempts s' = Some ms
    /\ ms = ms0 ++ map attemptOf calls
    /\ ranksOf ms = ranksOf ms0 ++ map callRank calls
    /\ (NoDup (ranksOf ms) <-> NoDup (ranksOf ms0 ++ map callRank calls)).
Proof.
  intros Hs Hms0.
  unfold recordedAttempts in Hms0.
  destruct (canvasStage s) as [st |] eqn:Hst.
  - destruct (beginAttempts_present imageId calls w s st ms0 Hs Hst Hms0)
      as (w' & E & Hs' & _).
    eexists w', _, (ms0 ++ map attemptOf calls).
    split; [exact E |]. split; [exact Hs' |].
    unfold recordedAttempts. rewrite canvasStage_withStages_insert.
    rewrite ranksOf_pushed. repeat split; auto.
  - injection Hms0 as <-.
    destruct calls as [| [[methodName methodNumber] startTime] rest].
    + exists w, s, []. unfold recordedAttempts. rewrite Hst.
      repeat split; auto.
    + destruct (beginAttempts_fresh imageId methodName methodNumber startTime
                  rest w s Hs Hst) as (w' & E & Hs' & _).
      eexists w', _,
        ([] ++ map attemptOf ((methodName, methodNumber, startTime) :: rest)).
      split; [exact E |]. split; [exact Hs' |].
      unfold recordedAttempts. rewrite canvasStage_withStages_insert.
      rewrite ranksOf_pushed. repeat split; auto.
Qed.

Lemma C9_witness :
  exists w' s' ms,
    beginAttempts "img-1" [("viewport-render", 1, 10); ("tile-stitch", 2, 20)]
      sessionWorld = Returns tt w'
    /\ liveSession w' "img-1" = Some s'
    /\ recordedAttempts s' = Some ms
    /\ ranksOf ms = [1; 2].
Proof.
  destruct (C9_stored_ranks_are_the_ranks_passed "img-1" sessionWorld
              (DebugLogger.freshSession "img-1" "job-1"
                 "https://example.test/1" 0)
              [] [("viewport-render", 1, 10); ("tile-stitch", 2, 20)]
              eq_refl eq_refl)
    as (w' & s' & ms & E & Hs & Hms & _ & Hranks & _).
  exists w', s', ms. auto.
Defined.

(** C9, as stated, fails: two [beginAttempt] calls pass the same rank, and
    a third passes a lower one; the stored ranks repeat and go down. *)
Lemma C9_counterexample :
  let c :=
    beginAttempts "img-1"
      [("viewport-render", 2, 10); ("tile-stitch", 2, 20);
       ("canvas-toDataURL", 1, 30)] sessionWorld in
  exists st ms,
    returned c = true
    /\ canvasAfter c "img-1" = Some st
    /\ Stage.methods st = Some ms
    /\ ranksOf ms = [2; 2; 1]
    /\ ~ NoDup (ranksOf ms).
Proof.
  cbv zeta. eexists. eexists.
  split; [vm_compute; reflexivity |].
  split; [vm_compute; reflexivity |].
  split; [reflexivity |].
  split; [reflexivity |].
  cbn. intros H. apply NoDup_cons in H as [H _]. apply H. left.
Qed.

(** ** Checkpoints over the canvas-extraction stage *)

(** C10. On a live session whose canvas-extraction stage holds recorded
    method attempts, [checkpoint] for that stage completes and stores a
    stage that is the fresh checkpoint spread with the supplied detail and
    nothing else: its methods list, attempt counter and successful method
    are those of the detail. Without a methods list in the detail the
    stage has no methods list any more; without a detail at all the
    counter and the successful method are unset as well. *)
Theorem C10_checkpoint_replaces_canvas_stage imageId w s st0 ms0 details :
  liveSession w imageId = Some s ->
  canvasStage s = Some st0 ->
  Stage.methods st0 = Some ms0 ->
  ms0 <> [] ->
  exists w' s' st,
    DebugLogger.recordCheckpoint imageId canvasExtraction details w
      = Returns tt w'
    /\ liveSession w' imageId = Some s'
    /\ canvasStage s' = Some st
    /\ st = DebugLogger.spread (checkpointIn w canvasExtraction s) details
    /\ Stage.methods st = Detail.methods (default Detail.empty details)
    /\ Stage.successfulMethod st
       = Detail.successfulMethod (default Detail.empty details)
    /\ Stage.totalAttempts st
       = match Detail.totalAttempts (default Detail.empty details) with
         | Some n => CNum n
         | None => CUndefined
         end
    /\ (Detail.methods (default Detail.empty details) = None ->
        Stage.methods st = None /\ recordedAttempts s' = None)
    /\ (details = None ->
        Stage.methods st = None /\ Stage.successfulMethod st = None
        /\ Stage.totalAttempts st = CUndefined).
Proof.
  unfold liveSession. intros Hs _ _ _.
  unfold DebugLogger.recordCheckpoint, DebugLogger.get, bind, getLogger, ret.
  rewrite Hs. cbn.
  eexists. eexists. eexists.
  split; [reflexivity |]. cbn.
  split; [rewrite lookup_alter_eq, Hs; reflexivity |].
  split; [apply canvasStage_withStages_insert |].
  split; [reflexivity |].
  split; [reflexivity |].
  split; [reflexivity |].
  split; [reflexivity |].
  split.
  - intros H. unfold recordedAttempts.
    rewrite canvasStage_withStages_insert. cbn. auto.
  - intros ->. cbn. auto.
Qed.

Lemma C10_witness :
  exists w' s' st,
    DebugLogger.recordCheckpoint "img-1" canvasExtraction
      (Some (modeOnly "viewport")) attemptedWorld = Returns tt w'
    /\ liveSession w' "img-1" = Some s'
    /\ canvasStage s' = Some st
    /\ Stage.methods st = None
    /\ Stage.successfulMethod st = None
    /\ Stage.totalAttempts st = CUndefined.
Proof.
  destruct (C10_checkpoint_replaces_canvas_stage "img-1" attemptedWorld
              (DebugLogger.withStages
                 (insert canvasExtraction
                    (Stage.mk "canvasExtraction" 10 10 None (Some "unknown")
                       (CNum 2) (Some "viewport-render")
                       (Some
                          [MethodAttempt.mk "viewport-render" 1 10 (Some 1)
                             (Some (-9)) true None None None;
                           MethodAttempt.mk "tile-stitch" 2 20 None None
                             false None None None])
                       []))
                 (DebugLogger.freshSession "img-1" "job-1"
                    "https://example.test/1" 0))
              (Stage.mk "canvasExtraction" 10 10 None (Some "unknown")
                 (CNum 2) (Some "viewport-render")
                 (Some
                    [MethodAttempt.mk "viewport-render" 1 10 (Some 1)
                       (Some (-9)) true None None None;
                     MethodAttempt.mk "tile-stitch" 2 20 None None
                       false None None None])
                 [])
              [MethodAttempt.mk "viewport-render" 1 10 (Some 1)
                 (Some (-9)) true None None None;
               MethodAttempt.mk "tile-stitch" 2 20 None None
                 false None None None]
              (Some (modeOnly "viewport")))
    as (w' & s' & st & E & Hs & Hst & _ & Hm & Hsm & Hta & _).
  - vm_compute. reflexivity.
  - vm_compute. reflexivity.
  - reflexivity.
  - discriminate.
  - exists w', s', st. auto 10.
Defined.

(** ** Reset *)

Lemma reset_spec self imageId w :
  exists self' w',
    ProcessRecyclingManager.reset self imageId w = Returns self' w'
    /\ ProcessRecyclingManager.tasksCompleted self' = 0
    /\ ProcessRecyclingManager.maxTasksPerCycle self'
       = ProcessRecyclingManager.maxTasksPerCycle self
    /\ ProcessRecyclingManager.memoryThresholdMB self'
       = ProcessRecyclingManager.memoryThresholdMB self
    /\ heap w' = heap w.
Proof.
  unfold ProcessRecyclingManager.reset, MemoryMonitor.start.
  destruct (truthy_string imageId);
    unfold bind, console_log, emit, when, ret;
    cbn -[DebugLogger.recordProcessState].
  - run_recordProcessState w1.
    do 2 eexists. split; [reflexivity |]. cbn in *. auto.
  - do 2 eexists. split; [reflexivity |]. cbn. auto.
Qed.

Lemma reportStatus_spec self w :
  exists w',
    ProcessRecyclingManager.reportStatus self w = Returns tt w'
    /\ heap w' = heap w.
Proof.
  unfold ProcessRecyclingManager.reportStatus, MemoryMonitor.report.
  unfold bind, console_log, console_warn, emit, ret. cbn.
  destruct (_ <? _); eexists; split; reflexivity || (cbn; auto).
Qed.

Lemma runCalls_spec calls : forall self w,
  exists self' w',
    runCalls calls self w = Returns self' w'
    /\ ProcessRecyclingManager.tasksCompleted self'
       = ProcessRecyclingManager.tasksCompleted self + completions calls
    /\ ProcessRecyclingManager.maxTasksPerCycle self'
       = ProcessRecyclingManager.maxTasksPerCycle self
    /\ ProcessRecyclingManager.memoryThresholdMB self'
       = ProcessRecyclingManager.memoryThresholdMB self
    /\ heap w' = heap w.
Proof.
  induction calls as [| c rest IH]; intros self w.
  - exists self, w. cbn. split; [reflexivity |]. split; [lia | auto].
  - destruct c as [| imageId | |]; cbn [runCalls completions].
    + destruct (IH (ProcessRecyclingManager.recordTaskComplete self) w)
        as (self' & w' & E & Ht & Hm & Hth & Hh).
      exists self', w'. split; [exact E |]. cbn in Ht.
      split; [lia | auto].
    + unfold bind.
      destruct (shouldRecycle_spec self imageId w) as (w1 & -> & Hh1 & _).
      destruct (IH self w1) as (self' & w' & E & Ht & Hm & Hth & Hh).
      exists self', w'. split; [exact E |].
      split; [exact Ht |]. split; [exact Hm |]. split; [exact Hth |].
      congruence.
    + unfold bind.
      destruct (reportStatus_spec self w) as (w1 & -> & Hh1).
      destruct (IH self w1) as (self' & w' & E & Ht & Hm & Hth & Hh).
      exists self', w'. split; [exact E |].
      split; [exact Ht |]. split; [exact Hm |]. split; [exact Hth |].
      congruence.
    + apply IH.
Qed.

(** C6. [reset] completes and [getTasksCompleted] then returns 0. Whatever
    the caller does next with the manager, as long as memory stays below
    the threshold, [shouldRecycle] answers false while [recordTaskComplete]
    has been called fewer than [maxTasksPerCycle] times since the reset,
    and true once it has been called that often. *)
Theorem C6_reset_restarts_the_count self imageId w (calls : list ManagerCall) :
  memoryBelow (ProcessRecyclingManager.memoryThresholdMB self) w ->
  exists self0 w0,
    ProcessRecyclingManager.reset self imageId w = Returns self0 w0
    /\ ProcessRecyclingManager.getTasksCompleted self0 = 0
    /\ exists self1 w1,
         runCalls calls self0 w0 = Returns self1 w1
         /\ ProcessRecyclingManager.getTasksCompleted self1 = completions calls
         /\ forall asking,
              exists w2,
                ProcessRecyclingManager.shouldRecycle self1 asking w1
                = Returns
                    (ProcessRecyclingManager.maxTasksPerCycle self
                       <=? completions calls) w2.
Proof.
  intros Hmem.
  destruct (reset_spec self imageId w) as (self0 & w0 & E0 & Ht0 & Hm0 & Hth0 & Hh0).
  exists self0, w0. split; [exact E0 |]. split; [exact Ht0 |].
  destruct (runCalls_spec calls self0 w0)
    as (self1 & w1 & E1 & Ht1 & Hm1 & Hth1 & Hh1).
  exists self1, w1. split; [exact E1 |].
  unfold ProcessRecyclingManager.getTasksCompleted.
  split; [lia |].
  intros asking.
  destruct (shouldRecycle_spec self1 asking w1) as (w2 & E2 & _).
  exists w2. rewrite E2. f_equal.
  unfold decision, freshSample.
  rewrite Hth1, Hth0, Hh1, Hh0, (exceeds_below _ _ _ Hmem), orb_false_r.
  rewrite Hm1, Hm0, Ht1, Ht0. reflexivity.
Qed.

Lemma C6_witness :
  memoryBelow 300 quietWorld
  /\ exists self0 w0,
       ProcessRecyclingManager.reset
         (ProcessRecyclingManager.mk 3 3 MemoryMonitor.new 300) None quietWorld
       = Returns self0 w0
       /\ ProcessRecyclingManager.getTasksCompleted self0 = 0
       /\ exists self1 w1,
            runCalls [CompleteTask; AskRecycle None; CompleteTask] self0 w0
            = Returns self1 w1
            /\ ProcessRecyclingManager.getTasksCompleted self1 = 2
            /\ forall asking,
                 exists w2,
                   ProcessRecyclingManager.shouldRecycle self1 asking w1
                   = Returns false w2.
Proof.
  assert (H : memoryBelow 300 quietWorld).
  { intros i. cbn. unfold Qle. cbn. lia. }
  split; [exact H |].
  exact (C6_reset_restarts_the_count
           (ProcessRecyclingManager.mk 3 3 MemoryMonitor.new 300) None
           quietWorld [CompleteTask; AskRecycle None; CompleteTask] H).
Defined.

(** ** Method statistics *)

Lemma foldl_bump hits : forall st,
  foldl DebugLogger.bump st hits
  = MethodStats.mk
      (MethodStats.attempts st + count (fun _ => true) hits)
      (MethodStats.successes st + count MethodAttempt.success hits)
      (MethodStats.failures st
       + count (fun m => negb (MethodAttempt.success m)) hits)
      (MethodStats.avgDuration st)
      (MethodStats.totalDuration st + sumDurations hits).
Proof.
  unfold count.
  induction hits as [| m hits IH]; intros st.
  - destruct st. cbn. rewrite !Z.add_0_r. reflexivity.
  - cbn [foldl]. rewrite IH. unfold DebugLogger.bump.
    cbn [MethodStats.attempts MethodStats.successes MethodStats.failures
         MethodStats.avgDuration MethodStats.totalDuration List.filter
         sumDurations].
    destruct (MethodAttempt.success m); cbn [negb length];
      f_equal; try lia;
      destruct (MethodAttempt.duration m) as [d |]; simpl;
      try destruct (Z.eqb_spec d 0); lia.
Qed.

Lemma average_foldl_bump hits :
  DebugLogger.average (foldl DebugLogger.bump MethodStats.zero hits)
  = statsOf hits.
Proof.
  rewrite foldl_bump. unfold DebugLogger.average, statsOf, MethodStats.zero.
  cbn [MethodStats.attempts MethodStats.successes MethodStats.failures
       MethodStats.avgDuration MethodStats.totalDuration].
  rewrite !Z.add_0_l. reflexivity.
Qed.

(** The three ways [tally] treats an attempt, by its name. *)
Lemma tally_cases table m :
  let name := MethodAttempt.methodName m in
  (DebugLogger.inheritsFunction name = true
   /\ DebugLogger.tally table m = table)
  \/ (name = "__proto__"
      /\ DebugLogger.tally table m
         = mkTable (methodStats table) (DebugLogger.pollute (polluted table) m))
  \/ (DebugLogger.inheritsFunction name = false
      /\ name <> "__proto__"
      /\ DebugLogger.tally table m
         = mkTable
             (<[name := DebugLogger.bump
                          (default MethodStats.zero (methodStats table !! name))
                          m]> (methodStats table))
             (polluted table)).
Proof.
  intros name. unfold DebugLogger.tally. fold name.
  destruct (DebugLogger.inheritsFunction name) eqn:Hin; [left; auto |].
  destruct (String.eqb_spec name "__proto__") as [Hp | Hp]; [right; left |];
    auto.
Qed.

Lemma foldl_tally_inherited ms : forall table name,
  DebugLogger.inheritsFunction name = true \/ name = "__proto__" ->
  methodStats (foldl DebugLogger.tally table ms) !! name
  = methodStats table !! name.
Proof.
  induction ms as [| m ms IH]; intros table name Hname; [reflexivity |].
  cbn [foldl]. rewrite IH by exact Hname.
  destruct (tally_cases table m) as [[_ ->] | [[_ ->] | (Hin & Hp & ->)]];
    try reflexivity.
  cbn [methodStats]. apply lookup_insert_ne.
  destruct Hname as [Hname | ->]; congruence.
Qed.

Lemma foldl_tally_lookup ms : forall table name,
  DebugLogger.inheritsFunction name = false ->
  name <> "__proto__" ->
  methodStats (foldl DebugLogger.tally table ms) !! name
  = match List.filter (named name) ms with
    | [] => methodStats table !! name
    | hits =>
        Some (foldl DebugLogger.bump
                (default MethodStats.zero (methodStats table !! name)) hits)
    end.
Proof.
  induction ms as [| m ms IH]; intros table name Hin Hp; [reflexivity |].
  cbn [foldl List.filter]. rewrite IH by assumption. unfold named at 2.
  destruct (String.eqb_spec (MethodAttempt.methodName m) name) as [Heq | Hne].
  - destruct (tally_cases table m) as [[H _] | [[H _] | (_ & _ & ->)]];
      [congruence | congruence |].
    cbn [methodStats]. rewrite Heq, lookup_insert_eq. simpl.
    destruct (List.filter (named name) ms); reflexivity.
  - destruct (tally_cases table m) as [[_ ->] | [[_ ->] | (_ & _ & ->)]];
      try reflexivity.
    cbn [methodStats]. rewrite lookup_insert_ne by exact Hne. reflexivity.
Qed.

Lemma inheritsFunction_proto : DebugLogger.inheritsFunction "__proto__" = false.
Proof. reflexivity. Qed.

Lemma foldl_tally_polluted ms : forall table,
  polluted (foldl DebugLogger.tally table ms)
  = foldl DebugLogger.pollute (polluted table)
      (List.filter (named "__proto__") ms).
Proof.
  induction ms as [| m ms IH]; intros table; [reflexivity |].
  cbn [foldl List.filter]. rewrite IH. unfold named at 2.
  destruct (tally_cases table m) as [[H ->] | [[H ->] | (_ & H & ->)]].
  - destruct (String.eqb_spec (MethodAttempt.methodName m) "__proto__")
      as [Heq | _]; [| reflexivity].
    rewrite Heq, inheritsFunction_proto in H. discriminate.
  - rewrite H, String.eqb_refl. reflexivity.
  - destruct (String.eqb_spec (MethodAttempt.methodName m) "__proto__");
      [contradiction | reflexivity].
Qed.

Lemma plainlyNamed_filter all :
  plainlyNamed all -> List.filter (named "__proto__") all = [].
Proof.
  unfold plainlyNamed. induction 1 as [| m all Hm _ IH]; [reflexivity |].
  cbn [List.filter]. unfold named at 1.
  destruct (String.eqb_spec (MethodAttempt.methodName m) "__proto__");
    [contradiction | exact IH].
Qed.

Lemma tallySession_persisted table s :
  DebugLogger.tallySession table s
  = foldl DebugLogger.tally table (persistedAttempts s).
Proof.
  unfold DebugLogger.tallySession, persistedAttempts.
  destruct (Session.stages s !! canvasExtraction) as [st |]; [| reflexivity].
  destruct (Stage.methods st); reflexivity.
Qed.

Lemma scan_readable files : forall table,
  Forall readable files ->
  DebugLogger.scan files table
  = inr (foldl DebugLogger.tally table (scanned files)).
Proof.
  induction files as [| [name e] rest IH]; intros table Hall; [reflexivity |].
  apply Forall_cons in Hall as [He Hrest]. unfold readable in He. cbn in He.
  cbn [DebugLogger.scan scanned].
  destruct (endsWith name ".json") eqn:Hjson.
  - destruct (He eq_refl) as [s ->].
    rewrite foldl_app, IH, tallySession_persisted by exact Hrest.
    reflexivity.
  - rewrite IH by exact Hrest. destruct e; reflexivity.
Qed.

Lemma scan_malformed name raw files : forall table,
  In (name, MalformedFile raw) files ->
  endsWith name ".json" = true ->
  exists e, DebugLogger.scan files table = inl e.
Proof.
  induction files as [| [name' e'] rest IH]; intros table Hin Hjson;
    [destruct Hin |].
  cbn [DebugLogger.scan].
  destruct Hin as [Heq | Hin].
  - injection Heq as -> ->. rewrite Hjson. eauto.
  - destruct (endsWith name' ".json"); [destruct e' |]; eauto.
Qed.

(** The table that the scan of well-formed records leaves: nothing under
    an inherited name, the statistics of its attempts under any other. *)
Lemma tabulated_lookup all name :
  plainlyNamed all ->
  (DebugLogger.average
     <$> methodStats
           (foldl DebugLogger.tally (mkTable ∅ Polluted.none) all)) !! name
  = tabulated all name.
Proof.
  intros Hplain. rewrite lookup_fmap. unfold tabulated.
  destruct (DebugLogger.inheritsFunction name) eqn:Hin.
  - rewrite foldl_tally_inherited by (left; exact Hin). reflexivity.
  - destruct (String.eqb_spec name "__proto__") as [-> | Hp].
    + rewrite foldl_tally_inherited by (right; reflexivity).
      unfold expectedStats. rewrite (plainlyNamed_filter _ Hplain).
      reflexivity.
    + rewrite foldl_tally_lookup by assumption. unfold expectedStats.
      cbn [methodStats]. rewrite lookup_empty.
      destruct (List.filter (named name) all) as [| m hits]; [reflexivity |].
      exact (f_equal Some (average_foldl_bump (m :: hits))).
Qed.

Lemma statistics_readable w lines :
  summaryIsDirectory (disk w) = false ->
  summaryLog (disk w) = Some lines ->
  Forall readable (entries (disk w)) ->
  plainlyNamed (scanned (entries (disk w))) ->
  exists stats,
    DebugLogger.getMethodStatistics w = Returns (Report (length lines) stats) w
    /\ forall name,
         stats !! name = tabulated (scanned (entries (disk w))) name.
Proof.
  intros Hdir Hsum Hall Hplain.
  unfold DebugLogger.getMethodStatistics, bind, getDisk, ret.
  rewrite Hdir, Hsum, (scan_readable _ _ Hall).
  unfold DebugLogger.inheritedKeys.
  rewrite foldl_tally_polluted, (plainlyNamed_filter _ Hplain).
  cbn [foldl polluted Polluted.attempts Polluted.successes Polluted.failures
       Polluted.totalDuration Polluted.none app List.filter].
  eexists. split; [reflexivity |].
  intros name. apply tabulated_lookup, Hplain.
Qed.

Lemma count_split {A} (p : A -> bool) l :
  count (fun _ => true) l = count p l + count (fun x => negb (p x)) l.
Proof.
  unfold count. induction l as [| x l IH]; [reflexivity |].
  cbn [List.filter]. destruct (p x); cbn [negb length]; lia.
Qed.

Lemma count_nonneg {A} (p : A -> bool) l : 0 <= count p l.
Proof. unfold count. lia. Qed.

Lemma divide_finite a b :
  b <> 0 -> divide a b = Finite (inject_Z a / inject_Z b)%Q.
Proof.
  intros Hb. unfold divide. destruct (Z.eqb_spec b 0); [contradiction |].
  reflexivity.
Qed.

(** C7. The failing input: the directory holds one persisted session with
    two attempts, a failed one of "viewport-render" that took 50 ms and a
    successful one, 100 ms long, of a method named "constructor". The scan
    visits both attempts, and [computeMethodStatistics] returns a table
    with the statistics of "viewport-render" and nothing at all under
    "constructor": for that name there are no attempts, no success count
    and no average. *)
Theorem C7_inherited_method_name_is_not_reported :
  scanned (entries inheritedName)
  = [finished "viewport-render" false 50; finished "constructor" true 100]
  /\ (exists stats,
        DebugLogger.getMethodStatistics (onDisk inheritedName)
        = Returns (Report 1 stats) (onDisk inheritedName)
        /\ stats !! "viewport-render"
           = Some (MethodStats.mk 1 0 1 (Finite (50 / 1)%Q) 50)
        /\ stats !! "constructor" = None
        /\ expectedStats (scanned (entries inheritedName)) "constructor"
           = Some (MethodStats.mk 1 1 0 (Finite (100 / 1)%Q) 100)).
Proof.
  split; [reflexivity |].
  eexists. split; [vm_compute; reflexivity |].
  repeat split; vm_compute; reflexivity.
Qed.

(** ** Malformed records *)

(** C4 (amended). [computeMethodStatistics] reports that there is no data,
    without an error, when the summary log does not exist yet and nothing
    else stands under its name. When the log exists and some record of the
    directory whose name ends in [.json] is malformed, the scan does not
    skip it: the call throws and returns no statistics. When the log
    exists and every record is well formed, the call returns the
    statistics of all of them: under every method name the statistics of
    the attempts of that name, the names that every object inherits from
    [Object.prototype] apart (nothing is held under one that is a function,
    and no attempt is taken to be named [__proto__]). *)
Theorem C4_statistics_abort_on_malformed_record w :
  (summaryLog (disk w) = None ->
   summaryIsDirectory (disk w) = false ->
   DebugLogger.getMethodStatistics w
   = Returns (NoData "No summary data available yet") w)
  /\ (forall lines name raw,
        summaryLog (disk w) = Some lines ->
        In (name, MalformedFile raw) (entries (disk w)) ->
        endsWith name ".json" = true ->
        exists e, DebugLogger.getMethodStatistics w = Throws e w)
  /\ (forall lines,
        summaryLog (disk w) = Some lines ->
        summaryIsDirectory (disk w) = false ->
        Forall readable (entries (disk w)) ->
        plainlyNamed (scanned (entries (disk w))) ->
        exists stats,
          DebugLogger.getMethodStatistics w
            = Returns (Report (length lines) stats) w
          /\ forall name,
               stats !! name
               = tabulated (scanned (entries (disk w))) name).
Proof.
  split; [| split].
  - intros Hsum Hdir.
    unfold DebugLogger.getMethodStatistics, bind, getDisk, ret.
    rewrite Hdir, Hsum. reflexivity.
  - intros lines name raw Hsum Hin Hjson.
    unfold DebugLogger.getMethodStatistics, bind, getDisk, ret, throw.
    destruct (summaryIsDirectory (disk w)); [eauto |].
    rewrite Hsum.
    destruct (scan_malformed name raw (entries (disk w))
                (mkTable ∅ Polluted.none) Hin Hjson) as [e ->].
    eauto.
  - intros lines Hsum Hdir. apply statistics_readable; assumption.
Qed.

Lemma C4_witness :
  (exists e,
     DebugLogger.getMethodStatistics (onDisk oneTruncated)
     = Throws e (onDisk oneTruncated))
  /\ DebugLogger.getMethodStatistics quietWorld
     = Returns (NoData "No summary data available yet") quietWorld
  /\ exists stats,
       DebugLogger.getMethodStatistics (onDisk threeSessions)
       = Returns (Report 3 stats) (onDisk threeSessions)
       /\ stats !! "viewport-render"
          = tabulated (scanned (entries threeSessions)) "viewport-render".
Proof.
  split; [| split].
  - apply (proj1 (proj2 (C4_statistics_abort_on_malformed_record
                           (onDisk oneTruncated)))
             (default [] (summaryLog oneTruncated))
             "img-2_1002.json" "{ 'imageId': 'img-2', 'sta").
    + reflexivity.
    + right. left. reflexivity.
    + reflexivity.
  - apply (proj1 (C4_statistics_abort_on_malformed_record quietWorld));
      reflexivity.
  - destruct (proj2 (proj2 (C4_statistics_abort_on_malformed_record
                              (onDisk threeSessions)))
                (default [] (summaryLog threeSessions)) eq_refl eq_refl)
      as (stats & E & H).
    + repeat constructor; intros _; eexists; reflexivity.
    + repeat constructor; discriminate.
    + exists stats. split; [exact E | apply H].
Defined.

(** C4, as stated, fails: the directory holds two well-formed records and
    one record cut short; the call throws the [SyntaxError] of
    [JSON.parse] instead of returning the statistics of the two. *)
Lemma C4_counterexample :
  let c := DebugLogger.getMethodStatistics (onDisk oneTruncated) in
  returned c = false
  /\ valueOf c = None
  /\ c = Throws SyntaxError (onDisk oneTruncated)
  /\ length (List.filter
               (fun e => match snd e with SessionFile _ => true | _ => false end)
               (entries oneTruncated)) = 2%nat.
Proof.
  repeat split; reflexivity.
Qed.

(** * Further properties of the code *)

(** ** Frames: what the operations never touch *)

#[global] Instance othersKept_preorder imageId : PreOrder (othersKept imageId).
Proof.
  split.
  - intros w other _. reflexivity.
  - intros w1 w2 w3 H12 H23 other Hne. rewrite (H23 other Hne). auto.
Qed.

#[global] Instance diskKept_preorder : PreOrder diskKept.
Proof.
  split.
  - intros w. reflexivity.
  - intros w1 w2 w3 H12 H23. unfold diskKept in *. congruence.
Qed.

Section Keeps.

Context (R : relation World) `{!PreOrder R}.

Lemma keeps_ret {A} (a : A) : keeps R (ret a).
Proof. intros w. reflexivity. Qed.

Lemma keeps_throw {A} e : keeps R (@throw A e).
Proof. intros w. reflexivity. Qed.

Lemma keeps_bind {A B} (m : Eff A) (k : A -> Eff B) :
  keeps R m -> (forall a, keeps R (k a)) -> keeps R (bind m k).
Proof.
  intros Hm Hk w. unfold bind. specialize (Hm w).
  destruct (m w) as [a w1 | e w1]; cbn in *; [| exact Hm].
  transitivity w1; [exact Hm | apply Hk].
Qed.

Lemma keeps_when b m : keeps R m -> keeps R (when b m).
Proof. intros Hm. destruct b; [exact Hm | apply keeps_ret]. Qed.

End Keeps.

Create HintDb keeps discriminated.

(** Splits a program along its binds and case distinctions and closes the
    leaves with the facts of the [keeps] database. *)
Ltac keeps_steps :=
  repeat first
    [ solve [auto with keeps]
    | apply keeps_ret; typeclasses eauto
    | apply keeps_throw; typeclasses eauto
    | apply keeps_when; try typeclasses eauto
    | apply keeps_bind; try typeclasses eauto; [| intros ?]
    | match goal with
      | |- keeps _ (match ?x with _ => _ end) => destruct x
      | |- keeps _ (let _ := _ in _) => cbv zeta
      end ].

Lemma reads_othersKept imageId :
  keeps (othersKept imageId) Date_now
  /\ keeps (othersKept imageId) process_memoryUsage
  /\ keeps (othersKept imageId) getDisk
  /\ keeps (othersKept imageId) getLogger
  /\ (forall e, keeps (othersKept imageId) (emit e))
  /\ (forall d, keeps (othersKept imageId) (putDisk d)).
Proof. repeat split; intros; intros w other Hne; reflexivity. Qed.

Lemma Date_now_othersKept imageId : keeps (othersKept imageId) Date_now.
Proof. apply reads_othersKept. Qed.

Lemma memoryUsage_othersKept imageId :
  keeps (othersKept imageId) process_memoryUsage.
Proof. apply reads_othersKept. Qed.

Lemma getDisk_othersKept imageId : keeps (othersKept imageId) getDisk.
Proof. apply reads_othersKept. Qed.

Lemma getLogger_othersKept imageId : keeps (othersKept imageId) getLogger.
Proof. apply reads_othersKept. Qed.

Lemma emit_othersKept imageId e : keeps (othersKept imageId) (emit e).
Proof. apply reads_othersKept. Qed.

Lemma putDisk_othersKept imageId d : keeps (othersKept imageId) (putDisk d).
Proof. apply reads_othersKept. Qed.

Lemma get_othersKept imageId i : keeps (othersKept imageId) (DebugLogger.get i).
Proof. intros w other Hne. reflexivity. Qed.

Lemma set_othersKept imageId s :
  keeps (othersKept imageId) (DebugLogger.set imageId s).
Proof.
  intros w other Hne. unfold liveSession. cbn.
  apply lookup_insert_ne. congruence.
Qed.

Lemma mutate_othersKept imageId f :
  keeps (othersKept imageId) (DebugLogger.mutate imageId f).
Proof.
  intros w other Hne. unfold liveSession. cbn.
  apply lookup_alter_ne. congruence.
Qed.

Lemma delete_othersKept imageId :
  keeps (othersKept imageId) (DebugLogger.delete imageId).
Proof.
  intros w other Hne. unfold liveSession. cbn.
  apply lookup_delete_ne. congruence.
Qed.

#[global] Hint Resolve Date_now_othersKept memoryUsage_othersKept
  getDisk_othersKept getLogger_othersKept emit_othersKept putDisk_othersKept
  get_othersKept set_othersKept mutate_othersKept delete_othersKept : keeps.

Lemma disk_ops_othersKept imageId :
  (forall name, keeps (othersKept imageId) (existsSync name))
  /\ (forall name, keeps (othersKept imageId) (mkdirSync name))
  /\ (forall name s, keeps (othersKept imageId) (writeSessionFile name s))
  /\ (forall dir name data,
        keeps (othersKept imageId) (writeArtefact dir name data))
  /\ (forall line, keeps (othersKept imageId) (appendSummary line)).
Proof.
  repeat split; intros;
    unfold existsSync, mkdirSync, writeSessionFile, writeArtefact,
      appendSummary;
    keeps_steps.
Qed.

Lemma existsSync_othersKept imageId name :
  keeps (othersKept imageId) (existsSync name).
Proof. apply disk_ops_othersKept. Qed.

Lemma mkdirSync_othersKept imageId name :
  keeps (othersKept imageId) (mkdirSync name).
Proof. apply disk_ops_othersKept. Qed.

Lemma writeSessionFile_othersKept imageId name s :
  keeps (othersKept imageId) (writeSessionFile name s).
Proof. apply disk_ops_othersKept. Qed.

Lemma writeArtefact_othersKept imageId dir name data :
  keeps (othersKept imageId) (writeArtefact dir name data).
Proof. apply disk_ops_othersKept. Qed.

Lemma appendSummary_othersKept imageId line :
  keeps (othersKept imageId) (appendSummary line).
Proof. apply disk_ops_othersKept. Qed.

Lemma console_othersKept imageId m :
  keeps (othersKept imageId) (console_log m)
  /\ keeps (othersKept imageId) (console_warn m)
  /\ keeps (othersKept imageId) (DebugLogger.logToConsole m).
Proof. repeat split; apply emit_othersKept. Qed.

Lemma console_log_othersKept imageId m :
  keeps (othersKept imageId) (console_log m).
Proof. apply console_othersKept. Qed.

Lemma console_warn_othersKept imageId m :
  keeps (othersKept imageId) (console_warn m).
Proof. apply console_othersKept. Qed.

Lemma logToConsole_othersKept imageId m :
  keeps (othersKept imageId) (DebugLogger.logToConsole m).
Proof. apply console_othersKept. Qed.

#[global] Hint Resolve existsSync_othersKept mkdirSync_othersKept
  writeSessionFile_othersKept writeArtefact_othersKept
  appendSummary_othersKept console_log_othersKept console_warn_othersKept
  logToConsole_othersKept : keeps.

Lemma recordProcessState_othersKept imageId state :
  keeps (othersKept imageId) (DebugLogger.recordProcessState imageId state).
Proof. unfold DebugLogger.recordProcessState. keeps_steps. Qed.

#[global] Hint Resolve recordProcessState_othersKept : keeps.

(** X1. The operations of the session tracker that replace properties of
    the session of their task ([start], [checkpoint], [mergeProcessState],
    [finish], [saveDiagnostics], [end]) and [shouldRecycle] and [reset] of
    the recycling manager, called for one task, never change the live
    session of another task, whether the call returns or throws. *)
Theorem sessions_are_isolated imageId other w :
  other <> imageId ->
  (forall jobId url,
     liveSession
       (worldOf (DebugLogger.startImageSession imageId jobId url w)) other
     = liveSession w other)
  /\ (forall stageName details,
        liveSession
          (worldOf (DebugLogger.recordCheckpoint imageId stageName details w))
          other
        = liveSession w other)
  /\ (forall state,
        liveSession
          (worldOf (DebugLogger.recordProcessState imageId state w)) other
        = liveSession w other)
  /\ (forall success error errorStack skipped skipReason,
        liveSession
          (worldOf (DebugLogger.recordOutcome imageId success error errorStack
                      skipped skipReason w)) other
        = liveSession w other)
  /\ (forall screenshotBuffer htmlSnapshot consoleLogs networkErrors,
        liveSession
          (worldOf (DebugLogger.saveDiagnostics imageId screenshotBuffer
                      htmlSnapshot consoleLogs networkErrors w)) other
        = liveSession w other)
  /\ liveSession (worldOf (DebugLogger.endImageSession imageId w)) other
     = liveSession w other
  /\ (forall self,
        liveSession
          (worldOf (ProcessRecyclingManager.shouldRecycle self (Some imageId) w))
          other
        = liveSession w other)
  /\ (forall self,
        liveSession
          (worldOf (ProcessRecyclingManager.reset self (Some imageId) w)) other
        = liveSession w other).
Proof.
  intros Hne.
  assert (Hk : forall A (m : Eff A),
             keeps (othersKept imageId) m ->
             liveSession (worldOf (m w)) other = liveSession w other)
    by (intros A m Hm; exact (Hm w other Hne)).
  repeat split; intros; apply Hk;
    unfold DebugLogger.startImageSession, DebugLogger.recordCheckpoint,
      DebugLogger.recordOutcome, DebugLogger.saveDiagnostics,
      DebugLogger.endImageSession, DebugLogger.appendToSummary,
      ProcessRecyclingManager.shouldRecycle, ProcessRecyclingManager.reset,
      MemoryMonitor.shouldRecycle, MemoryMonitor.start;
    cbn [default from_option id];
    keeps_steps.
Qed.

Lemma primitives_diskKept :
  keeps diskKept Date_now
  /\ keeps diskKept process_memoryUsage
  /\ keeps diskKept getDisk
  /\ keeps diskKept getLogger
  /\ (forall e, keeps diskKept (emit e))
  /\ (forall m, keeps diskKept (putSessions m)).
Proof. repeat split; intros; intros w; reflexivity. Qed.

Lemma Date_now_diskKept : keeps diskKept Date_now.
Proof. apply primitives_diskKept. Qed.

Lemma memoryUsage_diskKept : keeps diskKept process_memoryUsage.
Proof. apply primitives_diskKept. Qed.

Lemma getDisk_diskKept : keeps diskKept getDisk.
Proof. apply primitives_diskKept. Qed.

Lemma getLogger_diskKept : keeps diskKept getLogger.
Proof. apply primitives_diskKept. Qed.

Lemma console_log_diskKept m : keeps diskKept (console_log m).
Proof. apply primitives_diskKept. Qed.

Lemma console_warn_diskKept m : keeps diskKept (console_warn m).
Proof. apply primitives_diskKept. Qed.

Lemma logToConsole_diskKept m : keeps diskKept (DebugLogger.logToConsole m).
Proof. apply primitives_diskKept. Qed.

Lemma get_diskKept i : keeps diskKept (DebugLogger.get i).
Proof. intros w. reflexivity. Qed.

Lemma set_diskKept i s : keeps diskKept (DebugLogger.set i s).
Proof. intros w. reflexivity. Qed.

Lemma mutate_diskKept i f : keeps diskKept (DebugLogger.mutate i f).
Proof. intros w. reflexivity. Qed.

#[global] Hint Resolve Date_now_diskKept memoryUsage_diskKept getDisk_diskKept
  getLogger_diskKept console_log_diskKept console_warn_diskKept
  logToConsole_diskKept get_diskKept set_diskKept mutate_diskKept : keeps.

Lemma recordProcessState_diskKept imageId state :
  keeps diskKept (DebugLogger.recordProcessState imageId state).
Proof. unfold DebugLogger.recordProcessState. keeps_steps. Qed.

Lemma monitor_diskKept self :
  keeps diskKept (MemoryMonitor.start self)
  /\ (forall label, keeps diskKept (MemoryMonitor.report self label))
  /\ (forall limit, keeps diskKept (MemoryMonitor.shouldRecycle self limit)).
Proof.
  repeat split; intros;
    unfold MemoryMonitor.start, MemoryMonitor.report,
      MemoryMonitor.shouldRecycle;
    keeps_steps.
Qed.

Lemma start_diskKept self : keeps diskKept (MemoryMonitor.start self).
Proof. apply monitor_diskKept. Qed.

Lemma report_diskKept self label :
  keeps diskKept (MemoryMonitor.report self label).
Proof. apply monitor_diskKept. Qed.

Lemma monitor_shouldRecycle_diskKept self limit :
  keeps diskKept (MemoryMonitor.shouldRecycle self limit).
Proof. apply monitor_diskKept. Qed.

#[global] Hint Resolve recordProcessState_diskKept start_diskKept
  report_diskKept monitor_shouldRecycle_diskKept : keeps.

(** X2. Only [endImageSession] and [saveDiagnostics] write to the sessions
    directory. Starting a session, recording checkpoints, attempts,
    results, process state and outcomes, computing the statistics, and
    every operation of the memory monitor and of the recycling manager
    leave the directory and the summary log exactly as they were, whether
    the call returns or throws. *)
Theorem only_end_and_saveDiagnostics_write_to_disk w :
  (forall imageId jobId url,
     disk (worldOf (DebugLogger.startImageSession imageId jobId url w))
     = disk w)
  /\ (forall imageId stageName details,
        disk (worldOf (DebugLogger.recordCheckpoint imageId stageName details w))
        = disk w)
  /\ (forall imageId methodName methodNumber startTime,
        disk (worldOf (DebugLogger.recordMethodAttempt imageId methodName
                         methodNumber startTime w))
        = disk w)
  /\ (forall imageId methodNumber success error domState extractionDetails,
        disk (worldOf (DebugLogger.recordMethodResult imageId methodNumber
                         success error domState extractionDetails w))
        = disk w)
  /\ (forall imageId state,
        disk (worldOf (DebugLogger.recordProcessState imageId state w))
        = disk w)
  /\ (forall imageId success error errorStack skipped skipReason,
        disk (worldOf (DebugLogger.recordOutcome imageId success error
                         errorStack skipped skipReason w))
        = disk w)
  /\ disk (worldOf (DebugLogger.getMethodStatistics w)) = disk w
  /\ (forall maxTasksPerCycle,
        disk (worldOf (ProcessRecyclingManager.constructor maxTasksPerCycle w))
        = disk w)
  /\ (forall self imageId,
        disk (worldOf (ProcessRecyclingManager.shouldRecycle self imageId w))
        = disk w)
  /\ (forall self,
        disk (worldOf (ProcessRecyclingManager.reportStatus self w)) = disk w)
  /\ (forall self imageId,
        disk (worldOf (ProcessRecyclingManager.reset self imageId w)) = disk w).
Proof.
  assert (Hk : forall A (m : Eff A),
             keeps diskKept m -> disk (worldOf (m w)) = disk w)
    by (intros A m Hm; exact (Hm w)).
  repeat split; intros; apply Hk;
    unfold DebugLogger.startImageSession, DebugLogger.recordCheckpoint,
      DebugLogger.recordMethodAttempt, DebugLogger.recordMethodResult,
      DebugLogger.recordOutcome, DebugLogger.getMethodStatistics,
      ProcessRecyclingManager.constructor,
      ProcessRecyclingManager.shouldRecycle,
      ProcessRecyclingManager.reportStatus, ProcessRecyclingManager.reset;
    keeps_steps.
Qed.

(** ** Ending a session *)

Lemma get_run imageId w :
  DebugLogger.get imageId w
  = Returns (currentSession (debugLogger w) !! imageId) w.
Proof. reflexivity. Qed.

Lemma summaryIsDirectory_write name s d :
  summaryIsDirectory d = false ->
  summaryIsDirectory
    (mkDisk (assocSet name (SessionFile s) (entries d)) (summaryLog d))
  = false.
Proof.
  unfold summaryIsDirectory. cbn [entries].
  induction (entries d) as [| [k v] l IH]; cbn [assocSet existsb fst snd].
  - intros _. cbn. rewrite andb_false_r. reflexivity.
  - intros H. apply orb_false_iff in H as [Hk Hl].
    destruct (String.eqb name k); cbn [existsb fst snd isDirectory].
    + rewrite andb_false_r, Hl. reflexivity.
    + rewrite Hk, (IH Hl). reflexivity.
Qed.

Lemma endImageSession_live imageId w s :
  liveSession w imageId = Some s ->
  (forall artefacts,
     assoc (endFileName w imageId s) (entries (disk w))
     <> Some (TaskDirectory artefacts)) ->
  summaryIsDirectory (disk w) = false ->
  exists w',
    DebugLogger.endImageSession imageId w = Returns tt w'
    /\ liveSession w' imageId = None
    /\ entries (disk w')
       = assocSet (endFileName w imageId s) (SessionFile (endedSession w s))
           (entries (disk w))
    /\ summaryLog (disk w')
       = Some (default [] (summaryLog (disk w)) ++ [endSummaryLine w s]).
Proof.
  unfold liveSession, endFileName, endSummaryLine, endedSession,
    readsBeforeFileName.
  intros Hs Hfree Hdir.
  unfold DebugLogger.endImageSession. unfold bind at 1.
  rewrite get_run, Hs.
  destruct (DebugLogger.lacksEndTime s);
    unfold bind, Date_now, DebugLogger.mutate, getLogger, putSessions, ret,
      writeSessionFile, getDisk, putDisk, throw, DebugLogger.logToConsole,
      console_log, emit, DebugLogger.appendToSummary, appendSummary,
      DebugLogger.delete;
    cbn -[summaryIsDirectory];
    match goal with
    | |- context [assoc ?n ?es] =>
        destruct (assoc n es) as [[? | ? | arts] |] eqn:Hassoc;
        try (exfalso; exact (Hfree arts eq_refl))
    end;
    cbn -[summaryIsDirectory];
    rewrite (summaryIsDirectory_write _ _ _ Hdir);
    (eexists; split; [reflexivity |]; cbn;
     split; [apply lookup_delete_eq |];
     split; reflexivity).
Qed.

(** X3. [endImageSession] for a live session returns and does four things,
    provided that the name of the session file is a single path component,
    that no directory stands under it, and that none stands in the place
    of the summary log: it writes the session under [<imageId>_<now>.json],
    with its end time and total duration filled in from the clock if they
    were missing; it appends one line to the summary log, creating the log
    if needed; it removes the session from the live map; and it leaves
    every later [endImageSession] for the same task a no-op. *)
Theorem endImageSession_persists_and_removes imageId w s :
  liveSession w imageId = Some s ->
  validName (endFileName w imageId s) = true ->
  (forall artefacts,
     assoc (endFileName w imageId s) (entries (disk w))
     <> Some (TaskDirectory artefacts)) ->
  summaryIsDirectory (disk w) = false ->
  exists w',
    DebugLogger.endImageSession imageId w = Returns tt w'
    /\ liveSession w' imageId = None
    /\ entries (disk w')
       = assocSet (endFileName w imageId s) (SessionFile (endedSession w s))
           (entries (disk w))
    /\ summaryLog (disk w')
       = Some (default [] (summaryLog (disk w)) ++ [endSummaryLine w s])
    /\ DebugLogger.endImageSession imageId w' = Returns tt w'.
Proof.
  intros Hs _ Hfree Hdir.
  destruct (endImageSession_live imageId w s Hs Hfree Hdir)
    as (w' & E & Hnone & Hentries & Hsummary).
  exists w'. repeat split; try assumption.
  unfold liveSession in Hnone.
  unfold DebugLogger.endImageSession, bind. rewrite get_run, Hnone.
  reflexivity.
Qed.

(** ** From a session to the statistics *)

Lemma substring_whole s : String.substring 0 (String.length s) s = s.
Proof.
  induction s as [| c s IH]; [reflexivity |].
  simpl. rewrite IH. reflexivity.
Qed.

Lemma endsWith_refl s : endsWith s s = true.
Proof.
  unfold endsWith. rewrite Nat.leb_refl, Nat.sub_diag, substring_whole.
  apply String.eqb_refl.
Qed.

Lemma length_append a b :
  String.length (a +:+ b) = (String.length a + String.length b)%nat.
Proof.
  induction a as [| c a IH]; [reflexivity |].
  simpl. rewrite IH. reflexivity.
Qed.

Lemma endsWith_append a b suffix :
  endsWith b suffix = true -> endsWith (a +:+ b) suffix = true.
Proof.
  unfold endsWith. intros H.
  destruct (Nat.leb_spec (String.length suffix) (String.length b)) as [Hle |];
    [| discriminate].
  rewrite length_append.
  destruct (Nat.leb_spec (String.length suffix)
              (String.length a + String.length b)) as [_ | Hlt]; [| lia].
  rewrite <- H. f_equal.
  induction a as [| c a IH]; [reflexivity |].
  simpl String.length. simpl String.append. simpl Nat.add.
  replace (S (String.length a + String.length b) - String.length suffix)%nat
    with (S (String.length a + String.length b - String.length suffix))
    by lia.
  simpl String.substring. exact IH.
Qed.

Lemma sessionFileName_json imageId now :
  endsWith (DebugLogger.sessionFileName imageId now) ".json" = true.
Proof.
  unfold DebugLogger.sessionFileName.
  do 3 apply endsWith_append. apply endsWith_refl.
Qed.

Lemma assocSet_fresh {A} k (v : A) l :
  assoc k l = None -> assocSet k v l = l ++ [(k, v)].
Proof.
  induction l as [| [k' v'] l IH]; cbn; [reflexivity |].
  destruct (String.eqb k k'); [discriminate |].
  intros H. rewrite (IH H). reflexivity.
Qed.

Lemma scanned_app files more :
  scanned (files ++ more) = scanned files ++ scanned more.
Proof.
  induction files as [| [name e] rest IH]; [reflexivity |].
  cbn [app scanned]. destruct e; try exact IH.
  destruct (endsWith name ".json"); [| exact IH].
  rewrite IH. apply app_assoc.
Qed.

Lemma persistedAttempts_ended w s :
  persistedAttempts (endedSession w s) = persistedAttempts s.
Proof. unfold endedSession. destruct (DebugLogger.lacksEndTime s); reflexivity. Qed.

(** X4. A session that [endImageSession] persists is read back by
    [getMethodStatistics]: when the session file name is a single path
    component and free, the directory holds only well-formed records, no
    directory stands in the place of the summary log and no attempt is
    named [__proto__], ending a live session and then computing the
    statistics returns one more summarised session and a table made from
    the attempts that the directory held before followed by the attempts
    of the session just ended: under every name the statistics of the
    attempts of that name, and nothing under a name that the table
    inherits as a function. *)
Theorem statistics_read_back_ended_session imageId w s :
  liveSession w imageId = Some s ->
  validName (endFileName w imageId s) = true ->
  assoc (endFileName w imageId s) (entries (disk w)) = None ->
  summaryIsDirectory (disk w) = false ->
  Forall readable (entries (disk w)) ->
  plainlyNamed (scanned (entries (disk w)) ++ persistedAttempts s) ->
  exists w' stats,
    DebugLogger.endImageSession imageId w = Returns tt w'
    /\ DebugLogger.getMethodStatistics w'
       = Returns
           (Report (S (length (default [] (summaryLog (disk w))))) stats) w'
    /\ forall name,
         stats !! name
         = tabulated (scanned (entries (disk w)) ++ persistedAttempts s) name.
Proof.
  intros Hs _ Hfree Hdir Hall Hplain.
  destruct (endImageSession_live imageId w s Hs)
    as (w' & E & _ & Hentries & Hsummary); [| exact Hdir |].
  { intros artefacts. rewrite Hfree. discriminate. }
  assert (Hscanned : scanned (entries (disk w'))
                     = scanned (entries (disk w)) ++ persistedAttempts s).
  { rewrite Hentries, (assocSet_fresh _ _ _ Hfree), scanned_app.
    cbn [scanned]. unfold endFileName. rewrite sessionFileName_json.
    rewrite app_nil_r, persistedAttempts_ended. reflexivity. }
  assert (Hdir' : summaryIsDirectory (disk w') = false).
  { unfold summaryIsDirectory. rewrite Hentries.
    exact (summaryIsDirectory_write _ _ _ Hdir). }
  destruct (statistics_readable w' _ Hdir' Hsummary)
    as (stats & Estats & Hstats).
  { rewrite Hentries, (assocSet_fresh _ _ _ Hfree). apply Forall_app.
    split; [exact Hall |].
    constructor; [| constructor]. intros _. cbn. eauto. }
  { rewrite Hscanned. exact Hplain. }
  exists w', stats. split; [exact E |].
  split.
  - rewrite Estats, length_app. cbn [length]. do 2 f_equal. lia.
  - intros name. rewrite Hstats, Hscanned. reflexivity.
Qed.

(** ** The order of the directory listing *)

Lemma scanned_perm files files' :
  Permutation files files' -> Permutation (scanned files) (scanned files').
Proof.
  induction 1 as [| e l l' _ IH | x y l | l1 l2 l3 _ IH1 _ IH2].
  - reflexivity.
  - change (e :: l) with ([e] ++ l). change (e :: l') with ([e] ++ l').
    rewrite !scanned_app. apply Permutation_app_head, IH.
  - change (y :: x :: l) with ([y] ++ [x] ++ l).
    change (x :: y :: l) with ([x] ++ [y] ++ l).
    rewrite !scanned_app, !app_assoc.
    apply Permutation_app_tail, Permutation_app_comm.
  - etransitivity; eassumption.
Qed.

Lemma filter_perm {A} (p : A -> bool) l l' :
  Permutation l l' -> Permutation (List.filter p l) (List.filter p l').
Proof.
  induction 1 as [| x l l' _ IH | x y l | l1 l2 l3 _ IH1 _ IH2]; cbn.
  - reflexivity.
  - destruct (p x); [constructor |]; exact IH.
  - destruct (p x), (p y); try reflexivity. apply perm_swap.
  - etransitivity; eassumption.
Qed.

Lemma count_perm {A} (p : A -> bool) l l' :
  Permutation l l' -> count p l = count p l'.
Proof.
  intros H. unfold count. f_equal.
  apply Permutation_length, filter_perm, H.
Qed.

Lemma sumDurations_perm ms ms' :
  Permutation ms ms' -> sumDurations ms = sumDurations ms'.
Proof.
  induction 1 as [| x l l' _ IH | x y l | l1 l2 l3 _ IH1 _ IH2]; cbn;
    [reflexivity | lia | lia | congruence].
Qed.

Lemma expectedStats_perm all all' name :
  Permutation all all' -> expectedStats all name = expectedStats all' name.
Proof.
  intros H. unfold expectedStats.
  pose proof (filter_perm (named name) _ _ H) as Hhits.
  destruct (List.filter (named name) all) as [| m hits] eqn:E.
  - apply Permutation_nil in Hhits. rewrite Hhits. reflexivity.
  - destruct (List.filter (named name) all') as [| m' hits'] eqn:E'.
    + symmetry in Hhits. apply Permutation_nil in Hhits. discriminate.
    + unfold statsOf.
      rewrite (count_perm (fun _ => true) _ _ Hhits),
        (count_perm MethodAttempt.success _ _ Hhits),
        (count_perm (fun m => negb (MethodAttempt.success m)) _ _ Hhits),
        (sumDurations_perm _ _ Hhits).
      reflexivity.
Qed.

Lemma scan_inr_readable files : forall table table',
  DebugLogger.scan files table = inr table' -> Forall readable files.
Proof.
  induction files as [| [name e] rest IH]; intros table table' H;
    [constructor |].
  cbn [DebugLogger.scan] in H.
  destruct (endsWith name ".json") eqn:Hjson.
  - destruct e as [s | raw | arts]; try discriminate.
    constructor; [| exact (IH _ _ H)].
    intros _. cbn. eauto.
  - constructor; [| exact (IH _ _ H)].
    unfold readable. cbn. congruence.
Qed.

Lemma existsb_perm {A} (p : A -> bool) l l' :
  Permutation l l' -> existsb p l = existsb p l'.
Proof.
  induction 1 as [| x l l' _ IH | x y l | l1 l2 l3 _ IH1 _ IH2]; cbn.
  - reflexivity.
  - rewrite IH. reflexivity.
  - destruct (p x), (p y); reflexivity.
  - congruence.
Qed.

Lemma foldl_pollute hits : forall p,
  foldl DebugLogger.pollute p hits
  = Polluted.mk
      (Polluted.attempts p || existsb (fun _ => true) hits)
      (Polluted.successes p || existsb MethodAttempt.success hits)
      (Polluted.failures p
       || existsb (fun m => negb (MethodAttempt.success m)) hits)
      (Polluted.totalDuration p
       || existsb
            (fun m =>
               match MethodAttempt.duration m with
               | Some d => negb (d =? 0)
               | None => false
               end) hits).
Proof.
  induction hits as [| m hits IH]; intros p.
  - destruct p. cbn. rewrite !orb_false_r. reflexivity.
  - cbn [foldl existsb]. rewrite IH. unfold DebugLogger.pollute.
    cbn [Polluted.attempts Polluted.successes Polluted.failures
         Polluted.totalDuration].
    rewrite !orb_assoc, orb_true_r. reflexivity.
Qed.

Lemma foldl_bump_perm st hits hits' :
  Permutation hits hits' ->
  foldl DebugLogger.bump st hits = foldl DebugLogger.bump st hits'.
Proof.
  intros H. rewrite !foldl_bump.
  rewrite (count_perm (fun _ => true) _ _ H),
    (count_perm MethodAttempt.success _ _ H),
    (count_perm (fun m => negb (MethodAttempt.success m)) _ _ H),
    (sumDurations_perm _ _ H).
  reflexivity.
Qed.

(** The table does not depend on the order of the attempts. *)
Lemma foldl_tally_perm table ms ms' :
  Permutation ms ms' ->
  foldl DebugLogger.tally table ms = foldl DebugLogger.tally table ms'.
Proof.
  intros H.
  assert (Hown : methodStats (foldl DebugLogger.tally table ms)
                 = methodStats (foldl DebugLogger.tally table ms')).
  { apply map_eq. intros name.
    destruct (DebugLogger.inheritsFunction name) eqn:Hin;
      [rewrite !foldl_tally_inherited by (left; exact Hin); reflexivity |].
    destruct (String.eqb_spec name "__proto__") as [Hp | Hp];
      [rewrite !foldl_tally_inherited by (right; exact Hp); reflexivity |].
    rewrite !foldl_tally_lookup by assumption.
    pose proof (filter_perm (named name) _ _ H) as Hhits.
    destruct (List.filter (named name) ms) as [| m hits].
    - apply Permutation_nil in Hhits. rewrite Hhits. reflexivity.
    - destruct (List.filter (named name) ms') as [| m' hits'].
      + symmetry in Hhits. apply Permutation_nil in Hhits. discriminate.
      + f_equal. apply foldl_bump_perm, Hhits. }
  assert (Hpolluted : polluted (foldl DebugLogger.tally table ms)
                      = polluted (foldl DebugLogger.tally table ms')).
  { rewrite !foldl_tally_polluted, !foldl_pollute.
    pose proof (filter_perm (named "__proto__") _ _ H) as Hhits.
    rewrite !(existsb_perm _ _ _ Hhits). reflexivity. }
  destruct (foldl DebugLogger.tally table ms),
    (foldl DebugLogger.tally table ms').
  cbn in Hown, Hpolluted. congruence.
Qed.

(** X5. The statistics do not depend on the order in which the directory
    is listed: two worlds with the same summary log whose directories hold
    the same entries in a different order give the same answer, be it the
    no-data message, the same table, or no table at all because a record
    is malformed. *)
Theorem statistics_ignore_listing_order w w' :
  summaryLog (disk w) = summaryLog (disk w') ->
  Permutation (entries (disk w)) (entries (disk w')) ->
  valueOf (DebugLogger.getMethodStatistics w)
  = valueOf (DebugLogger.getMethodStatistics w').
Proof.
  intros Hsum Hperm.
  assert (Hread : forall v v' : World,
            Permutation (entries (disk v)) (entries (disk v')) ->
            Forall readable (entries (disk v)) ->
            Forall readable (entries (disk v'))).
  { intros v v' Hp Hall. apply List.Forall_forall. intros e He.
    rewrite List.Forall_forall in Hall. apply Hall.
    apply (Permutation_in _ (Permutation_sym Hp) He). }
  unfold DebugLogger.getMethodStatistics, bind, getDisk, ret, throw.
  unfold summaryIsDirectory. rewrite <- (existsb_perm _ _ _ Hperm), <- Hsum.
  destruct (existsb _ (entries (disk w))); [reflexivity |].
  destruct (summaryLog (disk w)) as [lines |]; [| reflexivity].
  destruct (DebugLogger.scan (entries (disk w)) (mkTable ∅ Polluted.none))
    as [e | table] eqn:E;
    destruct (DebugLogger.scan (entries (disk w')) (mkTable ∅ Polluted.none))
      as [e' | table'] eqn:E';
    cbn; try reflexivity.
  - apply scan_inr_readable in E'.
    rewrite (scan_readable _ _ (Hread w' w (Permutation_sym Hperm) E')) in E.
    discriminate.
  - apply scan_inr_readable in E.
    rewrite (scan_readable _ _ (Hread w w' Hperm E)) in E'. discriminate.
  - pose proof (scan_inr_readable _ _ _ E) as Hall.
    rewrite (scan_readable _ _ Hall) in E.
    rewrite (scan_readable _ _ (Hread w w' Hperm Hall)) in E'.
    rewrite <- (foldl_tally_perm _ _ _ (scanned_perm _ _ Hperm)) in E'.
    assert (table' = table) as -> by congruence.
    destruct (DebugLogger.inheritedKeys table); reflexivity.
Qed.

(** ** Checkpoints *)

Lemma recordCheckpoint_live imageId stageName details w s :
  liveSession w imageId = Some s ->
  exists w',
    DebugLogger.recordCheckpoint imageId stageName details w = Returns tt w'
    /\ liveSession w' imageId
       = Some (DebugLogger.withStages
                 (insert stageName
                    (DebugLogger.spread (checkpointIn w stageName s) details))
                 s).
Proof.
  unfold liveSession. intros Hs.
  unfold DebugLogger.recordCheckpoint. unfold bind at 1.
  rewrite get_run, Hs. cbn.
  eexists. split; [reflexivity |]. cbn.
  rewrite lookup_alter_eq, Hs. reflexivity.
Qed.

(** X6. A sequence of [checkpoint] calls on a live session returns and
    leaves a stage under every name that was passed, next to the stages
    the session had: the keys of the stage mapping are the old keys and
    the names passed. A stage whose name was not passed, the session's
    start time, process state and outcome are unchanged; in particular a
    checkpoint of another stage never touches the recorded method
    attempts. *)
Theorem checkpoints_fill_the_stage_mapping imageId
    (calls : list (StageName * option Detail.t)) : forall w s,
  liveSession w imageId = Some s ->
  exists w' s',
    checkpoints imageId calls w = Returns tt w'
    /\ liveSession w' imageId = Some s'
    /\ base.dom (Session.stages s')
       =@{gset StageName}
         base.dom (Session.stages s) ∪ list_to_set (map fst calls)
    /\ (forall stageName,
          ~ In stageName (map fst calls) ->
          Session.stages s' !! stageName = Session.stages s !! stageName)
    /\ Session.startTime s' = Session.startTime s
    /\ Session.processState s' = Session.processState s
    /\ Session.outcome s' = Session.outcome s.
Proof.
  induction calls as [| [stageName details] rest IH]; intros w s Hs.
  - exists w, s. cbn. repeat split; auto.
    rewrite (right_id_L ∅ (∪)). reflexivity.
  - cbn [checkpoints]. unfold bind.
    destruct (recordCheckpoint_live imageId stageName details w s Hs)
      as (w1 & -> & Hs1).
    destruct (IH w1 _ Hs1)
      as (w2 & s2 & -> & Hs2 & Hdom & Hother & Hstart & Hps & Hout).
    exists w2, s2. split; [reflexivity |]. split; [exact Hs2 |].
    cbn in Hdom, Hother, Hstart, Hps, Hout |- *.
    repeat split; auto.
    + rewrite Hdom, dom_insert_L.
      rewrite (comm_L (∪) {[stageName]}), <- (assoc_L (∪)). reflexivity.
    + intros name Hnot. rewrite Hother by tauto.
      apply lookup_insert_ne. tauto.
Qed.

Lemma checkpoints_witness :
  exists w' s',
    checkpoints "img-1" [(navigation, None); (cookieBanner, None)] sessionWorld
      = Returns tt w'
    /\ liveSession w' "img-1" = Some s'
    /\ base.dom (Session.stages s')
       =@{gset StageName} {[navigation; cookieBanner]}.
Proof.
  destruct (checkpoints_fill_the_stage_mapping "img-1"
              [(navigation, None); (cookieBanner, None)] sessionWorld
              (DebugLogger.freshSession "img-1" "job-1"
                 "https://example.test/1" 0) eq_refl)
    as (w' & s' & E & Hs & Hdom & _).
  exists w', s'. split; [exact E |]. split; [exact Hs |].
  rewrite Hdom. vm_compute. reflexivity.
Defined.

(** ** The attempt counter and the methods list *)

Lemma increment_counted n : increment (CNum (Z.of_nat n)) = CNum (Z.of_nat (S n)).
Proof. cbn [increment]. f_equal. lia. Qed.

Lemma recordMethodAttempt_counted imageId methodName methodNumber startTime
    w s ms :
  liveSession w imageId = Some s ->
  counted s ->
  recordedAttempts s = Some ms ->
  exists w' s',
    DebugLogger.recordMethodAttempt imageId methodName methodNumber startTime w
      = Returns tt w'
    /\ liveSession w' imageId = Some s'
    /\ counted s'
    /\ recordedAttempts s'
       = Some (ms ++ [DebugLogger.newAttempt methodName methodNumber startTime]).
Proof.
  unfold counted, recordedAttempts. intros Hs Hcounted Hms.
  destruct (recordMethodAttempt_pushes imageId methodName methodNumber
              startTime w s ms Hs) as (w' & E & Hs' & _).
  { destruct (canvasStage s); [exact Hms |].
    injection Hms as <-. reflexivity. }
  eexists w', _. split; [exact E |]. split; [exact Hs' |].
  rewrite canvasStage_withStages_insert.
  split; [| reflexivity].
  eexists. split; [reflexivity |].
  cbn [DebugLogger.pushAttempt Stage.totalAttempts].
  destruct (canvasStage s) as [st |].
  - destruct Hcounted as (ms1 & Hms1 & Hcount). simpl default.
    assert (ms1 = ms) as -> by congruence.
    rewrite Hcount, increment_counted, length_app. cbn [length].
    do 2 f_equal. lia.
  - injection Hms as <-. reflexivity.
Qed.

Lemma recordMethodResult_counted imageId r w s ms :
  liveSession w imageId = Some s ->
  counted s ->
  recordedAttempts s = Some ms ->
  exists w' s' ms',
    DebugLogger.recordMethodResult imageId (rank r) (succeeded r) (failure r)
      (dom r) (extraction r) w = Returns tt w'
    /\ liveSession w' imageId = Some s'
    /\ counted s'
    /\ recordedAttempts s' = Some ms'
    /\ length ms' = length ms.
Proof.
  intros Hs Hcounted Hms.
  destruct (in_dec Z.eq_dec (rank r) (ranksOf ms)) as [Hin | Hnot].
  - unfold counted, recordedAttempts in *.
    destruct (canvasStage s) as [st |] eqn:Hst;
      [| injection Hms as <-; destruct Hin].
    destruct (find_ranked _ _ Hin) as [m Hfind].
    destruct (recordMethodResult_found imageId r w s st ms m Hs Hst Hms Hfind)
      as (w' & E & Hs' & _).
    eexists w', _, _. split; [exact E |]. split; [exact Hs' |].
    rewrite canvasStage_withStages_insert.
    cbn [DebugLogger.withResult Stage.methods Stage.totalAttempts].
    destruct Hcounted as (ms1 & Hms1 & Hcount).
    assert (ms1 = ms) as -> by congruence.
    split; [| split; [reflexivity | apply length_updateFirst]].
    eexists. split; [reflexivity |].
    rewrite length_updateFirst. exact Hcount.
  - exists w, s, ms.
    rewrite (recordMethodResult_unbegun imageId _ _ _ _ _ w s ms Hs Hms Hnot).
    auto.
Qed.

(** X7. On a live session whose canvas-extraction stage is absent, or was
    built by [beginAttempt] calls alone, every sequence of [beginAttempt]
    and [recordAttemptResult] calls returns without throwing and keeps the
    attempt counter equal to the length of the methods list; the list grows
    by one attempt per [beginAttempt] and a result never adds or removes
    an attempt, whether or not its rank was begun. *)
Theorem attempt_counter_is_the_length_of_methods imageId
    (calls : list AttemptCall) : forall w s ms,
  liveSession w imageId = Some s ->
  counted s ->
  recordedAttempts s = Some ms ->
  exists w' s' ms',
    attemptCalls imageId calls w = Returns tt w'
    /\ liveSession w' imageId = Some s'
    /\ counted s'
    /\ recordedAttempts s' = Some ms'
    /\ length ms' = (length ms + begun calls)%nat.
Proof.
  induction calls as [| [methodName methodNumber startTime | r] rest IH];
    intros w s ms Hs Hcounted Hms.
  - exists w, s, ms. cbn. repeat split; auto.
  - cbn [attemptCalls begun]. unfold bind.
    destruct (recordMethodAttempt_counted imageId methodName methodNumber
                startTime w s ms Hs Hcounted Hms)
      as (w1 & s1 & -> & Hs1 & Hc1 & Hms1).
    destruct (IH w1 s1 _ Hs1 Hc1 Hms1)
      as (w2 & s2 & ms2 & -> & Hs2 & Hc2 & Hms2 & Hlen).
    exists w2, s2, ms2. repeat split; auto.
    rewrite Hlen, length_app. cbn [length]. lia.
  - cbn [attemptCalls begun]. unfold bind.
    destruct (recordMethodResult_counted imageId r w s ms Hs Hcounted Hms)
      as (w1 & s1 & ms1 & -> & Hs1 & Hc1 & Hms1 & Hlen1).
    destruct (IH w1 s1 _ Hs1 Hc1 Hms1)
      as (w2 & s2 & ms2 & -> & Hs2 & Hc2 & Hms2 & Hlen).
    exists w2, s2, ms2. repeat split; auto. lia.
Qed.

Lemma attempt_counter_witness :
  exists w' s' ms',
    attemptCalls "img-1"
      [Begin "viewport-render" 1 10; Finish (succeeds 7);
       Begin "tile-stitch" 2 20; Finish (fails 2 "blank canvas")]
      sessionWorld = Returns tt w'
    /\ liveSession w' "img-1" = Some s'
    /\ counted s'
    /\ recordedAttempts s' = Some ms'
    /\ length ms' = 2%nat.
Proof.
  apply (attempt_counter_is_the_length_of_methods "img-1"
           [Begin "viewport-render" 1 10; Finish (succeeds 7);
            Begin "tile-stitch" 2 20; Finish (fails 2 "blank canvas")]
           sessionWorld
           (DebugLogger.freshSession "img-1" "job-1"
              "https://example.test/1" 0) []).
  - reflexivity.
  - exact I.
  - reflexivity.
Defined.

(** ** Which attempt a result is written to *)






(** ** Process state *)





Lemma recordProcessState_run imageId state w :
  DebugLogger.recordProcessState imageId state w
  = match liveSession w imageId with
    | Some session =>
        DebugLogger.mutate imageId
          (DebugLogger.withProcessState
             (DebugLogger.merge (Session.processState session) state)) w
    | None => Returns tt w
    end.
Proof.
  unfold DebugLogger.recordProcessState, bind, liveSession. rewrite get_run.
  destruct (currentSession (debugLogger w) !! imageId); reflexivity.
Qed.


(** ** What the recycling manager writes into a session *)

Lemma truthy_nonempty imageId :
  imageId <> EmptyString -> truthy_string (Some imageId) = true.
Proof.
  intros H. cbn. apply negb_true_iff, String.eqb_neq, H.
Qed.

(** X10. [reset] with the identifier of a live session zeroes the task
    counter, takes the heap reading of the call as the new baseline of the
    monitor, and merges into the session's process state the task number
    0, the restart flag, the task count of the cycle that ended and the
    heap in megabytes measured after the baseline. The session's
    [browserRestarts] counter is not incremented, and its stages and
    outcome are untouched. Without an identifier no session changes. *)
Theorem reset_records_restart_event self imageId w s :
  imageId <> EmptyString ->
  liveSession w imageId = Some s ->
  (exists self' w' s',
     ProcessRecyclingManager.reset self (Some imageId) w = Returns self' w'
     /\ ProcessRecyclingManager.tasksCompleted self' = 0
     /\ ProcessRecyclingManager.maxTasksPerCycle self'
        = ProcessRecyclingManager.maxTasksPerCycle self
     /\ MemoryMonitor.initialMemory (ProcessRecyclingManager.memoryMonitor self')
        = MemoryUsage.heapUsed (heap w (heapReads w))
     /\ liveSession w' imageId = Some s'
     /\ ProcessState.taskNumber (Session.processState s') = Some 0
     /\ ProcessState.browserRestart (Session.processState s') = Some true
     /\ ProcessState.previousTasksCompleted (Session.processState s')
        = Some (ProcessRecyclingManager.tasksCompleted self)
     /\ ProcessState.memoryMB (Session.processState s')
        = Some (toMB (MemoryUsage.heapUsed (heap w (S (heapReads w)))))
     /\ ProcessState.browserRestarts (Session.processState s')
        = ProcessState.browserRestarts (Session.processState s)
     /\ Session.stages s' = Session.stages s
     /\ Session.outcome s' = Session.outcome s)
  /\ (exists self' w',
        ProcessRecyclingManager.reset self None w = Returns self' w'
        /\ debugLogger w' = debugLogger w).
Proof.
  intros Hid Hs. split.
  - unfold ProcessRecyclingManager.reset, MemoryMonitor.start.
    rewrite (truthy_nonempty _ Hid).
    unfold bind, console_log, emit, when, ret, process_memoryUsage, Date_now.
    cbn -[DebugLogger.recordProcessState].
    rewrite recordProcessState_run. unfold liveSession in *.
    cbn. rewrite Hs.
    do 3 eexists. split; [reflexivity |]. cbn.
    rewrite lookup_alter_eq, Hs. cbn.
    repeat split; reflexivity.
  - unfold ProcessRecyclingManager.reset, MemoryMonitor.start.
    unfold bind, console_log, emit, when, ret, process_memoryUsage, Date_now.
    cbn. do 2 eexists. split; reflexivity.
Qed.

Lemma reset_records_witness :
  exists self' w' s',
    ProcessRecyclingManager.reset
      (ProcessRecyclingManager.mk 1 1 MemoryMonitor.new 300) (Some "img-1")
      sessionWorld = Returns self' w'
    /\ liveSession w' "img-1" = Some s'
    /\ ProcessState.previousTasksCompleted (Session.processState s') = Some 1
    /\ ProcessState.browserRestarts (Session.processState s') = 0.
Proof.
  destruct (proj1 (reset_records_restart_event
                     (ProcessRecyclingManager.mk 1 1 MemoryMonitor.new 300)
                     "img-1" sessionWorld
                     (DebugLogger.freshSession "img-1" "job-1"
                        "https://example.test/1" 0)
                     ltac:(discriminate) eq_refl))
    as (self' & w' & s' & E & _ & _ & _ & Hs & _ & _ & Hprev & _ & Hrestarts & _).
  exists self', w', s'. auto.
Defined.

(** X11. [shouldRecycle] with the identifier of a live session writes into
    that session only when it answers true. It then merges the task
    count, the recycle flag, the heap in megabytes of the manager's own
    measurement (the first of the call, not the one that decides), and
    the reason: the task limit whenever the limit is reached, also when
    memory is over the threshold as well, and the memory threshold
    otherwise. When the answer is false the live sessions are unchanged. *)
Theorem shouldRecycle_records_the_decision self imageId w s :
  imageId <> EmptyString ->
  liveSession w imageId = Some s ->
  exists w',
    ProcessRecyclingManager.shouldRecycle self (Some imageId) w
      = Returns (decision self (freshSample w)) w'
    /\ (decision self (freshSample w) = false ->
        debugLogger w' = debugLogger w)
    /\ (decision self (freshSample w) = true ->
        exists s',
          liveSession w' imageId = Some s'
          /\ ProcessState.taskNumber (Session.processState s')
             = Some (ProcessRecyclingManager.tasksCompleted self)
          /\ ProcessState.willRecycle (Session.processState s') = Some true
          /\ ProcessState.memoryMB (Session.processState s')
             = Some (toMB (MemoryUsage.heapUsed (heap w (heapReads w))))
          /\ ProcessState.recycleReason (Session.processState s')
             = Some
                 (if ProcessRecyclingManager.maxTasksPerCycle self
                     <=? ProcessRecyclingManager.tasksCompleted self
                  then TaskLimit (ProcessRecyclingManager.tasksCompleted self)
                         (ProcessRecyclingManager.maxTasksPerCycle self)
                  else MemoryThreshold
                         (toMB (MemoryUsage.heapUsed (heap w (heapReads w))))
                         (ProcessRecyclingManager.memoryThresholdMB self))
          /\ Session.stages s' = Session.stages s).
Proof.
  intros Hid Hs.
  unfold ProcessRecyclingManager.shouldRecycle, MemoryMonitor.shouldRecycle,
    ProcessRecyclingManager.recycleReason, decision, freshSample.
  rewrite (truthy_nonempty _ Hid).
  unfold bind at 1. cbn [process_memoryUsage].
  unfold bind at 1. unfold bind at 1. cbn [process_memoryUsage heapReads heap].
  set (tc := (_ <=? _)).
  set (ex := exceeds _ _).
  destruct ex, tc;
    unfold bind, console_log, console_warn, emit, when, ret;
    cbn -[DebugLogger.recordProcessState];
    try rewrite recordProcessState_run; unfold liveSession in *;
    cbn; rewrite ?Hs;
    (eexists; split; [reflexivity |]; cbn;
     split; [intros Hd; try discriminate Hd; reflexivity |];
     intros Hd; try discriminate Hd;
     eexists; rewrite lookup_alter_eq, Hs; cbn;
     repeat split; reflexivity).
Qed.

Lemma shouldRecycle_records_witness :
  exists w',
    ProcessRecyclingManager.shouldRecycle
      (ProcessRecyclingManager.mk 1 1 MemoryMonitor.new 300) (Some "img-1")
      sessionWorld = Returns true w'.
Proof.
  destruct (shouldRecycle_records_the_decision
              (ProcessRecyclingManager.mk 1 1 MemoryMonitor.new 300)
              "img-1" sessionWorld
              (DebugLogger.freshSession "img-1" "job-1"
                 "https://example.test/1" 0)
              ltac:(discriminate) eq_refl)
    as (w' & E & _).
  exists w'. exact E.
Defined.

(** ** The recycle decision over time *)

Lemma completions_nonneg calls : 0 <= completions calls.
Proof.
  induction calls as [| [] rest IH]; cbn [completions]; lia.
Qed.

(** X12. Once the task counter has reached [maxTasksPerCycle], every later
    [shouldRecycle] answers true, whatever the memory readings and whatever
    the caller does in between with [recordTaskComplete], [shouldRecycle],
    [reportStatus] and [getTasksCompleted]: only [reset] takes the manager
    out of that state. *)
Theorem exhausted_until_reset self (calls : list ManagerCall) w :
  ProcessRecyclingManager.maxTasksPerCycle self
    <= ProcessRecyclingManager.tasksCompleted self ->
  exists self' w',
    runCalls calls self w = Returns self' w'
    /\ forall asking,
         exists w'',
           ProcessRecyclingManager.shouldRecycle self' asking w'
           = Returns true w''.
Proof.
  intros Hlimit.
  destruct (runCalls_spec calls self w) as (self' & w' & E & Ht & Hm & _).
  exists self', w'. split; [exact E |].
  intros asking.
  destruct (shouldRecycle_spec self' asking w') as (w'' & E' & _).
  exists w''. rewrite E'. f_equal. unfold decision.
  apply orb_true_iff. left. apply Z.leb_le.
  pose proof (completions_nonneg calls). lia.
Qed.

Lemma exhausted_witness :
  exists self' w',
    runCalls [AskRecycle None; CompleteTask; ReportStatus]
      (ProcessRecyclingManager.mk 1 1 MemoryMonitor.new 300) quietWorld
    = Returns self' w'
    /\ forall asking,
         exists w'',
           ProcessRecyclingManager.shouldRecycle self' asking w'
           = Returns true w''.
Proof.
  apply (exhausted_until_reset
           (ProcessRecyclingManager.mk 1 1 MemoryMonitor.new 300)
           [AskRecycle None; CompleteTask; ReportStatus] quietWorld).
  cbn. lia.
Defined.

Lemma exceeds_bytes bytes limit :
  exceeds (toMB bytes) limit = (limit * 1048576 <? bytes).
Proof.
  unfold exceeds, toMB, Qle_bool. cbn.
  rewrite !Z.mul_1_r.
  change (Z.pos (1 * 1024 * 1024)) with 1048576.
  rewrite <- Z.ltb_antisym. reflexivity.
Qed.

(** X13. The memory check of the monitor compares bytes: it answers true
    exactly when the heap-used it measures is more than [maxMemoryMB]
    times 1048576 bytes (300 MB when no limit is passed), and it warns
    exactly when it answers true. Through it the manager answers true on
    memory alone: with the task counter below the limit, [shouldRecycle]
    is true as soon as the heap it measures afresh is over the threshold. *)
Theorem memory_alone_triggers_recycling :
  (forall self maxMemoryMB w,
     exists w',
       MemoryMonitor.shouldRecycle self maxMemoryMB w
       = Returns
           (default 300 maxMemoryMB * 1048576
              <? MemoryUsage.heapUsed (heap w (heapReads w))) w'
       /\ console w'
          = console w
            ++ (if default 300 maxMemoryMB * 1048576
                     <? MemoryUsage.heapUsed (heap w (heapReads w))
                then [Warn (MsgThresholdExceeded
                              (toMB (MemoryUsage.heapUsed
                                       (heap w (heapReads w))))
                              (default 300 maxMemoryMB))]
                else []))
  /\ (forall self imageId w,
        ProcessRecyclingManager.tasksCompleted self
          < ProcessRecyclingManager.maxTasksPerCycle self ->
        exists w',
          ProcessRecyclingManager.shouldRecycle self imageId w
          = Returns
              (ProcessRecyclingManager.memoryThresholdMB self * 1048576
                 <? MemoryUsage.heapUsed (freshSample w)) w').
Proof.
  split.
  - intros self maxMemoryMB w.
    unfold MemoryMonitor.shouldRecycle, bind, process_memoryUsage.
    rewrite exceeds_bytes.
    destruct (_ <? _); cbn; eexists; split; try reflexivity.
    cbn. rewrite app_nil_r. reflexivity.
  - intros self imageId w Hbelow.
    destruct (shouldRecycle_spec self imageId w) as (w' & E & _).
    exists w'. rewrite E. f_equal. unfold decision.
    rewrite exceeds_bytes.
    destruct (Z.leb_spec (ProcessRecyclingManager.maxTasksPerCycle self)
                (ProcessRecyclingManager.tasksCompleted self)); [lia |].
    reflexivity.
Qed.

Lemma memory_alone_witness :
  exists w',
    ProcessRecyclingManager.shouldRecycle
      (ProcessRecyclingManager.mk 0 3 MemoryMonitor.new 300) None loadedWorld
    = Returns true w'.
Proof.
  destruct (proj2 memory_alone_triggers_recycling
              (ProcessRecyclingManager.mk 0 3 MemoryMonitor.new 300) None
              loadedWorld ltac:(cbn; lia))
    as (w' & E).
  exists w'. exact E.
Defined.

(** ** Finishing and ending *)

Lemma recordOutcome_live imageId success error errorStack skipped skipReason
    w s :
  liveSession w imageId = Some s ->
  exists w',
    DebugLogger.recordOutcome imageId success error errorStack skipped
      skipReason w = Returns tt w'
    /\ liveSession w' imageId
       = Some (DebugLogger.withOutcome
                 (Outcome.mk success error errorStack skipped skipReason None)
                 (DebugLogger.withEnd (clock w (clockReads w)) s))
    /\ clock w' = clock w
    /\ clockReads w' = S (clockReads w)
    /\ disk w' = disk w.
Proof.
  unfold liveSession. intros Hs.
  unfold DebugLogger.recordOutcome. unfold bind at 1. rewrite get_run, Hs.
  cbn. eexists. split; [reflexivity |]. cbn.
  rewrite lookup_alter_eq, Hs. auto.
Qed.

(** X14. [finish] on a live session sets the outcome, the end time (the
    clock reading of the call) and the total duration (end minus start),
    and leaves stages and process state alone. A second [finish]
    overwrites all three: the session ends up as if only the second call
    had been made, at the second call's time. *)
Theorem finish_overwrites imageId w s
    success1 error1 stack1 skipped1 reason1
    success2 error2 stack2 skipped2 reason2 :
  liveSession w imageId = Some s ->
  exists w' s',
    (DebugLogger.recordOutcome imageId success1 error1 stack1 skipped1 reason1 ;;
     DebugLogger.recordOutcome imageId success2 error2 stack2 skipped2 reason2)
      w = Returns tt w'
    /\ liveSession w' imageId = Some s'
    /\ Session.outcome s'
       = Outcome.mk success2 error2 stack2 skipped2 reason2 None
    /\ Session.endTime s' = Some (clock w (S (clockReads w)))
    /\ Session.totalDuration s'
       = Some (clock w (S (clockReads w)) - Session.startTime s)
    /\ Session.stages s' = Session.stages s
    /\ Session.processState s' = Session.processState s.
Proof.
  intros Hs. unfold bind.
  destruct (recordOutcome_live imageId success1 error1 stack1 skipped1 reason1
              w s Hs) as (w1 & -> & Hs1 & Hc1 & Hr1 & _).
  destruct (recordOutcome_live imageId success2 error2 stack2 skipped2 reason2
              w1 _ Hs1) as (w2 & -> & Hs2 & _).
  eexists w2, _. split; [reflexivity |]. split; [exact Hs2 |].
  rewrite Hc1, Hr1. cbn. repeat split; reflexivity.
Qed.

Lemma finish_overwrites_witness :
  exists w' s',
    (DebugLogger.recordOutcome "img-1" false (Some "timeout") None None None ;;
     DebugLogger.recordOutcome "img-1" true None None None None)
      sessionWorld = Returns tt w'
    /\ liveSession w' "img-1" = Some s'
    /\ Outcome.success (Session.outcome s') = true
    /\ Session.endTime s' = Some 2.
Proof.
  destruct (finish_overwrites "img-1" sessionWorld
              (DebugLogger.freshSession "img-1" "job-1"
                 "https://example.test/1" 0)
              false (Some "timeout") None None None
              true None None None None eq_refl)
    as (w' & s' & E & Hs & Hout & Hend & _).
  exists w', s'. split; [exact E |]. split; [exact Hs |].
  rewrite Hout, Hend. split; reflexivity.
Defined.

Lemma assoc_assocSet {A} k (v : A) l : assoc k (assocSet k v l) = Some v.
Proof.
  induction l as [| [k' v'] l IH]; cbn.
  - rewrite String.eqb_refl. reflexivity.
  - destruct (String.eqb k k') eqn:E; cbn.
    + rewrite String.eqb_refl. reflexivity.
    + rewrite E. exact IH.
Qed.

(** X15. [end] keeps what [finish] recorded: when [finish] ran at a clock
    reading other than 0, the session file name is a single path component
    with no directory under it, and no directory stands in the place of
    the summary log, [finish] followed by [end] persists the session with
    the outcome, end time and total duration of [finish], and the summary
    line carries that success flag and that duration. *)
Theorem end_keeps_the_finish imageId w s success error errorStack skipped
    skipReason :
  liveSession w imageId = Some s ->
  clock w (clockReads w) <> 0 ->
  validName
    (DebugLogger.sessionFileName imageId (clock w (S (clockReads w)))) = true ->
  (forall artefacts,
     assoc (DebugLogger.sessionFileName imageId (clock w (S (clockReads w))))
       (entries (disk w))
     <> Some (TaskDirectory artefacts)) ->
  summaryIsDirectory (disk w) = false ->
  exists w',
    (DebugLogger.recordOutcome imageId success error errorStack skipped
       skipReason ;;
     DebugLogger.endImageSession imageId) w = Returns tt w'
    /\ liveSession w' imageId = None
    /\ assoc (DebugLogger.sessionFileName imageId (clock w (S (clockReads w))))
         (entries (disk w'))
       = Some (SessionFile
                 (DebugLogger.withOutcome
                    (Outcome.mk success error errorStack skipped skipReason
                       None)
                    (DebugLogger.withEnd (clock w (clockReads w)) s)))
    /\ exists line,
         summaryLog (disk w')
         = Some (default [] (summaryLog (disk w)) ++ [line])
         /\ SummaryLine.success line = success
         /\ SummaryLine.duration line
            = Some (clock w (clockReads w) - Session.startTime s).
Proof.
  intros Hs Hnow _ Hfree Hdir. unfold bind.
  destruct (recordOutcome_live imageId success error errorStack skipped
              skipReason w s Hs) as (w1 & -> & Hs1 & Hc1 & Hr1 & Hd1).
  set (s1 := DebugLogger.withOutcome _ _) in *.
  assert (Hlacks : DebugLogger.lacksEndTime s1 = false).
  { unfold DebugLogger.lacksEndTime. cbn. apply Z.eqb_neq, Hnow. }
  assert (Hname : endFileName w1 imageId s1
                  = DebugLogger.sessionFileName imageId
                      (clock w (S (clockReads w)))).
  { unfold endFileName, readsBeforeFileName. rewrite Hlacks, Hc1, Hr1.
    reflexivity. }
  destruct (endImageSession_live imageId w1 s1 Hs1)
    as (w2 & -> & Hnone & Hentries & Hsummary).
  { intros artefacts. rewrite Hname, Hd1. apply Hfree. }
  { rewrite Hd1. exact Hdir. }
  exists w2. split; [reflexivity |]. split; [exact Hnone |].
  assert (Hended : endedSession w1 s1 = s1)
    by (unfold endedSession; rewrite Hlacks; reflexivity).
  split.
  - rewrite Hentries, Hname, Hended. apply assoc_assocSet.
  - eexists. rewrite Hsummary, Hd1. split; [reflexivity |].
    unfold endSummaryLine. rewrite Hended. split; reflexivity.
Qed.

(** ** Diagnostics *)

Lemma total_ret {A} (a : A) w (Q : A -> World -> Prop) :
  Q a w -> total (ret a) w Q.
Proof. intros H. exists a, w. auto. Qed.

Lemma total_bind {A B} (m : Eff A) (k : A -> Eff B) w
    (P : A -> World -> Prop) (Q : B -> World -> Prop) :
  total m w P ->
  (forall a w1, P a w1 -> total (k a) w1 Q) ->
  total (bind m k) w Q.
Proof.
  intros (a & w1 & E & HP) Hk. unfold total, bind. rewrite E.
  exact (Hk a w1 HP).
Qed.

Lemma withDiagnostics_same s d :
  Session.diagnostics s = Some d -> DebugLogger.withDiagnostics d s = s.
Proof. destruct s. cbn. intros ->. reflexivity. Qed.

Section Diagnosing.

Variable imageId : string.

Lemma mutate_diagnosing f s files dir w :
  diagnosing imageId s files dir w ->
  total (DebugLogger.mutate imageId f) w
    (fun _ => diagnosing imageId (f s) files dir).
Proof.
  intros (Hs & Hfiles & Hdir). eexists tt, _. split; [reflexivity |].
  unfold diagnosing, liveSession in *. cbn.
  rewrite lookup_alter_eq, Hs. auto.
Qed.

Lemma log_diagnosing m s files dir w :
  diagnosing imageId s files dir w ->
  total (DebugLogger.logToConsole m) w
    (fun _ => diagnosing imageId s files dir).
Proof. intros H. eexists tt, _. split; [reflexivity | exact H]. Qed.

Lemma writeArtefact_diagnosing name data s files dir w :
  diagnosing imageId s files dir w ->
  total (writeArtefact imageId name data) w
    (fun _ => diagnosing imageId s (assocSet name data files) dir).
Proof.
  intros (Hs & Hfiles & Hdir). unfold total, writeArtefact, bind, getDisk.
  rewrite Hfiles. eexists tt, _. split; [reflexivity |].
  unfold diagnosing, liveSession in *. cbn.
  rewrite assoc_assocSet. auto.
Qed.

Lemma ensureDirectory_diagnosing s files dir w :
  liveSession w imageId = Some s ->
  artefactsOf (disk w) imageId = Some files ->
  sessionsDir (debugLogger w) = dir ->
  total (existsSync imageId) w
    (fun present w' =>
       w' = w
       /\ total (when (negb present) (mkdirSync imageId)) w
            (fun _ => diagnosing imageId s files dir)).
Proof.
  unfold artefactsOf. intros Hs Hfiles Hdir.
  eexists _, w. split; [reflexivity |]. split; [reflexivity |].
  unfold total, mkdirSync, bind, getDisk, ret.
  destruct (assoc imageId (entries (disk w))) as [[? | ? | files0] |] eqn:E;
    try discriminate Hfiles.
  - injection Hfiles as <-. cbn. eexists tt, _. split; [reflexivity |].
    unfold diagnosing. auto.
  - destruct (isSummaryLog (disk w) imageId) eqn:Hlog; [discriminate |].
    injection Hfiles as <-. cbn. rewrite E, Hlog.
    eexists tt, _. split; [reflexivity |].
    unfold diagnosing, liveSession in *. cbn. rewrite assoc_assocSet. auto.
Qed.

Lemma ensureDiagnostics_diagnosing s files dir w :
  diagnosing imageId s files dir w ->
  total
    (when (match Session.diagnostics s with None => true | Some _ => false end)
       (DebugLogger.mutate imageId
          (DebugLogger.withDiagnostics Diagnostics.empty))) w
    (fun _ =>
       diagnosing imageId
         (DebugLogger.withDiagnostics
            (default Diagnostics.empty (Session.diagnostics s)) s)
         files dir).
Proof.
  intros H. destruct (Session.diagnostics s) as [d |] eqn:Hd; cbn [when].
  - apply total_ret. simpl default.
    rewrite (withDiagnostics_same _ _ Hd). exact H.
  - apply mutate_diagnosing, H.
Qed.

Lemma screenshot_diagnosing screenshotBuffer s files dir w :
  diagnosing imageId s files dir w ->
  total
    (match screenshotBuffer with
     | Some buffer =>
         writeArtefact imageId "failure-screenshot.png" buffer ;;
         DebugLogger.mutate imageId
           (DebugLogger.setScreenshotPath
              (join (join dir imageId) "failure-screenshot.png")) ;;
         DebugLogger.logToConsole
           (MsgScreenshotSaved imageId
              (join (join dir imageId) "failure-screenshot.png"))
     | None => ret tt
     end) w
    (fun _ =>
       diagnosing imageId
         (match screenshotBuffer with
          | Some _ =>
              DebugLogger.setScreenshotPath
                (join (join dir imageId) "failure-screenshot.png") s
          | None => s
          end)
         (match screenshotBuffer with
          | Some buffer => assocSet "failure-screenshot.png" buffer files
          | None => files
          end)
         dir).
Proof.
  intros H. destruct screenshotBuffer as [buffer |]; [| apply total_ret, H].
  eapply total_bind; [apply writeArtefact_diagnosing, H |].
  intros [] w1 H1.
  eapply total_bind; [apply mutate_diagnosing, H1 |].
  intros [] w2 H2. apply log_diagnosing, H2.
Qed.

Lemma html_diagnosing htmlSnapshot s files dir w :
  diagnosing imageId s files dir w ->
  total
    (when (truthy_string htmlSnapshot)
       (writeArtefact imageId "failure-dom.html"
          (default EmptyString htmlSnapshot) ;;
        DebugLogger.mutate imageId
          (DebugLogger.setHtmlSnapshotPath
             (join (join dir imageId) "failure-dom.html")) ;;
        DebugLogger.logToConsole
          (MsgHtmlSaved imageId (join (join dir imageId) "failure-dom.html"))))
    w
    (fun _ =>
       diagnosing imageId
         (if truthy_string htmlSnapshot
          then DebugLogger.setHtmlSnapshotPath
                 (join (join dir imageId) "failure-dom.html") s
          else s)
         (if truthy_string htmlSnapshot
          then assocSet "failure-dom.html" (default EmptyString htmlSnapshot)
                 files
          else files)
         dir).
Proof.
  intros H. destruct (truthy_string htmlSnapshot); cbn [when];
    [| apply total_ret, H].
  eapply total_bind; [apply writeArtefact_diagnosing, H |].
  intros [] w1 H1.
  eapply total_bind; [apply mutate_diagnosing, H1 |].
  intros [] w2 H2. apply log_diagnosing, H2.
Qed.

Lemma lines_diagnosing (set : list string -> Session.t -> Session.t)
    (lines : option (list string)) s files dir w :
  diagnosing imageId s files dir w ->
  total
    (match lines with
     | Some l => DebugLogger.mutate imageId (set l)
     | None => ret tt
     end) w
    (fun _ =>
       diagnosing imageId
         (match lines with Some l => set l s | None => s end) files dir).
Proof.
  intros H. destruct lines; [apply mutate_diagnosing, H | apply total_ret, H].
Qed.

End Diagnosing.

(** X16. [saveDiagnostics] on a live session, when the task identifier is
    a single path component and no file stands in the place of the task's
    directory, returns; the directory exists afterwards, also when no
    artefact was passed, and holds the screenshot and a non-empty HTML
    snapshot under their fixed names next to the files it held. The
    session then has a diagnostics object in which each field whose
    argument was provided is replaced and every other field is kept, so
    that repeated calls accumulate; an empty HTML snapshot counts as not
    provided. *)
Theorem saveDiagnostics_replaces_provided_fields imageId w s files
    screenshotBuffer htmlSnapshot consoleLogs networkErrors :
  liveSession w imageId = Some s ->
  validName imageId = true ->
  artefactsOf (disk w) imageId = Some files ->
  exists w' s',
    DebugLogger.saveDiagnostics imageId screenshotBuffer htmlSnapshot
      consoleLogs networkErrors w = Returns tt w'
    /\ liveSession w' imageId = Some s'
    /\ Session.diagnostics s'
       = Some (savedDiagnostics (join (sessionsDir (debugLogger w)) imageId)
                 screenshotBuffer htmlSnapshot consoleLogs networkErrors
                 (default Diagnostics.empty (Session.diagnostics s)))
    /\ assoc imageId (entries (disk w'))
       = Some (TaskDirectory
                 (savedArtefacts screenshotBuffer htmlSnapshot files))
    /\ Session.stages s' = Session.stages s
    /\ Session.outcome s' = Session.outcome s.
Proof.
  intros Hs _ Hfiles.
  set (dir := sessionsDir (debugLogger w)).
  set (d0 := default Diagnostics.empty (Session.diagnostics s)).
  enough (total (DebugLogger.saveDiagnostics imageId screenshotBuffer
                   htmlSnapshot consoleLogs networkErrors) w
            (fun _ w' =>
               exists s',
                 diagnosing imageId s'
                   (savedArtefacts screenshotBuffer htmlSnapshot files) dir w'
                 /\ Session.diagnostics s'
                    = Some (savedDiagnostics (join dir imageId)
                              screenshotBuffer htmlSnapshot consoleLogs
                              networkErrors d0)
                 /\ Session.stages s' = Session.stages s
                 /\ Session.outcome s' = Session.outcome s))
    as ([] & w' & E & s' & (Hs' & Hfiles' & _) & Hd & Hst & Hout)
    by (exists w', s'; auto 10).
  unfold DebugLogger.saveDiagnostics.
  apply (total_bind _ _ _ (fun found w0 => found = Some s /\ w0 = w)).
  { eexists _, w. split; [apply get_run |]. auto. }
  intros found w0 [-> ->].
  apply (total_bind _ _ _ (fun l w0 => l = debugLogger w /\ w0 = w)).
  { eexists _, w. split; [reflexivity |]. auto. }
  intros l w0 [-> ->]. cbv zeta. fold dir.
  eapply total_bind;
    [apply (ensureDirectory_diagnosing imageId s files dir w Hs Hfiles eq_refl) |].
  intros present w0 [-> Hmk].
  eapply total_bind; [exact Hmk |]. intros [] w1 H1.
  eapply total_bind; [apply ensureDiagnostics_diagnosing, H1 |].
  intros [] w2 H2.
  eapply total_bind;
    [apply (screenshot_diagnosing imageId screenshotBuffer), H2 |].
  intros [] w3 H3.
  eapply total_bind; [apply (html_diagnosing imageId htmlSnapshot), H3 |].
  intros [] w4 H4.
  eapply total_bind;
    [apply (lines_diagnosing imageId DebugLogger.setConsoleLogs consoleLogs),
       H4 |].
  intros [] w5 H5.
  pose proof (lines_diagnosing imageId DebugLogger.setNetworkErrors
                networkErrors _ _ _ _ H5) as (a & w6 & E & H6).
  exists a, w6. split; [exact E |].
  eexists. split; [exact H6 |].
  subst d0. unfold savedDiagnostics.
  destruct (Session.diagnostics s) as [[] |], screenshotBuffer,
    (truthy_string htmlSnapshot), consoleLogs, networkErrors;
    repeat split; reflexivity.
Qed.

(** ** The monitor's growth report *)

(** X17. The growth that [report] warns about is measured against the
    heap reading of the last [start]: [start] followed by [report] returns,
    writes the initial-heap line and the five report lines, and adds the
    growth warning exactly when the heap reading of the report exceeds
    the reading of the start by more than 209715200 bytes (200 MB). *)
Theorem report_measures_growth_since_start self label w :
  exists monitor w1 w2,
    MemoryMonitor.start self w = Returns monitor w1
    /\ MemoryMonitor.initialMemory monitor
       = MemoryUsage.heapUsed (heap w (heapReads w))
    /\ MemoryMonitor.report monitor label w1 = Returns tt w2
    /\ let growth :=
         MemoryUsage.heapUsed (heap w (S (heapReads w)))
         - MemoryUsage.heapUsed (heap w (heapReads w)) in
       filter (fun e => isWarning e = true) (console w2)
       = filter (fun e => isWarning e = true) (console w)
         ++ (if 209715200 <? growth
             then [Warn (MsgSignificantGrowth growth)]
             else []).
Proof.
  unfold MemoryMonitor.start, MemoryMonitor.report.
  unfold bind, console_log, console_warn, emit, ret, process_memoryUsage,
    Date_now.
  cbn.
  change (200 * 1024 * 1024) with 209715200.
  destruct (209715200 <? _) eqn:E; do 3 eexists;
    (split; [reflexivity |]); (split; [reflexivity |]);
    (split; [cbn; rewrite ?E; reflexivity |]);
    cbn; rewrite !filter_app; cbn;
    rewrite ?app_nil_r; reflexivity.
Qed.

(** ** Entries that are not session records *)

Lemma scan_json_only files : forall table,
  DebugLogger.scan files table
  = DebugLogger.scan
      (List.filter (fun e => endsWith (fst e) ".json") files) table.
Proof.
  induction files as [| [name e] rest IH]; intros table; [reflexivity |].
  cbn [DebugLogger.scan List.filter fst].
  destruct (endsWith name ".json") eqn:Hjson; [| apply IH].
  cbn [DebugLogger.scan]. rewrite Hjson.
  destruct e; try reflexivity. apply IH.
Qed.

Lemma summaryIsDirectory_jsonOnly w :
  summaryIsDirectory (disk w) = false ->
  summaryIsDirectory (disk (jsonOnly w)) = false.
Proof.
  unfold summaryIsDirectory, jsonOnly. cbn [disk entries].
  induction (entries (disk w)) as [| e l IH]; [reflexivity |].
  cbn [existsb List.filter]. intros H.
  apply orb_false_iff in H as [He Hl].
  destruct (endsWith (fst e) ".json"); [| exact (IH Hl)].
  cbn [existsb]. rewrite He. exact (IH Hl).
Qed.

(** X18. With the summary log as it is, and unless a directory stands in
    the place of the log, the entries of the sessions directory whose name
    does not end in [.json] (the directories of diagnostic artefacts,
    stray or malformed files) have no influence on the statistics: they
    can be there or not, the call returns the same result, or fails
    alike. *)
Theorem statistics_read_json_entries_only w :
  summaryIsDirectory (disk w) = false ->
  valueOf (DebugLogger.getMethodStatistics w)
  = valueOf (DebugLogger.getMethodStatistics (jsonOnly w)).
Proof.
  intros Hdir.
  unfold DebugLogger.getMethodStatistics, bind, getDisk, ret, throw.
  rewrite (summaryIsDirectory_jsonOnly w Hdir), Hdir.
  unfold jsonOnly. cbn [disk summaryLog entries].
  destruct (summaryLog (disk w)); [| reflexivity].
  rewrite <- scan_json_only.
  destruct (DebugLogger.scan (entries (disk w)) (mkTable ∅ Polluted.none))
    as [e | table]; [reflexivity |].
  destruct (DebugLogger.inheritedKeys table); reflexivity.
Qed.

(** ** Statistics per method name *)

(** X19. When the summary log exists, every record of the directory is
    well formed and no attempt is named [__proto__],
    [computeMethodStatistics] returns the number of summary lines and a
    table that holds an entry under a method name exactly when the
    persisted sessions hold an attempt of that name, for every name but
    those the table inherits as functions ([constructor], [toString] and
    the like). The entry gives the number of attempts of that name, the
    number of those marked successful, the number of those not marked
    successful, and as average the sum of their durations divided by the
    number of attempts, which is at least 1: the average is a finite
    number, never not-a-number. For three persisted sessions in which
    "viewport-render" succeeds with durations 100 ms and 200 ms and fails
    with duration 50 ms, the table holds attempts 3, successes 2,
    failures 1 and average (100 + 200 + 50) / 3 under that name, and 3
    summarised sessions are counted. *)
Theorem statistics_per_method_name :
  (forall w lines,
     summaryIsDirectory (disk w) = false ->
     summaryLog (disk w) = Some lines ->
     Forall readable (entries (disk w)) ->
     plainlyNamed (scanned (entries (disk w))) ->
     exists stats,
       DebugLogger.getMethodStatistics w
         = Returns (Report (length lines) stats) w
       /\ forall name,
            DebugLogger.inheritsFunction name = false ->
            let hits := List.filter (named name) (scanned (entries (disk w))) in
            match stats !! name with
            | None => hits = []
            | Some st =>
                hits <> []
                /\ MethodStats.attempts st = count (fun _ => true) hits
                /\ MethodStats.successes st = count MethodAttempt.success hits
                /\ MethodStats.failures st
                   = count (fun m => negb (MethodAttempt.success m)) hits
                /\ MethodStats.attempts st
                   = MethodStats.successes st + MethodStats.failures st
                /\ 1 <= MethodStats.attempts st
                /\ MethodStats.avgDuration st
                   = Finite (inject_Z (sumDurations hits)
                             / inject_Z (MethodStats.attempts st))%Q
                /\ MethodStats.avgDuration st <> NaN
            end)
  /\ DebugLogger.getMethodStatistics (onDisk threeSessions)
     = Returns
         (Report 3
            {[ "viewport-render" :=
                 MethodStats.mk 3 2 1 (Finite ((100 + 200 + 50) / 3)%Q) 350 ]})
         (onDisk threeSessions).
Proof.
  split; [| vm_compute; reflexivity].
  intros w lines Hdir Hsum Hall Hplain.
  destruct (statistics_readable w lines Hdir Hsum Hall Hplain)
    as (stats & E & Hstats).
  exists stats. split; [exact E |].
  intros name Hin hits. rewrite Hstats. unfold tabulated, expectedStats.
  rewrite Hin. fold hits.
  destruct hits as [| m hits'] eqn:Hhits; [reflexivity |].
  assert (Hpos : 1 <= count (fun _ => true) (m :: hits')).
  { unfold count. cbn. lia. }
  unfold statsOf.
  cbn [MethodStats.attempts MethodStats.successes MethodStats.failures
       MethodStats.avgDuration].
  rewrite divide_finite by lia.
  repeat split; try reflexivity; try discriminate; try lia.
  apply count_split.
Qed.

(** ** Instances *)

Lemma sessions_are_isolated_witness :
  liveSession
    (worldOf (DebugLogger.endImageSession "img-2" sessionWorld)) "img-1"
  = liveSession sessionWorld "img-1".
Proof.
  apply (sessions_are_isolated "img-2" "img-1" sessionWorld).
  discriminate.
Defined.

Lemma endImageSession_witness :
  exists w',
    DebugLogger.endImageSession "img-1" sessionWorld = Returns tt w'
    /\ liveSession w' "img-1" = None
    /\ DebugLogger.endImageSession "img-1" w' = Returns tt w'.
Proof.
  destruct (endImageSession_persists_and_removes "img-1" sessionWorld
              (DebugLogger.freshSession "img-1" "job-1"
                 "https://example.test/1" 0) eq_refl)
    as (w' & E & Hnone & _ & _ & Hagain).
  - reflexivity.
  - intros artefacts. discriminate.
  - reflexivity.
  - exists w'. auto.
Defined.

Lemma statistics_read_back_witness :
  exists w' stats,
    DebugLogger.endImageSession "img-1" attemptedWorld = Returns tt w'
    /\ DebugLogger.getMethodStatistics w' = Returns (Report 1 stats) w'.
Proof.
  destruct (statistics_read_back_ended_session "img-1" attemptedWorld
              (DebugLogger.withStages
                 (insert canvasExtraction
                    (Stage.mk "canvasExtraction" 10 10 None (Some "unknown")
                       (CNum 2) (Some "viewport-render")
                       (Some
                          [MethodAttempt.mk "viewport-render" 1 10 (Some 1)
                             (Some (-9)) true None None None;
                           MethodAttempt.mk "tile-stitch" 2 20 None None
                             false None None None])
                       []))
                 (DebugLogger.freshSession "img-1" "job-1"
                    "https://example.test/1" 0)))
    as (w' & stats & E & Estats & _).
  - vm_compute. reflexivity.
  - reflexivity.
  - reflexivity.
  - reflexivity.
  - constructor.
  - repeat constructor; discriminate.
  - exists w', stats. auto.
Defined.

Lemma listing_order_witness :
  valueOf (DebugLogger.getMethodStatistics (onDisk threeSessions))
  = valueOf
      (DebugLogger.getMethodStatistics
         (onDisk (mkDisk (rev (entries threeSessions))
                    (summaryLog threeSessions)))).
Proof.
  apply statistics_ignore_listing_order.
  - reflexivity.
  - apply Permutation_rev.
Defined.

Lemma end_keeps_the_finish_witness :
  exists w',
    (DebugLogger.recordOutcome "img-1" true None None None None ;;
     DebugLogger.endImageSession "img-1") sessionWorld = Returns tt w'
    /\ liveSession w' "img-1" = None.
Proof.
  destruct (end_keeps_the_finish "img-1" sessionWorld
              (DebugLogger.freshSession "img-1" "job-1"
                 "https://example.test/1" 0)
              true None None None None eq_refl)
    as (w' & E & Hnone & _).
  - discriminate.
  - reflexivity.
  - intros artefacts. discriminate.
  - reflexivity.
  - exists w'. auto.
Defined.

Lemma saveDiagnostics_witness :
  exists w' s',
    DebugLogger.saveDiagnostics "img-1" (Some "PNG") (Some EmptyString) None
      (Some ["net::ERR_TIMED_OUT"]) sessionWorld = Returns tt w'
    /\ liveSession w' "img-1" = Some s'
    /\ Session.diagnostics s'
       = Some (Diagnostics.mk
                 (Some "logs/debug-sessions/img-1/failure-screenshot.png")
                 None None (Some ["net::ERR_TIMED_OUT"]))
    /\ assoc "img-1" (entries (disk w'))
       = Some (TaskDirectory [("failure-screenshot.png", "PNG")]).
Proof.
  destruct (saveDiagnostics_replaces_provided_fields "img-1" sessionWorld
              (DebugLogger.freshSession "img-1" "job-1"
                 "https://example.test/1" 0)
              [] (Some "PNG") (Some EmptyString) None
              (Some ["net::ERR_TIMED_OUT"]) eq_refl eq_refl eq_refl)
    as (w' & s' & E & Hs & Hd & Hfiles & _).
  exists w', s'. auto.
Defined.

Lemma json_entries_only_witness :
  valueOf
    (DebugLogger.getMethodStatistics
       (onDisk (mkDisk (("img-1", TaskDirectory []) :: entries threeSessions)
                  (summaryLog threeSessions))))
  = valueOf (DebugLogger.getMethodStatistics (onDisk threeSessions)).
Proof.
  apply (statistics_read_json_entries_only
           (onDisk (mkDisk (("img-1", TaskDirectory []) :: entries threeSessions)
                      (summaryLog threeSessions)))).
  reflexivity.
Defined.

Lemma statistics_per_method_witness :
  exists stats,
    DebugLogger.getMethodStatistics (onDisk threeSessions)
      = Returns (Report 3 stats) (onDisk threeSessions)
    /\ match stats !! "viewport-render" with
       | Some st =>
           MethodStats.attempts st = 3 /\ MethodStats.avgDuration st <> NaN
       | None => False
       end.
Proof.
  destruct (proj1 statistics_per_method_name (onDisk threeSessions)
              (default [] (summaryLog threeSessions)) eq_refl eq_refl)
    as (stats & E & H).
  - repeat constructor; intros _; eexists; reflexivity.
  - repeat constructor; discriminate.
  - exists stats. split; [exact E |].
    specialize (H "viewport-render" eq_refl). cbv zeta in H.
    destruct (stats !! "viewport-render") as [st |]; [| discriminate H].
    destruct H as (_ & Hattempts & _ & _ & _ & _ & _ & Hnan).
    split; [exact Hattempts | exact Hnan].
Defined.
